(** * Student complaint management system: the SLA-driven ticket lifecycle

    A shallow embedding of [complaints/models.py], [complaints/signals.py],
    [complaints/tasks.py] and the state-changing views of
    [complaints/views.py], with the database as an explicit store.

    Conventions.
    - A timestamp is a number of seconds ([Z]); [timedelta(hours=h)] is
      [3600 * h] seconds.  Every operation receives the reading [now] of
      [timezone.now()]; the clock does not advance inside one operation.
    - A primary key is a [positive] (Django's [BigAutoField] starts at 1), so
      [self.pk is None], [not self.pk] and [if instance.pk] all test the same
      thing.
    - A table is a finite map from primary keys to rows.  [SLA.priority] is
      declared [unique=True]; the SLA table is therefore keyed by priority.
    - Python exceptions are results: an operation maps a store to a result
      and a store, and what was written before an exception stays written. *)

From Stdlib Require Import ZArith String List Lia.
From stdpp Require Import base decidable option list gmap strings sorting pretty.

Local Open Scope Z_scope.
Local Open Scope string_scope.

(** ** Enumerations ([models.TextChoices]) *)

(** [Complaint.Status] *)
Inductive Status := PENDING | IN_PROGRESS | RESOLVED | ESCALATED | CLOSED.

(** [Complaint.Priority] *)
Inductive Priority := LOW | MEDIUM | HIGH | URGENT.

(** [CustomUser.Role] *)
Inductive Role := STUDENT | STAFF | ADMIN.

#[global] Instance Status_eq_dec : EqDecision Status.
Proof. solve_decision. Defined.
#[global] Instance Priority_eq_dec : EqDecision Priority.
Proof. solve_decision. Defined.
#[global] Instance Role_eq_dec : EqDecision Role.
Proof. solve_decision. Defined.

Definition Priority_code (p : Priority) : positive :=
  match p with LOW => 1 | MEDIUM => 2 | HIGH => 3 | URGENT => 4 end%positive.

Definition Priority_of_code (n : positive) : option Priority :=
  match n with
  | 1 => Some LOW | 2 => Some MEDIUM | 3 => Some HIGH | 4 => Some URGENT
  | _ => None
  end%positive.

#[global] Instance Priority_countable : Countable Priority.
Proof.
  refine (inj_countable Priority_code Priority_of_code _).
  intros []; reflexivity.
Defined.

(** [Escalation.Reason]: the view passes the posted string through
    unvalidated, so a reason is kept as the string it is stored as. *)
Module Reason.
Definition SLA_BREACH : string := "sla_breach".
Definition CUSTOMER_REQUEST : string := "customer_request".
Definition COMPLEXITY : string := "complexity".
Definition UNRESOLVED : string := "unresolved".
Definition OTHER : string := "other".
End Reason.

(** ** Rows *)

(** [accounts.models.CustomUser], the columns the complaint code reads. *)
Record CustomUser := {
  u_pk : positive;
  role : Role;
  is_active : bool
}.

Record Category := {
  cat_name : string;
  cat_is_active : bool
}.

(** [SLA]; its [priority] column is the key of the table. *)
Record SLA := {
  sla_name : string;
  response_time_hours : N;
  resolution_time_hours : N;
  sla_is_active : bool
}.

(** [Complaint]: a model instance in memory, and (with [pk] set) a row. *)
Record Complaint := {
  pk : option positive;
  student : positive;
  assigned_staff : option positive;
  category : option positive;
  title : string;
  description : string;
  status : Status;
  priority : Priority;
  solution : option string;
  created_at : Z;
  updated_at : Z;
  resolved_at : option Z;
  sla_deadline : option Z;
  is_sla_breached : bool
}.

(** [Escalation]; [complaint_id] is unset only for an instance built on an
    unsaved complaint. *)
Record Escalation := {
  e_pk : option positive;
  complaint_id : option positive;
  escalated_by : option positive;
  escalated_to : option positive;
  reason : string;
  notes : string;
  e_created_at : Z;
  resolved : bool;
  e_resolved_at : option Z
}.

(** Attribute assignment on a [Complaint] instance. *)
Definition set_pk (v : option positive) (c : Complaint) : Complaint :=
  {| pk := v; student := student c; assigned_staff := assigned_staff c;
     category := category c; title := title c; description := description c;
     status := status c; priority := priority c; solution := solution c;
     created_at := created_at c; updated_at := updated_at c;
     resolved_at := resolved_at c; sla_deadline := sla_deadline c;
     is_sla_breached := is_sla_breached c |}.

Definition set_assigned_staff (v : option positive) (c : Complaint) : Complaint :=
  {| pk := pk c; student := student c; assigned_staff := v;
     category := category c; title := title c; description := description c;
     status := status c; priority := priority c; solution := solution c;
     created_at := created_at c; updated_at := updated_at c;
     resolved_at := resolved_at c; sla_deadline := sla_deadline c;
     is_sla_breached := is_sla_breached c |}.

Definition set_status (v : Status) (c : Complaint) : Complaint :=
  {| pk := pk c; student := student c; assigned_staff := assigned_staff c;
     category := category c; title := title c; description := description c;
     status := v; priority := priority c; solution := solution c;
     created_at := created_at c; updated_at := updated_at c;
     resolved_at := resolved_at c; sla_deadline := sla_deadline c;
     is_sla_breached := is_sla_breached c |}.

Definition set_solution (v : option string) (c : Complaint) : Complaint :=
  {| pk := pk c; student := student c; assigned_staff := assigned_staff c;
     category := category c; title := title c; description := description c;
     status := status c; priority := priority c; solution := v;
     created_at := created_at c; updated_at := updated_at c;
     resolved_at := resolved_at c; sla_deadline := sla_deadline c;
     is_sla_breached := is_sla_breached c |}.

Definition set_created_at (v : Z) (c : Complaint) : Complaint :=
  {| pk := pk c; student := student c; assigned_staff := assigned_staff c;
     category := category c; title := title c; description := description c;
     status := status c; priority := priority c; solution := solution c;
     created_at := v; updated_at := updated_at c;
     resolved_at := resolved_at c; sla_deadline := sla_deadline c;
     is_sla_breached := is_sla_breached c |}.

Definition set_updated_at (v : Z) (c : Complaint) : Complaint :=
  {| pk := pk c; student := student c; assigned_staff := assigned_staff c;
     category := category c; title := title c; description := description c;
     status := status c; priority := priority c; solution := solution c;
     created_at := created_at c; updated_at := v;
     resolved_at := resolved_at c; sla_deadline := sla_deadline c;
     is_sla_breached := is_sla_breached c |}.

Definition set_resolved_at (v : option Z) (c : Complaint) : Complaint :=
  {| pk := pk c; student := student c; assigned_staff := assigned_staff c;
     category := category c; title := title c; description := description c;
     status := status c; priority := priority c; solution := solution c;
     created_at := created_at c; updated_at := updated_at c;
     resolved_at := v; sla_deadline := sla_deadline c;
     is_sla_breached := is_sla_breached c |}.

Definition set_sla_deadline (v : option Z) (c : Complaint) : Complaint :=
  {| pk := pk c; student := student c; assigned_staff := assigned_staff c;
     category := category c; title := title c; description := description c;
     status := status c; priority := priority c; solution := solution c;
     created_at := created_at c; updated_at := updated_at c;
     resolved_at := resolved_at c; sla_deadline := v;
     is_sla_breached := is_sla_breached c |}.

Definition set_is_sla_breached (v : bool) (c : Complaint) : Complaint :=
  {| pk := pk c; student := student c; assigned_staff := assigned_staff c;
     category := category c; title := title c; description := description c;
     status := status c; priority := priority c; solution := solution c;
     created_at := created_at c; updated_at := updated_at c;
     resolved_at := resolved_at c; sla_deadline := sla_deadline c;
     is_sla_breached := v |}.

(** The columns of [Complaint] that [update_fields] may name. *)
Inductive Field :=
  | F_student | F_assigned_staff | F_category | F_title | F_description
  | F_status | F_priority | F_solution | F_created_at | F_updated_at
  | F_resolved_at | F_sla_deadline | F_is_sla_breached.

#[global] Instance Field_eq_dec : EqDecision Field.
Proof. solve_decision. Defined.

(** [UPDATE ... SET f = self.f for f in fields]: the row keeps every column
    that is not named. *)
Definition write_fields (fields : list Field) (self row : Complaint) : Complaint :=
  let pick {A} (f : Field) (proj : Complaint -> A) : A :=
    if bool_decide (f ∈ fields) then proj self else proj row in
  {| pk := pk row;
     student := pick F_student student;
     assigned_staff := pick F_assigned_staff assigned_staff;
     category := pick F_category category;
     title := pick F_title title;
     description := pick F_description description;
     status := pick F_status status;
     priority := pick F_priority priority;
     solution := pick F_solution solution;
     created_at := pick F_created_at created_at;
     updated_at := pick F_updated_at updated_at;
     resolved_at := pick F_resolved_at resolved_at;
     sla_deadline := pick F_sla_deadline sla_deadline;
     is_sla_breached := pick F_is_sla_breached is_sla_breached |}.

(** ** The store *)

Record DB := {
  complaints : gmap positive Complaint;
  escalations : gmap positive Escalation;
  slas : gmap Priority SLA;
  users : gmap positive CustomUser;
  categories : gmap positive Category
}.

Definition with_complaints (t : gmap positive Complaint) (db : DB) : DB :=
  {| complaints := t; escalations := escalations db; slas := slas db;
     users := users db; categories := categories db |}.

Definition with_escalations (t : gmap positive Escalation) (db : DB) : DB :=
  {| complaints := complaints db; escalations := t; slas := slas db;
     users := users db; categories := categories db |}.

(** The key an auto-increment column hands out next: 1 on an empty table,
    otherwise one more than the largest key. *)
Definition next_pk {A} (t : gmap positive A) : positive :=
  foldr (fun k acc => Pos.max (Pos.succ k) acc) 1%positive
    ((fun kv : positive * A => kv.1) <$> map_to_list t).

(** ** Exceptions and the store monad *)

Inductive Exception :=
  | ValueError
  | DatabaseError
  | NameError (name : string)
  | IndexError
  | Http404.

Inductive Result (A : Type) :=
  | Ok (a : A)
  | Raise (e : Exception).
Arguments Ok {A} a.
Arguments Raise {A} e.

Definition M (A : Type) : Type := DB -> Result A * DB.

Definition ret {A} (a : A) : M A := fun db => (Ok a, db).

Definition raise {A} (e : Exception) : M A := fun db => (Raise e, db).

Definition bind {A B} (m : M A) (k : A -> M B) : M B :=
  fun db =>
    match m db with
    | (Ok a, db') => k a db'
    | (Raise e, db') => (Raise e, db')
    end.

Definition get_db : M DB := fun db => (Ok db, db).

Definition put_db (db' : DB) : M unit := fun _ => (Ok tt, db').

Notation "x <- m ;; k" := (bind m (fun x => k))
  (at level 100, m at next level, right associativity).
Notation "m ;;; k" := (bind m (fun _ => k))
  (at level 100, right associativity).

(** [for x in l: body], with the loop's local variables in [s]. *)
Fixpoint for_each {A S} (l : list A) (body : A -> S -> M S) (s : S) : M S :=
  match l with
  | [] => ret s
  | x :: l' => s' <- body x s ;; for_each l' body s'
  end.

(** ** [Complaint.save] and its signal receivers *)

Definition hours (h : N) : Z := 3600 * Z.of_N h.

(** [SLA.objects.filter(priority=p, is_active=True).first()] in
    [Complaint.save], and [SLA.objects.get(priority=p, is_active=True)] in
    [complaint_created] ([None] is [SLA.DoesNotExist]): with [priority]
    unique both return the one row of that priority when it is active. *)
Definition SLA_active (p : Priority) (db : DB) : option SLA :=
  match slas db !! p with
  | Some sla => if sla_is_active sla then Some sla else None
  | None => None
  end.

Definition is_terminal (s : Status) : bool :=
  bool_decide (s = RESOLVED) || bool_decide (s = CLOSED).

(** signals.py, [complaint_status_changed] ([pre_save]): the stored row is
    read back; a save that changes the status to RESOLVED stamps
    [resolved_at].  (Logging is not modelled.) *)
Definition complaint_status_changed (now : Z) (instance : Complaint) : M Complaint :=
  db <- get_db ;;
  match pk instance with
  | Some k =>
      match complaints db !! k with
      | Some old_instance =>
          if bool_decide (status old_instance <> status instance)
             && bool_decide (status instance = RESOLVED)
          then ret (set_resolved_at (Some now) instance)
          else ret instance
      | None => ret instance
      end
  | None => ret instance
  end.

(** signals.py, [complaint_created] ([post_save]): on creation the deadline
    is computed again and written with a queryset [update]. *)
Definition complaint_created (now : Z) (instance : Complaint) (created : bool)
  : M Complaint :=
  if created then
    db <- get_db ;;
    match SLA_active (priority instance) db with
    | Some sla =>
        let instance :=
          set_sla_deadline (Some (now + hours (resolution_time_hours sla))) instance in
        match pk instance with
        | Some k =>
            put_db (with_complaints
                      (alter (set_sla_deadline (sla_deadline instance)) k (complaints db))
                      db) ;;;
            ret instance
        | None => ret instance
        end
    | None => ret instance
    end
  else ret instance.

(** Django's [Model._save_table] for a complaint: an insert when the
    instance has no key, an update of the named columns under
    [update_fields], otherwise an update of every column (and an insert when
    no row has that key).  [created_at] is [auto_now_add], [updated_at] is
    [auto_now].  Returns the instance and whether a row was inserted. *)
Definition Complaint_save_table (now : Z) (update_fields : option (list Field))
    (self : Complaint) : M (Complaint * bool) :=
  db <- get_db ;;
  match pk self with
  | None =>
      match update_fields with
      | Some _ => raise ValueError
      | None =>
          let k := next_pk (complaints db) in
          let self := set_pk (Some k) (set_updated_at now (set_created_at now self)) in
          put_db (with_complaints (<[k := self]> (complaints db)) db) ;;;
          ret (self, true)
      end
  | Some k =>
      match update_fields with
      | Some fields =>
          let self :=
            if bool_decide (F_updated_at ∈ fields) then set_updated_at now self
            else self in
          match complaints db !! k with
          | Some row =>
              put_db (with_complaints
                        (<[k := write_fields fields self row]> (complaints db)) db) ;;;
              ret (self, false)
          | None => raise DatabaseError
          end
      | None =>
          let self := set_updated_at now self in
          match complaints db !! k with
          | Some _ =>
              put_db (with_complaints (<[k := self]> (complaints db)) db) ;;;
              ret (self, false)
          | None =>
              let self := set_created_at now self in
              put_db (with_complaints (<[k := self]> (complaints db)) db) ;;;
              ret (self, true)
          end
      end
  end.

(** [super().save()] for a complaint: [pre_save] receiver,
    the table write, [post_save] receiver.  An empty [update_fields] returns
    at once. *)
Definition Complaint_super_save (now : Z) (update_fields : option (list Field))
    (self : Complaint) : M Complaint :=
  match update_fields with
  | Some [] => ret self
  | _ =>
      self <- complaint_status_changed now self ;;
      r <- Complaint_save_table now update_fields self ;;
      complaint_created now (fst r) (snd r)
  end.

(** models.py, [Complaint.save]. *)
Definition Complaint_save (now : Z) (update_fields : option (list Field))
    (self : Complaint) : M Complaint :=
  db <- get_db ;;
  let creating := bool_decide (pk self = None) in
  let self :=
    if creating && bool_decide (sla_deadline self = None) then
      match SLA_active (priority self) db with
      | Some sla =>
          set_sla_deadline (Some (now + hours (resolution_time_hours sla))) self
      | None => self
      end
    else self in
  let self :=
    if bool_decide (status self = RESOLVED) && bool_decide (resolved_at self = None)
    then set_resolved_at (Some now) self
    else self in
  let self :=
    match sla_deadline self with
    | Some deadline =>
        if negb (is_terminal (status self)) && bool_decide (now > deadline)
        then set_is_sla_breached true self
        else self
    | None => self
    end in
  Complaint_super_save now update_fields self.

(** ** [Escalation.save] and its signal receiver *)

Definition set_e_pk (v : option positive) (e : Escalation) : Escalation :=
  {| e_pk := v; complaint_id := complaint_id e; escalated_by := escalated_by e;
     escalated_to := escalated_to e; reason := reason e; notes := notes e;
     e_created_at := e_created_at e; resolved := resolved e;
     e_resolved_at := e_resolved_at e |}.

Definition set_e_created_at (v : Z) (e : Escalation) : Escalation :=
  {| e_pk := e_pk e; complaint_id := complaint_id e; escalated_by := escalated_by e;
     escalated_to := escalated_to e; reason := reason e; notes := notes e;
     e_created_at := v; resolved := resolved e;
     e_resolved_at := e_resolved_at e |}.

Definition set_e_resolved_at (v : option Z) (e : Escalation) : Escalation :=
  {| e_pk := e_pk e; complaint_id := complaint_id e; escalated_by := escalated_by e;
     escalated_to := escalated_to e; reason := reason e; notes := notes e;
     e_created_at := e_created_at e; resolved := resolved e;
     e_resolved_at := v |}.

(** signals.py, [escalation_created] ([post_save]); [complaint] is
    [instance.complaint].  (Logging is not modelled.) *)
Definition escalation_created (now : Z) (complaint : Complaint) (created : bool)
  : M Complaint :=
  if created then
    if bool_decide (status complaint <> ESCALATED) then
      Complaint_save now (Some [F_status; F_updated_at]) (set_status ESCALATED complaint)
    else ret complaint
  else ret complaint.

(** models.py, [Escalation.save].  [self.complaint] is the complaint instance
    the escalation was built with; the method assigns to it and saves it, so
    it is threaded through and returned next to the escalation. *)
Definition Escalation_save (now : Z) (self : Escalation) (complaint : Complaint)
  : M (Escalation * Complaint) :=
  complaint <-
    match e_pk self with
    | None => Complaint_save now (Some [F_status]) (set_status ESCALATED complaint)
    | Some _ => ret complaint
    end ;;
  let self :=
    if resolved self && bool_decide (e_resolved_at self = None)
    then set_e_resolved_at (Some now) self
    else self in
  db <- get_db ;;
  match e_pk self with
  | None =>
      let k := next_pk (escalations db) in
      let self := set_e_pk (Some k) (set_e_created_at now self) in
      put_db (with_escalations (<[k := self]> (escalations db)) db) ;;;
      complaint <- escalation_created now complaint true ;;
      ret (self, complaint)
  | Some k =>
      match escalations db !! k with
      | Some _ =>
          put_db (with_escalations (<[k := self]> (escalations db)) db) ;;;
          complaint <- escalation_created now complaint false ;;
          ret (self, complaint)
      | None =>
          let self := set_e_created_at now self in
          put_db (with_escalations (<[k := self]> (escalations db)) db) ;;;
          complaint <- escalation_created now complaint true ;;
          ret (self, complaint)
      end
  end.

(** [Escalation.objects.create(complaint=..., escalated_by=..., reason=...,
    notes=...)]: build the instance and save it. *)
Definition Escalation_objects_create (now : Z) (complaint : Complaint)
    (by_user : option positive) (why : string) (text : string)
  : M (Escalation * Complaint) :=
  Escalation_save now
    {| e_pk := None; complaint_id := pk complaint; escalated_by := by_user;
       escalated_to := None; reason := why; notes := text;
       e_created_at := now; resolved := false; e_resolved_at := None |}
    complaint.

(** ** Querysets *)

(** A row read from the table is an instance carrying its key. *)
Definition load (kv : positive * Complaint) : Complaint := set_pk (Some kv.1) kv.2.

(** [Complaint.Meta.ordering = ['-created_at']]. *)
Definition newest_first (a b : Complaint) : Prop := created_at b <= created_at a.

#[global] Instance newest_first_dec a b : Decision (newest_first a b).
Proof. unfold newest_first. apply _. Defined.

(** [Complaint.objects.all()] evaluated on a store.  Rows with equal
    [created_at] come in the order the table enumerates them. *)
Definition Complaint_objects_all (db : DB) : list Complaint :=
  merge_sort newest_first (load <$> map_to_list (complaints db)).

(** [Complaint.objects.filter(...)] evaluated on a store. *)
Definition Complaint_objects_filter (cond : Complaint -> bool) (db : DB)
  : list Complaint :=
  List.filter cond (Complaint_objects_all db).

(** [get_object_or_404(Complaint, pk=pk)]. *)
Definition get_object_or_404 (k : positive) : M Complaint :=
  db <- get_db ;;
  match complaints db !! k with
  | Some row => ret (load (k, row))
  | None => raise Http404
  end.

Definition status_in (l : list Status) (c : Complaint) : bool :=
  bool_decide (status c ∈ l).

(** ** tasks.py *)

(** The [filter] of [check_sla_breaches]. *)
Definition breach_candidate (now : Z) (c : Complaint) : bool :=
  match sla_deadline c with
  | Some deadline => bool_decide (deadline < now)
  | None => false
  end
  && negb (is_sla_breached c)
  && status_in [PENDING; IN_PROGRESS] c.

(** tasks.py, [check_sla_breaches]. *)
Definition check_sla_breaches (now : Z) : M nat :=
  db <- get_db ;;
  let breached_complaints := Complaint_objects_filter (breach_candidate now) db in
  for_each breached_complaints
    (fun complaint count =>
       let complaint := set_is_sla_breached true complaint in
       Complaint_save now (Some [F_is_sla_breached; F_updated_at]) complaint ;;;
       ret (S count))
    0%nat.

(** [escalations__resolved=False]: some escalation of the complaint is
    unresolved. *)
Definition has_active_escalation (db : DB) (c : Complaint) : bool :=
  existsb
    (fun kv : positive * Escalation =>
       bool_decide (complaint_id kv.2 = pk c) && negb (resolved kv.2))
    (map_to_list (escalations db)).

(** The [filter(...).exclude(...)] of [auto_escalate_overdue]. *)
Definition overdue_candidate (now threshold : Z) (db : DB) (c : Complaint) : bool :=
  is_sla_breached c
  && status_in [PENDING; IN_PROGRESS] c
  && bool_decide (created_at c < now - threshold)
  && negb (has_active_escalation db c).

(** [timedelta.days] of a duration given in seconds. *)
Definition days (seconds : Z) : Z := seconds / 86400.

(** tasks.py, [auto_escalate_overdue].  [SLA_RESOLUTION_TIME] is
    [getattr(settings, 'SLA_RESOLUTION_TIME', 72)]; the settings module is
    not part of the sources, so the value is an argument. *)
Definition auto_escalate_overdue (SLA_RESOLUTION_TIME : Z) (now : Z) : M nat :=
  let escalation_threshold := 3600 * (SLA_RESOLUTION_TIME * 2) in
  db <- get_db ;;
  let overdue_complaints :=
    Complaint_objects_filter (overdue_candidate now escalation_threshold db) db in
  for_each overdue_complaints
    (fun complaint count =>
       r <- Escalation_objects_create now complaint None Reason.SLA_BREACH
              ("Auto-escalated: Complaint unresolved for "
                 ++ pretty (days escalation_threshold) ++ " days") ;;
       let complaint := set_status ESCALATED (snd r) in
       Complaint_save now (Some [F_status; F_updated_at]) complaint ;;;
       ret (S count))
    0%nat.

(** The names bound at the top level of tasks.py: its imports
    ([timezone], [settings], [timedelta], [logging], [Complaint],
    [Escalation], [CustomUser]), [logger] and the four tasks. *)
Definition tasks_globals : list string :=
  ["timezone"; "settings"; "timedelta"; "logging"; "Complaint"; "Escalation";
   "CustomUser"; "logger"; "check_sla_breaches"; "auto_escalate_overdue";
   "assign_pending_complaints"; "generate_daily_stats"].

(** Evaluating a global name of a module: [NameError] when neither the
    module nor the builtins bind it ([models] is not a builtin). *)
Definition global_name (globals : list string) (name : string) : M unit :=
  if bool_decide (name ∈ globals) then ret tt else raise (NameError name).

(** [workload]: the complaints assigned to a user that are pending or in
    progress. *)
Definition workload (db : DB) (u : CustomUser) : nat :=
  length
    (List.filter
       (fun kv : positive * Complaint =>
          bool_decide (assigned_staff kv.2 = Some (u_pk u))
          && status_in [PENDING; IN_PROGRESS] kv.2)
       (map_to_list (complaints db))).

Definition by_workload (db : DB) (a b : CustomUser) : Prop :=
  (workload db a <= workload db b)%nat.

#[global] Instance by_workload_dec db a b : Decision (by_workload db a b).
Proof. unfold by_workload. apply _. Defined.

(** The queryset [staff_list] evaluated on a store: active staff by
    ascending workload.  The queryset is lazy and never cached by
    [exists()], [count()] or indexing, so each use reads the store of that
    moment. *)
Definition staff_list (db : DB) : list CustomUser :=
  merge_sort (by_workload db)
    (List.filter
       (fun u => bool_decide (role u = STAFF) && is_active u)
       ((fun kv : positive * CustomUser => kv.2) <$> map_to_list (users db))).

Definition pending_unassigned (c : Complaint) : bool :=
  bool_decide (assigned_staff c = None) && bool_decide (status c = PENDING).

(** tasks.py, [assign_pending_complaints].  The arguments of [annotate] are
    evaluated before the call, and the first of them reads the global
    [models]. *)
Definition assign_pending_complaints (now : Z) : M nat :=
  db <- get_db ;;
  if negb (bool_decide (Complaint_objects_filter pending_unassigned db <> [])) then
    ret 0%nat
  else
    global_name tasks_globals "models" ;;;
    db <- get_db ;;
    if negb (bool_decide (staff_list db <> [])) then ret 0%nat
    else
      let staff_count := length (staff_list db) in
      db <- get_db ;;
      r <- for_each (Complaint_objects_filter pending_unassigned db)
             (fun complaint (st : nat * nat) =>
                let '(count, staff_index) := st in
                db <- get_db ;;
                match staff_list db !! (staff_index mod staff_count)%nat with
                | Some staff =>
                    let complaint := set_assigned_staff (Some (u_pk staff)) complaint in
                    Complaint_save now (Some [F_assigned_staff; F_updated_at]) complaint ;;;
                    ret (S count, S staff_index)
                | None => raise IndexError
                end)
             (0%nat, 0%nat) ;;
      ret (fst r).

(** ** views.py: the views that write *)

Inductive Method := GET | POST.

Inductive Level := SUCCESS | WARNING | ERROR.

(** What a view reports through [django.contrib.messages]. *)
Definition Message : Type := Level * string.

Definition no_permission : Message :=
  (ERROR, "You do not have permission to access this page.").
Definition already_assigned : Message :=
  (WARNING, "This complaint is already assigned.").
Definition assigned_to_another : Message :=
  (ERROR, "This complaint is assigned to another staff member.").

(** [role_required(allowed_roles)]. *)
Definition role_required (allowed_roles : list Role) (user : CustomUser)
    (view_func : M (list Message)) : M (list Message) :=
  if bool_decide (role user ∉ allowed_roles) then ret [no_permission]
  else view_func.

(** The cleaned data of [ComplaintForm]: [Some] when [is_valid()], after
    which [form.save(commit=False)] builds the instance. *)
Record ComplaintForm := {
  post_title : string;
  post_category : option positive;
  post_priority : option Priority;
  post_description : string
}.

Definition active_category (db : DB) (k : positive) : bool :=
  match categories db !! k with
  | Some cat => cat_is_active cat
  | None => false
  end.

(** A required text field is not empty, the title has at most 200
    characters, the priority is one of the choices and the category, when
    given, is active.  (Text is taken as already stripped.)  The new instance
    has the model's defaults. *)
Definition ComplaintForm_save (form : ComplaintForm) (user : CustomUser) (db : DB)
  : option Complaint :=
  match post_priority form with
  | Some p =>
      if bool_decide (post_title form <> "")
         && bool_decide (String.length (post_title form) <= 200)%nat
         && bool_decide (post_description form <> "")
         && from_option (active_category db) true (post_category form)
      then
        Some {| pk := None; student := u_pk user; assigned_staff := None;
                category := post_category form; title := post_title form;
                description := post_description form; status := PENDING;
                priority := p; solution := None; created_at := 0;
                updated_at := 0; resolved_at := None; sla_deadline := None;
                is_sla_breached := false |}
      else None
  | None => None
  end.

(** views.py, [student_create_complaint]. *)
Definition student_create_complaint (now : Z) (user : CustomUser)
    (method : Method) (form : ComplaintForm) : M (list Message) :=
  role_required [STUDENT] user
    (match method with
     | POST =>
         db <- get_db ;;
         match ComplaintForm_save form user db with
         | Some complaint =>
             Complaint_save now None complaint ;;;
             ret [(SUCCESS, "Your complaint has been submitted successfully!")]
         | None => ret []
         end
     | GET => ret []
     end).

(** The posted data of [ComplaintStatusUpdateForm]; [post_status] is [None]
    when the posted status is missing or not one of the choices. *)
Record ComplaintStatusUpdateForm := {
  post_status : option Status;
  post_solution : string;
  post_assigned_staff : option positive
}.

Definition active_staff (db : DB) (k : positive) : bool :=
  match users db !! k with
  | Some u => bool_decide (role u = STAFF) && is_active u
  | None => false
  end.

(** [form.is_valid()] and [form.save(commit=False)]: the three form fields
    are assigned to the instance; [assigned_staff] must be chosen among the
    active staff. *)
Definition ComplaintStatusUpdateForm_save (form : ComplaintStatusUpdateForm)
    (instance : Complaint) (db : DB) : option Complaint :=
  match post_status form with
  | Some s =>
      if from_option (active_staff db) true (post_assigned_staff form) then
        Some (set_assigned_staff (post_assigned_staff form)
                (set_solution (Some (post_solution form))
                   (set_status s instance)))
      else None
  | None => None
  end.

(** views.py, [staff_update_complaint].  The comment that may come with the
    update goes to the comment table, which is not modelled. *)
Definition staff_update_complaint (now : Z) (user : CustomUser) (method : Method)
    (k : positive) (form : ComplaintStatusUpdateForm) : M (list Message) :=
  role_required [STAFF] user
    (complaint <- get_object_or_404 k ;;
     if bool_decide (assigned_staff complaint <> None)
        && bool_decide (assigned_staff complaint <> Some (u_pk user))
     then ret [assigned_to_another]
     else
       match method with
       | POST =>
           db <- get_db ;;
           match ComplaintStatusUpdateForm_save form complaint db with
           | Some updated_complaint =>
               let updated_complaint :=
                 if bool_decide (assigned_staff updated_complaint = None)
                 then set_assigned_staff (Some (u_pk user)) updated_complaint
                 else updated_complaint in
               Complaint_save now None updated_complaint ;;;
               ret [(SUCCESS, "Complaint updated successfully!")]
           | None => ret []
           end
       | GET => ret []
       end).

(** views.py, [staff_claim_complaint]. *)
Definition staff_claim_complaint (now : Z) (user : CustomUser) (k : positive)
  : M (list Message) :=
  role_required [STAFF] user
    (complaint <- get_object_or_404 k ;;
     if bool_decide (assigned_staff complaint <> None) then
       ret [already_assigned]
     else
       let complaint := set_assigned_staff (Some (u_pk user)) complaint in
       let complaint := set_status IN_PROGRESS complaint in
       Complaint_save now None complaint ;;;
       ret [(SUCCESS,
             "Complaint #" ++ pretty (Z.pos k) ++ " has been assigned to you.")]).

(** views.py, [admin_escalate_complaint]; [posted_reason] and
    [posted_notes] are [request.POST.get] without its default. *)
Definition admin_escalate_complaint (now : Z) (user : CustomUser) (method : Method)
    (k : positive) (posted_reason posted_notes : option string) : M (list Message) :=
  role_required [ADMIN] user
    (complaint <- get_object_or_404 k ;;
     match method with
     | POST =>
         let why := default Reason.OTHER posted_reason in
         let text := default "" posted_notes in
         r <- Escalation_objects_create now complaint (Some (u_pk user)) why text ;;
         let complaint := set_status ESCALATED (snd r) in
         Complaint_save now None complaint ;;;
         ret [(SUCCESS, "Complaint #" ++ pretty (Z.pos k) ++ " has been escalated.")]
     | GET => ret []
     end).

(** ** The operations of the core, as one step function *)

(** A request or a periodic job.  [EditSLA] is the one operation that is
    not in views.py or tasks.py: admin.py registers [SLA] with the admin
    site, through which a policy is added, changed or deleted. *)
Inductive Op :=
  | CreateComplaint (user : CustomUser) (method : Method) (form : ComplaintForm)
  | UpdateComplaintStatus (user : CustomUser) (method : Method) (k : positive)
      (form : ComplaintStatusUpdateForm)
  | ClaimComplaint (user : CustomUser) (k : positive)
  | CreateEscalation (user : CustomUser) (method : Method) (k : positive)
      (posted_reason posted_notes : option string)
  | ScanSlaBreaches
  | AutoEscalateOverdue (SLA_RESOLUTION_TIME : Z)
  | AssignPendingComplaints
  | EditSLA (p : Priority) (policy : option SLA).

(** The store an operation leaves behind when it runs at time [now],
    whether it returns or raises. *)
Definition run (now : Z) (op : Op) (db : DB) : DB :=
  match op with
  | CreateComplaint user method form =>
      (student_create_complaint now user method form db).2
  | UpdateComplaintStatus user method k form =>
      (staff_update_complaint now user method k form db).2
  | ClaimComplaint user k => (staff_claim_complaint now user k db).2
  | CreateEscalation user method k posted_reason posted_notes =>
      (admin_escalate_complaint now user method k posted_reason posted_notes db).2
  | ScanSlaBreaches => (check_sla_breaches now db).2
  | AutoEscalateOverdue h => (auto_escalate_overdue h now db).2
  | AssignPendingComplaints => (assign_pending_complaints now db).2
  | EditSLA p policy =>
      {| complaints := complaints db; escalations := escalations db;
         slas := partial_alter (fun _ => policy) p (slas db);
         users := users db; categories := categories db |}
  end.

(** A history: operations with the times at which they run. *)
Fixpoint run_all (history : list (Z * Op)) (db : DB) : DB :=
  match history with
  | [] => db
  | (now, op) :: rest => run_all rest (run now op db)
  end.

(** * Definitions used by the statements *)

(** The three in-memory steps of [Complaint.save] and the [pre_save]
    receiver, as functions of the instance. *)
Definition stamp_deadline (now : Z) (db : DB) (self : Complaint) : Complaint :=
  if bool_decide (pk self = None) && bool_decide (sla_deadline self = None) then
    match SLA_active (priority self) db with
    | Some sla =>
        set_sla_deadline (Some (now + hours (resolution_time_hours sla))) self
    | None => self
    end
  else self.

Definition stamp_resolved (now : Z) (self : Complaint) : Complaint :=
  if bool_decide (status self = RESOLVED) && bool_decide (resolved_at self = None)
  then set_resolved_at (Some now) self
  else self.

Definition stamp_breached (now : Z) (self : Complaint) : Complaint :=
  match sla_deadline self with
  | Some deadline =>
      if negb (is_terminal (status self)) && bool_decide (now > deadline)
      then set_is_sla_breached true self
      else self
  | None => self
  end.

Definition stamp_status_changed (now : Z) (old self : Complaint) : Complaint :=
  if bool_decide (status old <> status self) && bool_decide (status self = RESOLVED)
  then set_resolved_at (Some now) self
  else self.

(** The instance as [Complaint.save] hands it to the table write of an
    existing row [old]. *)
Definition prepared (now : Z) (old self : Complaint) : Complaint :=
  stamp_status_changed now old (stamp_breached now (stamp_resolved now self)).

(** The row a scan at time [now] leaves of a row it selects. *)
Definition mark_breached (now : Z) (row : Complaint) : Complaint :=
  set_updated_at now (set_is_sla_breached true row).

(** Only the complaint table may differ. *)
Definition same_other_tables (db db' : DB) : Prop :=
  escalations db' = escalations db /\ slas db' = slas db
  /\ users db' = users db /\ categories db' = categories db.

(** The escalation row that [Escalation.objects.create] inserts. *)
Definition new_escalation (now : Z) (db : DB) (k : positive)
    (by_user : option positive) (why text : string) : Escalation :=
  {| e_pk := Some (next_pk (escalations db)); complaint_id := Some k;
     escalated_by := by_user; escalated_to := None; reason := why;
     notes := text; e_created_at := now; resolved := false;
     e_resolved_at := None |}.

(** The row the auto-escalation sweep at time [now] leaves of a row it
    selects. *)
Definition mark_escalated (now : Z) (row : Complaint) : Complaint :=
  set_updated_at now (set_status ESCALATED row).

(** The notes of an automatic escalation. *)
Definition auto_notes (SLA_RESOLUTION_TIME : Z) : string :=
  "Auto-escalated: Complaint unresolved for "
    ++ pretty (days (3600 * (SLA_RESOLUTION_TIME * 2))) ++ " days".

(** What a run over the complaints [l] does to the escalation table: the
    rows that were there stay, one row is added per complaint, every added
    row is an unresolved SLA_BREACH escalation of a complaint of [l], and
    every complaint of [l] has one. *)
Definition escalated (now : Z) (text : string) (l : list Complaint) (db db' : DB)
  : Prop :=
  slas db' = slas db /\ users db' = users db /\ categories db' = categories db
  /\ (forall j e, escalations db !! j = Some e -> escalations db' !! j = Some e)
  /\ size (escalations db') = (size (escalations db) + length l)%nat
  /\ (forall j e,
        escalations db' !! j = Some e -> escalations db !! j = None ->
        (exists c, c ∈ l /\ complaint_id e = pk c)
        /\ reason e = Reason.SLA_BREACH /\ resolved e = false
        /\ escalated_by e = None /\ notes e = text /\ e_created_at e = now)
  /\ (forall c, c ∈ l ->
        exists j e,
          escalations db' !! j = Some e /\ escalations db !! j = None
          /\ complaint_id e = pk c).

(** The selection of the sweep, in words: breached, pending or in progress,
    created before [now - threshold], and without an unresolved
    escalation. *)
Definition due_for_escalation (now threshold : Z) (db : DB) (k : positive)
    (row : Complaint) : Prop :=
  is_sla_breached row = true
  /\ (status row = PENDING \/ status row = IN_PROGRESS)
  /\ created_at row < now - threshold
  /\ ~ exists j e,
        escalations db !! j = Some e /\ complaint_id e = Some k /\ resolved e = false.

(** The row a successful claim by [user] at time [now] leaves of [old]. *)
Definition claimed (now : Z) (user : CustomUser) (k : positive) (old : Complaint)
  : Complaint :=
  set_updated_at now
    (prepared now old
       (set_status IN_PROGRESS (set_assigned_staff (Some (u_pk user)) (load (k, old))))).

(** The row a valid update posted by [user] at time [now], with status
    [s], leaves of [old]. *)
Definition updated (now : Z) (user : CustomUser) (k : positive)
    (form : ComplaintStatusUpdateForm) (s : Status) (old : Complaint) : Complaint :=
  set_updated_at now
    (prepared now old
       (set_assigned_staff
          (Some (default (u_pk user) (post_assigned_staff form)))
          (set_solution (Some (post_solution form)) (set_status s (load (k, old)))))).

(** The row a valid form without an active policy for its priority
    becomes. *)
Definition created_without_policy (now : Z) (user : CustomUser)
    (form : ComplaintForm) (p : Priority) (k : positive) : Complaint :=
  {| pk := Some k; student := u_pk user; assigned_staff := None;
     category := post_category form; title := post_title form;
     description := post_description form; status := PENDING; priority := p;
     solution := None; created_at := now; updated_at := now;
     resolved_at := None; sla_deadline := None; is_sla_breached := false |}.

(** The row an escalation through the admin view at time [now] leaves of
    [old]. *)
Definition escalated_row (now : Z) (k : positive) (old : Complaint) : Complaint :=
  set_updated_at now
    (prepared now (set_status ESCALATED old)
       (set_status ESCALATED (prepared now old (set_status ESCALATED (load (k, old)))))).

(** An operation at time [now] keeps the deadline of a row, never lowers
    its breach flag, and raises the flag only past the deadline. *)
Definition row_step (now : Z) (row row' : Complaint) : Prop :=
  sla_deadline row' = sla_deadline row
  /\ (is_sla_breached row = true -> is_sla_breached row' = true)
  /\ (is_sla_breached row' = true ->
      is_sla_breached row = true
      \/ exists deadline, sla_deadline row = Some deadline /\ deadline < now).

(** ** Example data *)

(** Four users, one policy, and the stores a few requests lead to. *)
Module Scenario.
Definition alice : CustomUser := {| u_pk := 1; role := STUDENT; is_active := true |}.
Definition bob : CustomUser := {| u_pk := 2; role := STAFF; is_active := true |}.
Definition carol : CustomUser := {| u_pk := 3; role := ADMIN; is_active := true |}.
Definition dave : CustomUser := {| u_pk := 4; role := STAFF; is_active := true |}.

(** One policy: URGENT complaints are to be resolved within 4 hours. *)
Definition empty_db : DB :=
  {| complaints := ∅; escalations := ∅;
     slas := {[ URGENT := {| sla_name := "Urgent"; response_time_hours := 1;
                             resolution_time_hours := 4; sla_is_active := true |} ]};
     users := {[ 1%positive := alice; 2%positive := bob;
                 3%positive := carol; 4%positive := dave ]};
     categories := ∅ |}.

Definition complaint_form (p : Priority) : ComplaintForm :=
  {| post_title := "Broken projector"; post_category := None;
     post_priority := Some p; post_description := "Room 12" |}.

Definition status_form (s : Status) (staff : option positive)
  : ComplaintStatusUpdateForm :=
  {| post_status := Some s; post_solution := ""; post_assigned_staff := staff |}.

(** Alice files an URGENT complaint at time 0: its deadline is 14400. *)
Definition urgent_db : DB :=
  run 0 (CreateComplaint alice POST (complaint_form URGENT)) empty_db.

(** Alice files a LOW complaint at time 0: there is no policy for LOW. *)
Definition low_db : DB :=
  run 0 (CreateComplaint alice POST (complaint_form LOW)) empty_db.

(** The urgent complaint, escalated by Carol at time 100. *)
Definition escalated_db : DB :=
  run 100 (CreateEscalation carol POST 1 None None) urgent_db.

(** The urgent complaint resolved by Bob at time 10, reopened at 20. *)
Definition resolved_db : DB :=
  run 10 (UpdateComplaintStatus bob POST 1 (status_form RESOLVED None)) urgent_db.
Definition reopened_db : DB :=
  run 20 (UpdateComplaintStatus bob POST 1 (status_form IN_PROGRESS None)) resolved_db.
End Scenario.

(** The scenario of the sweep: complaint 1 has an unresolved escalation,
    complaint 2 only a resolved one; both are breached, pending and a month
    old.  With a threshold of 48 hours the sweep escalates complaint 2
    only. *)
Module SweepScenario.
Definition overdue (k : positive) : Complaint :=
  {| pk := Some k; student := 1; assigned_staff := None; category := None;
     title := "Broken projector"; description := "Room 12";
     status := PENDING; priority := URGENT; solution := None;
     created_at := 0; updated_at := 20000; resolved_at := None;
     sla_deadline := Some 14400; is_sla_breached := true |}.

Definition earlier (k c : positive) (done : bool) : Escalation :=
  {| e_pk := Some k; complaint_id := Some c; escalated_by := Some 3%positive;
     escalated_to := None; reason := Reason.COMPLEXITY; notes := "";
     e_created_at := 30000; resolved := done;
     e_resolved_at := if done then Some 40000 else None |}.

Definition db : DB :=
  {| complaints := {[ 1%positive := overdue 1; 2%positive := overdue 2 ]};
     escalations := {[ 1%positive := earlier 1 1 false;
                       2%positive := earlier 2 2 true ]};
     slas := slas Scenario.empty_db; users := users Scenario.empty_db;
     categories := ∅ |}.
End SweepScenario.

(** * More of the sources *)

(** [@property is_overdue] of models.py, read at time [now]. *)
Definition is_overdue (now : Z) (self : Complaint) : bool :=
  match sla_deadline self with
  | Some deadline =>
      negb (is_terminal (status self)) && bool_decide (now > deadline)
  | None => false
  end.

(** The value of [stats['avg_resolution_hours']]: the integer [0] when no
    complaint has been resolved; otherwise the float
    [round(total_time / len(resolved) / 3600, 2)], which is kept as the exact
    total of seconds and the number of complaints it is computed from. *)
Inductive Average :=
  | Zero
  | Rounded (total_time : Z) (len_resolved : nat).

(** The dictionary [generate_daily_stats] returns; a date is the number of
    its day. *)
Record DailyStats := {
  stats_date : Z;
  stats_total_complaints : nat;
  stats_created_today : nat;
  stats_resolved_today : nat;
  stats_pending : nat;
  stats_in_progress : nat;
  stats_escalated : nat;
  stats_sla_breached_total : nat;
  stats_active_escalations : nat;
  stats_avg_resolution_hours : Average
}.

(** tasks.py, [generate_daily_stats].  The calendar is set by the settings
    module, which is not part of the sources: [today_of now] is
    [timezone.now().date()] and [date_of t] is the day the [__date] lookup
    gives the timestamp [t].  [resolved_pairs] is the source's [resolved].
    (Logging is not modelled.) *)
Definition generate_daily_stats (today_of date_of : Z -> Z) (now : Z)
  : M DailyStats :=
  db <- get_db ;;
  let today := today_of now in
  let count cond := length (Complaint_objects_filter cond db) in
  let resolved_pairs :=
    omap (fun c : Complaint =>
            match resolved_at c with
            | Some r => Some (created_at c, r)
            | None => None
            end)
         (Complaint_objects_all db) in
  ret {| stats_date := today;
         stats_total_complaints := length (Complaint_objects_all db);
         stats_created_today :=
           count (fun c => bool_decide (date_of (created_at c) = today));
         stats_resolved_today :=
           count (fun c => bool_decide (date_of <$> resolved_at c = Some today));
         stats_pending := count (fun c => bool_decide (status c = PENDING));
         stats_in_progress := count (fun c => bool_decide (status c = IN_PROGRESS));
         stats_escalated := count (fun c => bool_decide (status c = ESCALATED));
         stats_sla_breached_total := count is_sla_breached;
         stats_active_escalations :=
           length (List.filter (fun kv : positive * Escalation => negb (resolved kv.2))
                     (map_to_list (escalations db)));
         stats_avg_resolution_hours :=
           if bool_decide (resolved_pairs <> []) then
             Rounded (foldr Z.add 0 ((fun r : Z * Z => r.2 - r.1) <$> resolved_pairs))
                     (length resolved_pairs)
           else Zero |}.

(** [ComplaintComment]; [cc_complaint] and [cc_author] are unset on the
    instance a form builds, until the view assigns them. *)
Record ComplaintComment := {
  cc_pk : option positive;
  cc_complaint : option positive;
  cc_author : option positive;
  content : string;
  is_internal : bool;
  cc_created_at : Z
}.

(** The store with the comment table. *)
Record Site := {
  site_db : DB;
  comments : gmap positive ComplaintComment
}.

(** The posted data of [ComplaintCommentForm]; the checkbox [is_internal]
    is posted or not. *)
Record ComplaintCommentForm := {
  post_content : string;
  post_is_internal : bool
}.

(** forms.py, [ComplaintCommentForm]: [is_valid()] and [save(commit=False)].
    [content] is required.  [__init__] deletes the field [is_internal] for a
    student, and the instance then has the model's default, [False].  (Text is
    taken as already stripped.) *)
Definition ComplaintCommentForm_save (form : ComplaintCommentForm) (user : CustomUser)
  : option ComplaintComment :=
  if bool_decide (post_content form <> "") then
    Some {| cc_pk := None; cc_complaint := None; cc_author := None;
            content := post_content form;
            is_internal :=
              if bool_decide (role user = STUDENT) then false
              else post_is_internal form;
            cc_created_at := 0 |}
  else None.

(** [comment.save()] of a new comment: an insert under the next key, with
    [created_at] stamped ([auto_now_add]). *)
Definition ComplaintComment_save (now : Z) (self : ComplaintComment) (site : Site)
  : Site :=
  let k := next_pk (comments site) in
  {| site_db := site_db site;
     comments :=
       <[k := {| cc_pk := Some k; cc_complaint := cc_complaint self;
                 cc_author := cc_author self; content := content self;
                 is_internal := is_internal self; cc_created_at := now |}]>
         (comments site) |}.

(** [ComplaintComment.Meta.ordering = ['created_at']]. *)
Definition oldest_first (a b : ComplaintComment) : Prop :=
  cc_created_at a <= cc_created_at b.

#[global] Instance oldest_first_dec a b : Decision (oldest_first a b).
Proof. unfold oldest_first. apply _. Defined.

(** [complaint.comments.filter(...)] evaluated on a store: the comments of
    the complaint with key [k] that satisfy [cond]. *)
Definition Complaint_comments (k : positive) (cond : ComplaintComment -> bool)
    (site : Site) : list ComplaintComment :=
  List.filter
    (fun c => bool_decide (cc_complaint c = Some k) && cond c)
    (merge_sort oldest_first
       ((fun kv : positive * ComplaintComment => kv.2) <$> map_to_list (comments site))).

(** What a view answers: a redirect with the messages it has queued, or the
    page of the complaint with key [k] with the comments in its context. *)
Inductive Response :=
  | Redirect (queued : list Message)
  | Page (k : positive) (shown : list ComplaintComment).

(** views.py, [student_complaint_detail].  The complaint is fetched with
    [get_object_or_404(Complaint, pk=pk, student=request.user)]. *)
Definition student_complaint_detail (now : Z) (user : CustomUser) (method : Method)
    (k : positive) (form : ComplaintCommentForm) (site : Site)
  : Result Response * Site :=
  if bool_decide (role user ∉ [STUDENT]) then (Ok (Redirect [no_permission]), site)
  else
    match complaints (site_db site) !! k with
    | Some row =>
        if bool_decide (student row = u_pk user) then
          let complaint := load (k, row) in
          match method, ComplaintCommentForm_save form user with
          | POST, Some comment =>
              let comment :=
                {| cc_pk := cc_pk comment; cc_complaint := pk complaint;
                   cc_author := Some (u_pk user); content := content comment;
                   is_internal := false; cc_created_at := cc_created_at comment |} in
              (Ok (Redirect [(SUCCESS, "Your comment has been added.")]),
               ComplaintComment_save now comment site)
          | _, _ =>
              (Ok (Page k (Complaint_comments k (fun c => negb (is_internal c)) site)),
               site)
          end
        else (Raise Http404, site)
    | None => (Raise Http404, site)
    end.

(** views.py, [staff_update_complaint], with the comment it may store and
    the page it renders. *)
Definition staff_update_complaint_page (now : Z) (user : CustomUser) (method : Method)
    (k : positive) (form : ComplaintStatusUpdateForm)
    (comment_form : ComplaintCommentForm) (site : Site)
  : Result Response * Site :=
  if bool_decide (role user ∉ [STAFF]) then (Ok (Redirect [no_permission]), site)
  else
    match complaints (site_db site) !! k with
    | Some row =>
        let complaint := load (k, row) in
        if bool_decide (assigned_staff complaint <> None)
           && bool_decide (assigned_staff complaint <> Some (u_pk user))
        then (Ok (Redirect [assigned_to_another]), site)
        else
          match method, ComplaintStatusUpdateForm_save form complaint (site_db site) with
          | POST, Some updated_complaint =>
              let updated_complaint :=
                if bool_decide (assigned_staff updated_complaint = None)
                then set_assigned_staff (Some (u_pk user)) updated_complaint
                else updated_complaint in
              match Complaint_save now None updated_complaint (site_db site) with
              | (Ok _, db') =>
                  let site := {| site_db := db'; comments := comments site |} in
                  let site :=
                    match ComplaintCommentForm_save comment_form user with
                    | Some comment =>
                        ComplaintComment_save now
                          {| cc_pk := cc_pk comment; cc_complaint := pk complaint;
                             cc_author := Some (u_pk user);
                             content := content comment;
                             is_internal := is_internal comment;
                             cc_created_at := cc_created_at comment |} site
                    | None => site
                    end in
                  (Ok (Redirect [(SUCCESS, "Complaint updated successfully!")]), site)
              | (Raise e, db') =>
                  (Raise e, {| site_db := db'; comments := comments site |})
              end
          | _, _ => (Ok (Page k (Complaint_comments k (fun _ => true) site)), site)
          end
    | None => (Raise Http404, site)
    end.

(** * Definitions used by the further statements *)


(** More example data: the row of the urgent complaint as filed, and the
    store after Bob has claimed it at time 5. *)
Module Desk.
Definition urgent_row : Complaint :=
  {| pk := Some 1%positive; student := 1; assigned_staff := None;
     category := None; title := "Broken projector"; description := "Room 12";
     status := PENDING; priority := URGENT; solution := None; created_at := 0;
     updated_at := 0; resolved_at := None; sla_deadline := Some 14400;
     is_sla_breached := false |}.

Definition claimed_db : DB := run 5 (ClaimComplaint Scenario.bob 1) Scenario.urgent_db.

Definition resolved_row : Complaint :=
  {| pk := Some 1%positive; student := 1; assigned_staff := Some 2%positive;
     category := None; title := "Broken projector"; description := "Room 12";
     status := RESOLVED; priority := URGENT; solution := Some ""; created_at := 0;
     updated_at := 10; resolved_at := Some 10; sla_deadline := Some 14400;
     is_sla_breached := false |}.
End Desk.

(** The ways in which one operation at time [now] turns the stored row
    [row] of key [k] into [row']: it leaves it, or it is a staff update, a
    claim, an escalation by an administrator, a mark of the breach scan, or
    an automatic escalation. *)
Definition row_moves (now : Z) (k : positive) (row row' : Complaint) : Prop :=
  row' = row
  \/ (exists user form s,
        role user = STAFF
        /\ (assigned_staff row = None \/ assigned_staff row = Some (u_pk user))
        /\ post_status form = Some s
        /\ row' = updated now user k form s row)
  \/ (exists user,
        role user = STAFF /\ assigned_staff row = None
        /\ row' = claimed now user k row)
  \/ row' = escalated_row now k row
  \/ (breach_candidate now row = true /\ row' = mark_breached now row)
  \/ (is_sla_breached row = true /\ status_in [PENDING; IN_PROGRESS] row = true
      /\ row' = mark_escalated now row).

(** A row as [student_create_complaint] inserts it at time [now]. *)
Definition freshly_created (now : Z) (k : positive) (row : Complaint) : Prop :=
  pk row = Some k /\ status row = PENDING /\ assigned_staff row = None
  /\ solution row = None /\ resolved_at row = None
  /\ created_at row = now /\ updated_at row = now
  /\ is_sla_breached row = false
  /\ (sla_deadline row = None
      \/ exists h : N, sla_deadline row = Some (now + 3600 * Z.of_N h)).

(** The columns that are written once, when the complaint is created. *)
Definition same_origin (row row' : Complaint) : Prop :=
  student row' = student row /\ created_at row' = created_at row
  /\ priority row' = priority row /\ title row' = title row
  /\ description row' = description row /\ category row' = category row.

(** The comment a staff member's update stores. *)
Definition staff_comment (now : Z) (user : CustomUser) (k j : positive)
    (comment_form : ComplaintCommentForm) : ComplaintComment :=
  {| cc_pk := Some j; cc_complaint := Some k; cc_author := Some (u_pk user);
     content := post_content comment_form;
     is_internal := post_is_internal comment_form; cc_created_at := now |}.

(** A site with the urgent complaint and one internal note on it. *)
Module Forum.
Definition note : ComplaintComment :=
  {| cc_pk := Some 1%positive; cc_complaint := Some 1%positive;
     cc_author := Some 2%positive; content := "Waiting for a spare lamp";
     is_internal := true; cc_created_at := 50 |}.

Definition site : Site :=
  {| site_db := Scenario.urgent_db; comments := {[ 1%positive := note ]} |}.

Definition comment_form (internal : bool) : ComplaintCommentForm :=
  {| post_content := "Lamp ordered"; post_is_internal := internal |}.

Definition erin : CustomUser := {| u_pk := 5; role := STUDENT; is_active := true |}.
End Forum.

(** * Properties *)

(** ** The store *)

Lemma next_pk_above {A} (t : gmap positive A) (k : positive) :
  is_Some (t !! k) -> (k < next_pk t)%positive.
Proof.
  intros [x Hx]. unfold next_pk.
  apply elem_of_map_to_list in Hx.
  induction (map_to_list t) as [|[k' x'] l IH]; simpl.
  - inversion Hx.
  - apply elem_of_cons in Hx as [Heq|Hin].
    + inversion Heq; subst. apply Pos.max_lt_iff. left. lia.
    + apply Pos.max_lt_iff. right. exact (IH Hin).
Qed.

Lemma next_pk_fresh {A} (t : gmap positive A) : t !! next_pk t = None.
Proof.
  destruct (t !! next_pk t) eqn:E; [|done].
  assert (next_pk t < next_pk t)%positive by (apply next_pk_above; eauto).
  lia.
Qed.

(** ** [Complaint.save], step by step *)

Lemma Complaint_save_stamps now uf self db :
  Complaint_save now uf self db =
  Complaint_super_save now uf
    (stamp_breached now (stamp_resolved now (stamp_deadline now db self))) db.
Proof. reflexivity. Qed.

Lemma stamp_deadline_saved now db self k :
  pk self = Some k -> stamp_deadline now db self = self.
Proof. intros H. unfold stamp_deadline. rewrite H. reflexivity. Qed.

Lemma pk_stamp_resolved now self : pk (stamp_resolved now self) = pk self.
Proof. unfold stamp_resolved. by case_match. Qed.

Lemma pk_stamp_breached now self : pk (stamp_breached now self) = pk self.
Proof. unfold stamp_breached. by repeat case_match. Qed.

Lemma pk_stamp_status_changed now old self :
  pk (stamp_status_changed now old self) = pk self.
Proof. unfold stamp_status_changed. by case_match. Qed.

Lemma pk_prepared now old self : pk (prepared now old self) = pk self.
Proof.
  unfold prepared.
  by rewrite pk_stamp_status_changed, pk_stamp_breached, pk_stamp_resolved.
Qed.

Lemma complaint_status_changed_saved now instance db k old :
  pk instance = Some k -> complaints db !! k = Some old ->
  complaint_status_changed now instance db =
  (Ok (stamp_status_changed now old instance), db).
Proof.
  intros Hpk Hold. unfold complaint_status_changed, bind, get_db.
  rewrite Hpk, Hold. unfold stamp_status_changed. by case_match.
Qed.

Lemma complaint_created_not_created now instance db :
  complaint_created now instance false db = (Ok instance, db).
Proof. reflexivity. Qed.

(** A save of chosen columns of an existing row. *)
Lemma Complaint_save_update_fields now f fields self db k old :
  pk self = Some k -> complaints db !! k = Some old ->
  let self' :=
    (if bool_decide (F_updated_at ∈ f :: fields) then set_updated_at now else id)
      (prepared now old self) in
  Complaint_save now (Some (f :: fields)) self db =
  (Ok self',
   with_complaints (<[k := write_fields (f :: fields) self' old]> (complaints db)) db).
Proof.
  intros Hpk Hold. simpl.
  rewrite Complaint_save_stamps, (stamp_deadline_saved _ _ _ k Hpk).
  unfold Complaint_super_save, bind.
  rewrite (complaint_status_changed_saved _ _ _ k old)
    by (by rewrite ?pk_stamp_breached, ?pk_stamp_resolved).
  fold (prepared now old self).
  unfold Complaint_save_table, bind, get_db.
  rewrite pk_prepared, Hpk, Hold. simpl.
  by case_bool_decide.
Qed.

(** A save of every column of an existing row. *)
Lemma Complaint_save_existing now self db k old :
  pk self = Some k -> complaints db !! k = Some old ->
  let self' := set_updated_at now (prepared now old self) in
  Complaint_save now None self db =
  (Ok self', with_complaints (<[k := self']> (complaints db)) db).
Proof.
  intros Hpk Hold. simpl.
  rewrite Complaint_save_stamps, (stamp_deadline_saved _ _ _ k Hpk).
  unfold Complaint_super_save, bind.
  rewrite (complaint_status_changed_saved _ _ _ k old)
    by (by rewrite ?pk_stamp_breached, ?pk_stamp_resolved).
  fold (prepared now old self).
  unfold Complaint_save_table, bind, get_db.
  by rewrite pk_prepared, Hpk, Hold.
Qed.

(** The first save of a new instance. *)
Lemma Complaint_save_new now self db :
  pk self = None ->
  let k := next_pk (complaints db) in
  let self1 :=
    set_pk (Some k)
      (set_updated_at now
         (set_created_at now
            (stamp_breached now (stamp_resolved now (stamp_deadline now db self))))) in
  let self2 :=
    match SLA_active (priority self) db with
    | Some sla =>
        set_sla_deadline (Some (now + hours (resolution_time_hours sla))) self1
    | None => self1
    end in
  Complaint_save now None self db =
  (Ok self2, with_complaints (<[k := self2]> (complaints db)) db).
Proof.
  intros Hpk. simpl.
  rewrite Complaint_save_stamps.
  set (s := stamp_breached now (stamp_resolved now (stamp_deadline now db self))).
  assert (Hs : pk s = None).
  { unfold s. rewrite pk_stamp_breached, pk_stamp_resolved.
    unfold stamp_deadline. by repeat case_match. }
  assert (Hp : priority s = priority self).
  { unfold s, stamp_breached, stamp_resolved, stamp_deadline.
    by repeat (case_match; simpl). }
  unfold Complaint_super_save, bind, complaint_status_changed, get_db, bind.
  rewrite Hs. simpl.
  unfold Complaint_save_table, bind, get_db. rewrite Hs. simpl.
  unfold complaint_created, bind, get_db, SLA_active. simpl. rewrite Hp.
  destruct (slas db !! priority self) as [sla|] eqn:E; simpl; [|done].
  destruct (sla_is_active sla); simpl; [|done].
  unfold with_complaints. simpl. f_equal. f_equal.
  rewrite alter_insert_eq. done.
Qed.

(** ** Querysets *)

Lemma elem_of_List_filter {A} (cond : A -> bool) (l : list A) (x : A) :
  x ∈ List.filter cond l <-> x ∈ l /\ cond x = true.
Proof. rewrite !list_elem_of_In. apply filter_In. Qed.

Lemma List_filter_nil {A} (cond : A -> bool) (l : list A) :
  (forall x, x ∈ l -> cond x = false) -> List.filter cond l = [].
Proof.
  induction l as [|x l IH]; intros H; simpl; [done|].
  rewrite (H x) by left. apply IH. intros y Hy. apply H. by right.
Qed.

Lemma NoDup_fmap_List_filter {A B} (f : A -> B) (cond : A -> bool) (l : list A) :
  NoDup (f <$> l) -> NoDup (f <$> List.filter cond l).
Proof.
  induction l as [|x l IH]; csimpl; [done|].
  rewrite NoDup_cons. intros [Hx Hl].
  destruct (cond x); csimpl; [|by apply IH].
  apply NoDup_cons. split; [|by apply IH].
  intros Hin. apply Hx.
  apply list_elem_of_fmap in Hin as (y & -> & Hy).
  apply elem_of_List_filter in Hy as [Hy _].
  by apply list_elem_of_fmap_2.
Qed.

Lemma length_List_filter_Permutation {A} (cond : A -> bool) (l l' : list A) :
  l ≡ₚ l' -> length (List.filter cond l) = length (List.filter cond l').
Proof.
  induction 1 as [|x l l' _ IH|x y l|l l' l'' _ IH1 _ IH2]; simpl.
  - done.
  - destruct (cond x); simpl; by rewrite IH.
  - by destruct (cond x), (cond y).
  - by rewrite IH1.
Qed.

Lemma List_filter_fmap {A B} (f : A -> B) (cond : B -> bool) (l : list A) :
  List.filter cond (f <$> l) = f <$> List.filter (fun x => cond (f x)) l.
Proof.
  induction l as [|x l IH]; csimpl; [done|].
  destruct (cond (f x)); csimpl; by rewrite IH.
Qed.

Lemma elem_of_Complaint_objects_all db c :
  c ∈ Complaint_objects_all db <->
  exists k row, complaints db !! k = Some row /\ c = load (k, row).
Proof.
  unfold Complaint_objects_all. rewrite merge_sort_Permutation.
  rewrite list_elem_of_fmap. split.
  - intros ([k row] & -> & Hin). apply elem_of_map_to_list in Hin. eauto.
  - intros (k & row & Hrow & ->). exists (k, row). split; [done|].
    by apply elem_of_map_to_list.
Qed.

Lemma elem_of_Complaint_objects_filter cond db c :
  c ∈ Complaint_objects_filter cond db <->
  exists k row, complaints db !! k = Some row /\ c = load (k, row) /\ cond c = true.
Proof.
  unfold Complaint_objects_filter.
  rewrite elem_of_List_filter, elem_of_Complaint_objects_all. split.
  - intros [(k & row & Hrow & ->) Hc]. by exists k, row.
  - intros (k & row & Hrow & -> & Hc). split; [|done]. by exists k, row.
Qed.

Lemma NoDup_pk_Complaint_objects_filter cond db :
  NoDup (pk <$> Complaint_objects_filter cond db).
Proof.
  unfold Complaint_objects_filter, Complaint_objects_all.
  apply NoDup_fmap_List_filter.
  rewrite merge_sort_Permutation, <- list_fmap_compose.
  assert (pk ∘ load = Some ∘ (fun kv : positive * Complaint => kv.1)) as ->
    by reflexivity.
  rewrite list_fmap_compose. apply (NoDup_fmap_2 _).
  apply NoDup_fst_map_to_list.
Qed.

(** The instances of a queryset are rows of the store it was evaluated on. *)
Lemma Complaint_objects_filter_rows cond db c :
  c ∈ Complaint_objects_filter cond db ->
  exists k, pk c = Some k /\ is_Some (complaints db !! k).
Proof.
  intros (k & row & Hrow & -> & _)%elem_of_Complaint_objects_filter.
  exists k. split; [done|]. by exists row.
Qed.

(** Whether the row with key [k] is selected. *)
Lemma pk_elem_of_Complaint_objects_filter cond db k row :
  complaints db !! k = Some row ->
  Some k ∈ pk <$> Complaint_objects_filter cond db <-> cond (load (k, row)) = true.
Proof.
  intros Hrow. rewrite list_elem_of_fmap. split.
  - intros (c & Hk & (k' & row' & Hrow' & -> & Hc)%elem_of_Complaint_objects_filter).
    simpl in Hk. by simplify_eq.
  - intros Hc. exists (load (k, row)). split; [done|].
    apply elem_of_Complaint_objects_filter. by exists k, row.
Qed.

(** A queryset has as many instances as the table has rows that satisfy
    its condition. *)
Lemma length_Complaint_objects_filter cond db :
  length (Complaint_objects_filter cond db) =
  length (List.filter (fun kv => cond (load kv)) (map_to_list (complaints db))).
Proof.
  unfold Complaint_objects_filter, Complaint_objects_all.
  rewrite (length_List_filter_Permutation _ _ _ (merge_sort_Permutation _ _)).
  by rewrite List_filter_fmap, length_fmap.
Qed.

(** ** Loops over a queryset *)

Section for_each_rows.
  (** A loop body that rewrites the row of the instance it is given with
      [g], counts one, and changes the rest of the store as [E] allows. *)
Variable body : Complaint -> nat -> M nat.
Variable g : Complaint -> Complaint.
Variable E : list Complaint -> DB -> DB -> Prop.

Hypothesis E_nil : forall db, E [] db db.
Hypothesis E_cons :
    forall c l db db1 db2, E [c] db db1 -> E l db1 db2 -> E (c :: l) db db2.
Hypothesis body_row :
    forall c count db k old,
      pk c = Some k -> complaints db !! k = Some old ->
      exists db1,
        body c count db = (Ok (S count), db1)
        /\ complaints db1 = <[k := g old]> (complaints db)
        /\ E [c] db db1.

Lemma for_each_rows l : forall count db,
    NoDup (pk <$> l) ->
    (forall c, c ∈ l -> exists k, pk c = Some k /\ is_Some (complaints db !! k)) ->
    exists db',
      for_each l body count db = (Ok (count + length l)%nat, db')
      /\ (forall k,
            complaints db' !! k =
            if bool_decide (Some k ∈ pk <$> l) then g <$> complaints db !! k
            else complaints db !! k)
      /\ E l db db'.
  Proof.
    induction l as [|c l IH]; intros count db Hnd Hrows.
    - exists db. simpl. split_and!; [by rewrite Nat.add_0_r|done|apply E_nil].
    - rewrite fmap_cons in Hnd. apply NoDup_cons in Hnd as [Hc Hnd].
      destruct (Hrows c) as (k & Hk & [old Hold]); [by left|].
      destruct (body_row c count db k old Hk Hold) as (db1 & Hbody & Hdb1 & HE1).
      destruct (IH (S count) db1 Hnd) as (db' & Hloop & Hlook & HE).
      { intros c' Hc'. destruct (Hrows c') as (k' & Hk' & Hsome); [by right|].
        exists k'. split; [done|]. rewrite Hdb1.
        rewrite lookup_insert_ne; [done|].
        intros ->. apply Hc. rewrite Hk, <- Hk'. by apply list_elem_of_fmap_2. }
      exists db'. split_and!.
      + simpl. unfold bind. rewrite Hbody, Hloop. do 2 f_equal. lia.
      + intros k0. rewrite Hlook, Hdb1, fmap_cons, Hk.
        destruct (decide (k0 = k)) as [->|Hne].
        * rewrite lookup_insert_eq, Hold.
          rewrite (bool_decide_eq_false_2 (Some k ∈ pk <$> l)) by (by rewrite <- Hk).
          by rewrite bool_decide_eq_true_2 by left.
        * rewrite lookup_insert_ne by done.
          assert (Some k0 ∈ Some k :: (pk <$> l) <-> Some k0 ∈ pk <$> l) as Hiff.
          { rewrite elem_of_cons. split; [|by right].
            intros [Heq|Hin]; [congruence|done]. }
          by rewrite (bool_decide_ext _ _ Hiff).
      + by eapply E_cons.
  Qed.
End for_each_rows.

(** ** What the stamps keep *)

Lemma status_prepared now old self : status (prepared now old self) = status self.
Proof.
  unfold prepared, stamp_status_changed, stamp_breached, stamp_resolved.
  by repeat (case_match; simpl).
Qed.

Lemma assigned_staff_prepared now old self :
  assigned_staff (prepared now old self) = assigned_staff self.
Proof.
  unfold prepared, stamp_status_changed, stamp_breached, stamp_resolved.
  by repeat (case_match; simpl).
Qed.

Lemma sla_deadline_prepared now old self :
  sla_deadline (prepared now old self) = sla_deadline self.
Proof.
  unfold prepared, stamp_status_changed, stamp_breached, stamp_resolved.
  by repeat (case_match; simpl).
Qed.

(** [Complaint.save] raises the flag exactly when the instance is overdue
    and not in a terminal status, and never lowers it. *)
Lemma is_sla_breached_prepared now old self :
  is_sla_breached (prepared now old self) =
  is_sla_breached self
  || match sla_deadline self with
     | Some deadline => negb (is_terminal (status self)) && bool_decide (now > deadline)
     | None => false
     end.
Proof.
  unfold prepared.
  assert (Hsc : forall s, is_sla_breached (stamp_status_changed now old s)
                          = is_sla_breached s).
  { intros s. unfold stamp_status_changed. by case_match. }
  assert (Hr : forall s, stamp_resolved now s = s
                         \/ stamp_resolved now s = set_resolved_at (Some now) s).
  { intros s. unfold stamp_resolved. case_match; auto. }
  rewrite Hsc. unfold stamp_breached.
  destruct (Hr self) as [-> | ->]; simpl;
    destruct (sla_deadline self) as [d|]; simpl;
    try (destruct (negb (is_terminal (status self)) && bool_decide (now > d)); simpl);
    by rewrite ?orb_true_r, ?orb_false_r.
Qed.

(** ** The breach scan *)

Lemma breach_candidate_set_pk now v c :
  breach_candidate now (set_pk v c) = breach_candidate now c.
Proof. reflexivity. Qed.

Lemma check_sla_breaches_body now c count db k old :
  pk c = Some k -> complaints db !! k = Some old ->
  exists db1,
    (let complaint := set_is_sla_breached true c in
     Complaint_save now (Some [F_is_sla_breached; F_updated_at]) complaint ;;;
     ret (S count)) db = (Ok (S count), db1)
    /\ complaints db1 = <[k := mark_breached now old]> (complaints db)
    /\ same_other_tables db db1.
Proof.
  intros Hpk Hold. eexists. simpl. unfold bind at 1.
  rewrite (Complaint_save_update_fields _ _ _ _ _ k old) by done.
  split_and!; [reflexivity| |done].
  simpl. f_equal.
  unfold write_fields, mark_breached. simpl.
  rewrite is_sla_breached_prepared. done.
Qed.

Lemma check_sla_breaches_rows now db :
  exists db1,
    check_sla_breaches now db =
    (Ok (length (List.filter
                   (fun kv : positive * Complaint => breach_candidate now kv.2)
                   (map_to_list (complaints db)))), db1)
    /\ (forall k,
          complaints db1 !! k =
          (fun row => if breach_candidate now row then mark_breached now row else row)
            <$> complaints db !! k)
    /\ same_other_tables db db1.
Proof.
  destruct (for_each_rows
              (fun complaint count =>
                 let complaint := set_is_sla_breached true complaint in
                 Complaint_save now (Some [F_is_sla_breached; F_updated_at]) complaint ;;;
                 ret (S count))
              (mark_breached now) (fun _ => same_other_tables))
    with (l := Complaint_objects_filter (breach_candidate now) db)
         (count := 0%nat) (db := db)
    as (db1 & Hrun & Hrows & Hother).
  - done.
  - unfold same_other_tables. intros _ _ db0 db1 db2 (?&?&?&?) (?&?&?&?).
    split_and!; congruence.
  - intros. by apply check_sla_breaches_body.
  - apply NoDup_pk_Complaint_objects_filter.
  - apply Complaint_objects_filter_rows.
  - exists db1. split_and!; [|intros k|done].
    + etrans; [exact Hrun|]. simpl.
      by rewrite length_Complaint_objects_filter.
    + rewrite Hrows. destruct (complaints db !! k) as [row|] eqn:Hrow.
      * simpl. case_bool_decide as Hsel.
        -- apply (pk_elem_of_Complaint_objects_filter _ _ _ row) in Hsel;
             [|done]. unfold load in Hsel.
           rewrite breach_candidate_set_pk in Hsel. simpl in Hsel.
           by rewrite Hsel.
        -- destruct (breach_candidate now row) eqn:Hc; [|done].
           exfalso. apply Hsel.
           by apply (pk_elem_of_Complaint_objects_filter _ _ _ row).
      * by case_bool_decide.
Qed.

(** A scan that selects nothing changes nothing. *)
Lemma check_sla_breaches_nothing now db :
  (forall k row, complaints db !! k = Some row -> breach_candidate now row = false) ->
  check_sla_breaches now db = (Ok 0%nat, db).
Proof.
  intros H.
  assert (Complaint_objects_filter (breach_candidate now) db = []) as Hnil.
  2: { unfold check_sla_breaches. unfold bind at 1. unfold get_db.
       by rewrite Hnil. }
  apply List_filter_nil.
  intros c (k & row & Hrow & ->)%elem_of_Complaint_objects_all.
  unfold load. rewrite breach_candidate_set_pk. by eapply H.
Qed.

(** C8.  A scan at time [now] returns the number of stored complaints with
    a deadline before [now], not yet marked and PENDING or IN_PROGRESS, marks
    exactly those and touches nothing else.  A second scan at the same or a
    later time [now'], when no deadline lies between the two, changes
    nothing and returns 0. *)
Theorem check_sla_breaches_idempotent now now' db :
  now <= now' ->
  (forall k row d,
     complaints db !! k = Some row -> sla_deadline row = Some d ->
     d < now' -> d < now) ->
  exists db1,
    check_sla_breaches now db =
    (Ok (length (List.filter
                   (fun kv : positive * Complaint => breach_candidate now kv.2)
                   (map_to_list (complaints db)))), db1)
    /\ (forall k,
          complaints db1 !! k =
          (fun row => if breach_candidate now row then mark_breached now row else row)
            <$> complaints db !! k)
    /\ same_other_tables db db1
    /\ check_sla_breaches now' db1 = (Ok 0%nat, db1).
Proof.
  intros _ Hquiet.
  destruct (check_sla_breaches_rows now db) as (db1 & Hrun & Hrows & Hother).
  exists db1. split_and!; [done..|].
  apply check_sla_breaches_nothing. intros k row1 Hrow1.
  rewrite Hrows in Hrow1.
  destruct (complaints db !! k) as [row|] eqn:Hrow; [|done].
  simpl in Hrow1. injection Hrow1 as <-.
  destruct (breach_candidate now row) eqn:Hc.
  { unfold breach_candidate, mark_breached. simpl.
    by rewrite andb_false_r. }
  destruct (breach_candidate now' row) eqn:Hc'; [|done].
  exfalso. unfold breach_candidate in Hc, Hc'.
  destruct (sla_deadline row) as [d|] eqn:Hd; [|done].
  destruct (is_sla_breached row); [by rewrite andb_false_r in Hc'|].
  destruct (status_in [PENDING; IN_PROGRESS] row); [|by rewrite andb_false_r in Hc'].
  simpl in *. rewrite !andb_true_r in *.
  apply bool_decide_eq_true in Hc'. apply bool_decide_eq_false in Hc.
  apply Hc. by eapply Hquiet.
Qed.

Lemma check_sla_breaches_idempotent_witness :
  exists db1,
    check_sla_breaches 18000 Scenario.urgent_db = (Ok 1%nat, db1)
    /\ (is_sla_breached <$> complaints db1 !! 1%positive) = Some true
    /\ check_sla_breaches 21600 db1 = (Ok 0%nat, db1).
Proof.
  assert (Hrows : complaints Scenario.urgent_db
          = {[ 1%positive :=
                 {| pk := Some 1%positive; student := 1; assigned_staff := None;
                    category := None; title := "Broken projector";
                    description := "Room 12"; status := PENDING;
                    priority := URGENT; solution := None; created_at := 0;
                    updated_at := 0; resolved_at := None;
                    sla_deadline := Some 14400; is_sla_breached := false |} ]})
    by (vm_compute; reflexivity).
  destruct (check_sla_breaches_idempotent 18000 21600 Scenario.urgent_db)
    as (db1 & Hrun & Hlook & _ & Hagain).
  - lia.
  - intros k row d. rewrite Hrows.
    intros [_ <-]%lookup_singleton_Some [= <-]. lia.
  - exists db1. split_and!; [exact Hrun| |exact Hagain].
    rewrite Hlook, Hrows, lookup_singleton_eq. reflexivity.
Defined.

(** ** Creating an escalation *)

Lemma Escalation_objects_create_saved now c by_user why text db k old :
  pk c = Some k -> complaints db !! k = Some old ->
  Escalation_objects_create now c by_user why text db =
  (Ok (new_escalation now db k by_user why text,
       prepared now old (set_status ESCALATED c)),
   {| complaints := <[k := set_status ESCALATED old]> (complaints db);
      escalations :=
        <[next_pk (escalations db) := new_escalation now db k by_user why text]>
          (escalations db);
      slas := slas db; users := users db; categories := categories db |}).
Proof.
  intros Hpk Hold.
  unfold Escalation_objects_create, Escalation_save. simpl.
  unfold bind at 1.
  rewrite (Complaint_save_update_fields _ _ _ _ _ k old) by done.
  simpl. unfold bind, get_db, put_db, escalation_created. simpl.
  rewrite status_prepared. simpl.
  rewrite Hpk. unfold new_escalation, with_complaints, ret. simpl.
  do 3 f_equal. unfold write_fields. simpl.
  rewrite status_prepared. done.
Qed.

(** ** The auto-escalation sweep *)

Lemma escalated_nil now text db : escalated now text [] db db.
Proof.
  unfold escalated. split_and!; try done.
  - intros j e H1 H2. congruence.
  - intros c Hc. inversion Hc.
Qed.

Lemma escalated_cons now text c l db db1 db2 :
  escalated now text [c] db db1 -> escalated now text l db1 db2 ->
  escalated now text (c :: l) db db2.
Proof.
  intros (Hs1 & Hu1 & Hc1 & Hold1 & Hsize1 & Hnew1 & Hall1)
         (Hs2 & Hu2 & Hc2 & Hold2 & Hsize2 & Hnew2 & Hall2).
  unfold escalated. split_and!; try congruence.
  - auto.
  - rewrite Hsize2, Hsize1. simpl. lia.
  - intros j e Hj' Hj.
    destruct (escalations db1 !! j) as [e1|] eqn:Hj1.
    + assert (e = e1) as -> by (apply Hold2 in Hj1; congruence).
      destruct (Hnew1 j e1 Hj1 Hj) as ((c' & Hc' & Hid) & Hrest).
      split; [|done]. exists c'. split; [|done].
      apply list_elem_of_singleton in Hc'. subst. by left.
    + destruct (Hnew2 j e Hj' Hj1) as ((c' & Hc' & Hid) & Hrest).
      split; [|done]. exists c'. split; [by right|done].
  - intros c' [->|Hc']%elem_of_cons.
    + destruct (Hall1 c) as (j & e & Hj1 & Hj & Hid); [by left|].
      exists j, e. split_and!; auto.
    + destruct (Hall2 c' Hc') as (j & e & Hj2 & Hj1 & Hid).
      exists j, e. split_and!; [done| |done].
      destruct (escalations db !! j) as [e0|] eqn:Hj; [|done].
      apply Hold1 in Hj. congruence.
Qed.

Lemma auto_escalate_overdue_body h now c count db k old :
  pk c = Some k -> complaints db !! k = Some old ->
  exists db1,
    (r <- Escalation_objects_create now c None Reason.SLA_BREACH
            ("Auto-escalated: Complaint unresolved for "
               ++ pretty (days (3600 * (h * 2))) ++ " days") ;;
     let complaint := set_status ESCALATED (snd r) in
     Complaint_save now (Some [F_status; F_updated_at]) complaint ;;;
     ret (S count)) db = (Ok (S count), db1)
    /\ complaints db1 = <[k := mark_escalated now old]> (complaints db)
    /\ escalated now (auto_notes h) [c] db db1.
Proof.
  intros Hpk Hold. eexists. unfold bind at 1.
  rewrite (Escalation_objects_create_saved _ _ _ _ _ _ k old) by done.
  simpl. unfold bind at 1.
  rewrite (Complaint_save_update_fields _ _ _ _ _ k (set_status ESCALATED old)).
  2: { simpl. by rewrite pk_prepared. }
  2: { simpl. by rewrite lookup_insert_eq. }
  split_and!; [reflexivity|..].
  - simpl. rewrite insert_insert_eq. f_equal.
    unfold write_fields, mark_escalated. simpl. by rewrite status_prepared.
  - unfold escalated. simpl.
    pose proof (next_pk_fresh (escalations db)) as Hfresh.
    split_and!; try done.
    + intros j e Hj. rewrite lookup_insert_ne; [done|]. congruence.
    + rewrite map_size_insert_None by done. lia.
    + intros j e Hj' Hj.
      destruct (decide (j = next_pk (escalations db))) as [->|Hne].
      * rewrite lookup_insert_eq in Hj'. injection Hj' as <-.
        split; [|done]. exists c. split; [by left|by simpl].
      * rewrite lookup_insert_ne in Hj' by done. congruence.
    + intros c' ->%list_elem_of_singleton.
      eexists _, _. rewrite lookup_insert_eq. split_and!; [done..|]. by simpl.
Qed.

Lemma has_active_escalation_true db c :
  has_active_escalation db c = true <->
  exists j e, escalations db !! j = Some e /\ complaint_id e = pk c /\ resolved e = false.
Proof.
  unfold has_active_escalation. rewrite existsb_exists. split.
  - intros ([j e] & Hin%list_elem_of_In%elem_of_map_to_list & Hc).
    apply andb_true_iff in Hc as [Hid%bool_decide_eq_true Hres%negb_true_iff].
    by exists j, e.
  - intros (j & e & Hj & Hid & Hres). exists (j, e). split.
    + by apply list_elem_of_In, elem_of_map_to_list.
    + simpl. rewrite Hres. by rewrite bool_decide_eq_true_2.
Qed.

Lemma status_in_pending_in_progress c :
  status_in [PENDING; IN_PROGRESS] c = true <->
  status c = PENDING \/ status c = IN_PROGRESS.
Proof.
  unfold status_in. rewrite bool_decide_eq_true, !elem_of_cons, elem_of_nil.
  tauto.
Qed.

Lemma overdue_candidate_due now threshold db k row :
  overdue_candidate now threshold db (load (k, row)) = true <->
  due_for_escalation now threshold db k row.
Proof.
  unfold overdue_candidate, due_for_escalation.
  rewrite !andb_true_iff, negb_true_iff, status_in_pending_in_progress,
    bool_decide_eq_true, <- not_true_iff_false, has_active_escalation_true.
  simpl. tauto.
Qed.

(** The run of the sweep over the queryset it selects. *)
Lemma auto_escalate_overdue_run h now db :
  let l := Complaint_objects_filter (overdue_candidate now (3600 * (h * 2)) db) db in
  exists db',
    auto_escalate_overdue h now db = (Ok (length l), db')
    /\ (forall k,
          complaints db' !! k =
          if bool_decide (Some k ∈ pk <$> l)
          then mark_escalated now <$> complaints db !! k
          else complaints db !! k)
    /\ escalated now (auto_notes h) l db db'.
Proof.
  intros l.
  destruct (for_each_rows
              (fun complaint count =>
                 r <- Escalation_objects_create now complaint None Reason.SLA_BREACH
                        ("Auto-escalated: Complaint unresolved for "
                           ++ pretty (days (3600 * (h * 2))) ++ " days") ;;
                 let complaint := set_status ESCALATED (snd r) in
                 Complaint_save now (Some [F_status; F_updated_at]) complaint ;;;
                 ret (S count))
              (mark_escalated now) (escalated now (auto_notes h)))
    with (l := l) (count := 0%nat) (db := db)
    as (db' & Hrun & Hrows & Hesc).
  - apply escalated_nil.
  - apply escalated_cons.
  - intros. by apply auto_escalate_overdue_body.
  - apply NoDup_pk_Complaint_objects_filter.
  - apply Complaint_objects_filter_rows.
  - by exists db'.
Qed.

(** C7.  The sweep returns the number of stored complaints that are
    breached, PENDING or IN_PROGRESS, created before [now] minus the
    threshold and without an unresolved escalation.  Each of them ends with
    status ESCALATED and a new, unresolved SLA_BREACH escalation; every other
    complaint is left as it is and gets no escalation; the escalations that
    were there stay, and one is added per selected complaint. *)
Theorem auto_escalate_overdue_exact h now db :
  let threshold := 3600 * (h * 2) in
  let due k row := overdue_candidate now threshold db (load (k, row)) in
  exists db',
    auto_escalate_overdue h now db =
    (Ok (length (List.filter (fun kv => due kv.1 kv.2) (map_to_list (complaints db)))),
     db')
    /\ (forall k row,
          due k row = true <-> due_for_escalation now threshold db k row)
    /\ (forall k row,
          complaints db !! k = Some row ->
          if due k row then
            complaints db' !! k = Some (mark_escalated now row)
            /\ exists j e,
                 escalations db' !! j = Some e /\ escalations db !! j = None
                 /\ complaint_id e = Some k /\ reason e = Reason.SLA_BREACH
                 /\ resolved e = false
          else
            complaints db' !! k = Some row
            /\ forall j e,
                 escalations db' !! j = Some e -> complaint_id e = Some k ->
                 escalations db !! j = Some e)
    /\ (forall k, complaints db !! k = None -> complaints db' !! k = None)
    /\ (forall j e, escalations db !! j = Some e -> escalations db' !! j = Some e)
    /\ size (escalations db') =
       (size (escalations db)
        + length (List.filter (fun kv => due kv.1 kv.2) (map_to_list (complaints db))))%nat.
Proof.
  intros threshold due.
  destruct (auto_escalate_overdue_run h now db)
    as (db' & Hrun & Hrows & _ & _ & _ & Hold & Hsize & Hnew & Hall).
  fold threshold in Hrun, Hrows, Hsize, Hnew, Hall.
  set (l := Complaint_objects_filter (overdue_candidate now threshold db) db) in *.
  assert (Hlen : length l
                 = length (List.filter (fun kv => due kv.1 kv.2)
                             (map_to_list (complaints db)))).
  { unfold l. by rewrite length_Complaint_objects_filter. }
  exists db'. split_and!.
  - rewrite <- Hlen. exact Hrun.
  - intros k row. apply overdue_candidate_due.
  - intros k row Hrow.
    pose proof (pk_elem_of_Complaint_objects_filter
                  (overdue_candidate now threshold db) db k row Hrow) as Hsel.
    fold l in Hsel. fold (due k row) in Hsel.
    rewrite Hrows, Hrow. simpl.
    destruct (due k row) eqn:Hdue.
    + rewrite bool_decide_eq_true_2 by (by apply Hsel). split; [done|].
      destruct (Hall (load (k, row))) as (j & e & Hj' & Hj & Hid).
      { apply elem_of_Complaint_objects_filter. by exists k, row. }
      destruct (Hnew j e Hj' Hj) as (_ & Hreason & Hres & _).
      by exists j, e.
    + rewrite bool_decide_eq_false_2.
      2: { intros Hin. apply Hsel in Hin. congruence. }
      split; [done|]. intros j e Hj' Hid.
      destruct (escalations db !! j) as [e0|] eqn:Hj.
      { apply Hold in Hj. congruence. }
      exfalso.
      destruct (Hnew j e Hj' Hj) as ((c & Hc & Hidc) & _).
      apply elem_of_Complaint_objects_filter in Hc
        as (k' & row' & Hrow' & -> & Hc).
      simpl in Hidc. rewrite Hid in Hidc. simplify_eq.
      unfold due in Hdue. congruence.
  - intros k Hk. rewrite Hrows, Hk. by case_bool_decide.
  - exact Hold.
  - by rewrite Hsize, Hlen.
Qed.

(** The scenario with a threshold of 48 hours, a month after creation. *)
Example auto_escalate_overdue_scenario :
  let r := auto_escalate_overdue 24 2592000 SweepScenario.db in
  r.1 = Ok 1%nat
  /\ (status <$> complaints r.2 !! 1%positive) = Some PENDING
  /\ (status <$> complaints r.2 !! 2%positive) = Some ESCALATED
  /\ (reason <$> escalations r.2 !! 3%positive) = Some Reason.SLA_BREACH
  /\ (complaint_id <$> escalations r.2 !! 3%positive) = Some (Some 2%positive)
  /\ size (escalations r.2) = 3%nat.
Proof. split_and!; vm_compute; reflexivity. Qed.

(** ** The views *)

Lemma role_required_allowed allowed user view_func :
  role user ∈ allowed -> role_required allowed user view_func = view_func.
Proof. intros H. unfold role_required. by rewrite bool_decide_eq_false_2 by auto. Qed.

Lemma role_required_refused allowed user view_func db :
  role user ∉ allowed ->
  role_required allowed user view_func db = (Ok [no_permission], db).
Proof. intros H. unfold role_required. by rewrite bool_decide_eq_true_2. Qed.

Lemma get_object_or_404_found k row db :
  complaints db !! k = Some row -> get_object_or_404 k db = (Ok (load (k, row)), db).
Proof. intros H. unfold get_object_or_404, bind, get_db. by rewrite H. Qed.

Lemma get_object_or_404_missing k db :
  complaints db !! k = None -> get_object_or_404 k db = (Raise Http404, db).
Proof. intros H. unfold get_object_or_404, bind, get_db. by rewrite H. Qed.

(** *** [staff_claim_complaint] *)

Lemma staff_claim_complaint_assigned now user k db old :
  role user = STAFF -> complaints db !! k = Some old ->
  assigned_staff old <> None ->
  staff_claim_complaint now user k db = (Ok [already_assigned], db).
Proof.
  intros Hrole Hold Hassigned. unfold staff_claim_complaint.
  rewrite role_required_allowed by (rewrite Hrole; by left).
  unfold bind. rewrite (get_object_or_404_found _ old) by done.
  simpl. by rewrite bool_decide_eq_true_2.
Qed.

Lemma staff_claim_complaint_unassigned now user k db old :
  role user = STAFF -> complaints db !! k = Some old ->
  assigned_staff old = None ->
  staff_claim_complaint now user k db =
  (Ok [(SUCCESS, "Complaint #" ++ pretty (Z.pos k) ++ " has been assigned to you.")],
   with_complaints (<[k := claimed now user k old]> (complaints db)) db).
Proof.
  intros Hrole Hold Hassigned. unfold staff_claim_complaint.
  rewrite role_required_allowed by (rewrite Hrole; by left).
  unfold bind at 1. rewrite (get_object_or_404_found _ old) by done.
  simpl. rewrite Hassigned. rewrite bool_decide_eq_false_2 by auto.
  unfold bind. by rewrite (Complaint_save_existing _ _ _ k old).
Qed.

(** C6.  A claim by a staff member reports that the complaint is already
    assigned exactly when it is; the store is then as it was.  Otherwise the
    complaint is saved with that staff member assigned and status
    IN_PROGRESS. *)
Theorem staff_claim_complaint_exclusive now user k db old :
  role user = STAFF -> complaints db !! k = Some old ->
  let r := staff_claim_complaint now user k db in
  (r.1 = Ok [already_assigned] <-> assigned_staff old <> None)
  /\ (assigned_staff old <> None -> r = (Ok [already_assigned], db))
  /\ (assigned_staff old = None ->
      exists row',
        r.1 = Ok [(SUCCESS,
                   "Complaint #" ++ pretty (Z.pos k) ++ " has been assigned to you.")]
        /\ complaints r.2 !! k = Some row'
        /\ assigned_staff row' = Some (u_pk user)
        /\ status row' = IN_PROGRESS).
Proof.
  intros Hrole Hold r. subst r.
  destruct (assigned_staff old) as [s|] eqn:Hs.
  - rewrite (staff_claim_complaint_assigned _ _ _ _ old) by (done || congruence).
    simpl. split_and!; [done|done|]. intros; congruence.
  - rewrite (staff_claim_complaint_unassigned _ _ _ _ old) by done.
    simpl. split_and!.
    + split; [intros [=]|done].
    + done.
    + intros _. exists (claimed now user k old). split_and!; [done| | |].
      * by rewrite lookup_insert_eq.
      * unfold claimed. simpl. by rewrite assigned_staff_prepared.
      * unfold claimed. simpl. by rewrite status_prepared.
Qed.

Lemma staff_claim_complaint_exclusive_witness :
  exists row',
    (staff_claim_complaint 5 Scenario.bob 1 Scenario.urgent_db).1
    = Ok [(SUCCESS, "Complaint #1 has been assigned to you.")]
    /\ complaints (staff_claim_complaint 5 Scenario.bob 1 Scenario.urgent_db).2
         !! 1%positive = Some row'
    /\ assigned_staff row' = Some 2%positive
    /\ status row' = IN_PROGRESS.
Proof.
  refine (proj2 (proj2 (staff_claim_complaint_exclusive 5 Scenario.bob 1
Scenario.urgent_db _ _ _)) _).
  - reflexivity.
  - vm_compute. reflexivity.
  - reflexivity.
Defined.

(** *** [staff_update_complaint] *)

Lemma staff_update_complaint_saved now user k form db old s :
  role user = STAFF -> complaints db !! k = Some old ->
  assigned_staff old = None \/ assigned_staff old = Some (u_pk user) ->
  post_status form = Some s ->
  from_option (active_staff db) true (post_assigned_staff form) = true ->
  staff_update_complaint now user POST k form db =
  (Ok [(SUCCESS, "Complaint updated successfully!")],
   with_complaints (<[k := updated now user k form s old]> (complaints db)) db).
Proof.
  intros Hrole Hold Hmine Hs Hstaff. unfold staff_update_complaint.
  rewrite role_required_allowed by (rewrite Hrole; by left).
  unfold bind at 1. rewrite (get_object_or_404_found _ old) by done.
  assert (bool_decide (assigned_staff (load (k, old)) <> None)
          && bool_decide (assigned_staff (load (k, old)) <> Some (u_pk user))
          = false) as ->.
  { simpl. destruct Hmine as [-> | ->].
    - by rewrite bool_decide_eq_false_2 by auto.
    - rewrite (bool_decide_eq_false_2 (_ <> Some _)) by auto.
      by rewrite andb_false_r. }
  unfold bind at 1. unfold get_db.
  unfold ComplaintStatusUpdateForm_save. rewrite Hs, Hstaff.
  unfold bind.
  destruct (post_assigned_staff form) as [t|] eqn:Ht; simpl.
  - rewrite (Complaint_save_existing _ _ _ k old) by done.
    unfold updated. by rewrite Ht.
  - rewrite (Complaint_save_existing _ _ _ k old) by done.
    unfold updated. by rewrite Ht.
Qed.

Lemma assigned_to_another_false (assigned : option positive) (u : positive) :
  bool_decide (assigned <> None) && bool_decide (assigned <> Some u) = false ->
  assigned = None \/ assigned = Some u.
Proof.
  intros [H|H]%andb_false_iff; apply bool_decide_eq_false in H.
  - left. by destruct assigned; [exfalso; apply H|].
  - right. destruct (decide (assigned = Some u)); [done|]. by exfalso; apply H.
Qed.

(** Every other request to the view leaves the store as it is. *)
Lemma staff_update_complaint_cases now user method k form db :
  (staff_update_complaint now user method k form db).2 = db
  \/ exists old s,
       complaints db !! k = Some old
       /\ (staff_update_complaint now user method k form db).2 =
          with_complaints (<[k := updated now user k form s old]> (complaints db)) db.
Proof.
  destruct (decide (role user = STAFF)) as [Hrole|Hrole].
  2: { left. unfold staff_update_complaint.
       rewrite role_required_refused; [done|].
       rewrite list_elem_of_singleton. done. }
  destruct (complaints db !! k) as [old|] eqn:Hold.
  2: { left. unfold staff_update_complaint.
       rewrite role_required_allowed by (rewrite Hrole; by left).
       unfold bind. by rewrite get_object_or_404_missing. }
  destruct method, (post_status form) as [s|] eqn:Hs,
    (from_option (active_staff db) true (post_assigned_staff form)) eqn:Hstaff,
    (bool_decide (assigned_staff old <> None)
     && bool_decide (assigned_staff old <> Some (u_pk user))) eqn:Hcheck;
    try (right; exists old, s; split; [done|];
         apply assigned_to_another_false in Hcheck;
         by rewrite (staff_update_complaint_saved _ _ _ _ _ old s));
    left; unfold staff_update_complaint;
    rewrite role_required_allowed by (rewrite Hrole; by left);
    unfold bind at 1; rewrite (get_object_or_404_found _ old) by done;
    simpl; rewrite Hcheck; try done;
    unfold bind, get_db, ComplaintStatusUpdateForm_save;
    rewrite ?Hs, ?Hstaff; try done.
Qed.

Lemma staff_claim_complaint_cases now user k db :
  (staff_claim_complaint now user k db).2 = db
  \/ exists old,
       complaints db !! k = Some old
       /\ (staff_claim_complaint now user k db).2 =
          with_complaints (<[k := claimed now user k old]> (complaints db)) db.
Proof.
  destruct (decide (role user = STAFF)) as [Hrole|Hrole].
  2: { left. unfold staff_claim_complaint.
       rewrite role_required_refused; [done|].
       by rewrite list_elem_of_singleton. }
  destruct (complaints db !! k) as [old|] eqn:Hold.
  2: { left. unfold staff_claim_complaint.
       rewrite role_required_allowed by (rewrite Hrole; by left).
       unfold bind. by rewrite get_object_or_404_missing. }
  destruct (assigned_staff old) as [s|] eqn:Hs.
  - left. by rewrite (staff_claim_complaint_assigned _ _ _ _ old) by (done || congruence).
  - right. exists old. split; [done|].
    by rewrite (staff_claim_complaint_unassigned _ _ _ _ old).
Qed.

(** *** [student_create_complaint] *)

Lemma pk_ComplaintForm_save form user db c :
  ComplaintForm_save form user db = Some c -> pk c = None.
Proof.
  unfold ComplaintForm_save. intros H.
  repeat case_match; by simplify_eq.
Qed.

Lemma student_create_complaint_without_policy now user form db p c :
  role user = STUDENT ->
  ComplaintForm_save form user db = Some c ->
  post_priority form = Some p ->
  SLA_active p db = None ->
  student_create_complaint now user POST form db =
  (Ok [(SUCCESS, "Your complaint has been submitted successfully!")],
   with_complaints
     (<[next_pk (complaints db) :=
          created_without_policy now user form p (next_pk (complaints db))]>
        (complaints db)) db).
Proof.
  intros Hrole Hform Hp Hsla. unfold student_create_complaint.
  rewrite role_required_allowed by (rewrite Hrole; by left).
  unfold bind at 1. unfold get_db. rewrite Hform.
  unfold bind.
  rewrite Complaint_save_new by (by eapply pk_ComplaintForm_save).
  unfold ComplaintForm_save in Hform. rewrite Hp in Hform.
  case_match; [|done]. injection Hform as <-. simpl.
  rewrite Hsla. unfold stamp_deadline. simpl. by rewrite Hsla.
Qed.

Lemma student_create_complaint_saved now user form db c :
  role user = STUDENT ->
  ComplaintForm_save form user db = Some c ->
  exists c',
    student_create_complaint now user POST form db =
    (Ok [(SUCCESS, "Your complaint has been submitted successfully!")],
     with_complaints (<[next_pk (complaints db) := c']> (complaints db)) db).
Proof.
  intros Hrole Hform. unfold student_create_complaint.
  rewrite role_required_allowed by (rewrite Hrole; by left).
  unfold bind at 1. unfold get_db. rewrite Hform.
  unfold bind.
  rewrite Complaint_save_new by (by eapply pk_ComplaintForm_save).
  simpl. eauto.
Qed.

Lemma student_create_complaint_cases now user method form db :
  (student_create_complaint now user method form db).2 = db
  \/ exists c,
       (student_create_complaint now user method form db).2 =
       with_complaints (<[next_pk (complaints db) := c]> (complaints db)) db.
Proof.
  destruct (decide (role user = STUDENT)) as [Hrole|Hrole].
  2: { left. unfold student_create_complaint.
       rewrite role_required_refused; [done|].
       by rewrite list_elem_of_singleton. }
  destruct method, (ComplaintForm_save form user db) as [c|] eqn:Hc;
    try (right;
         destruct (student_create_complaint_saved now user form db c Hrole Hc)
           as [c' ->]; by exists c');
    left; unfold student_create_complaint;
    rewrite role_required_allowed by (rewrite Hrole; by left);
    try done.
  unfold bind, get_db. by rewrite Hc.
Qed.

(** *** [admin_escalate_complaint] *)

Lemma admin_escalate_complaint_saved now user k posted_reason posted_notes db old :
  role user = ADMIN -> complaints db !! k = Some old ->
  admin_escalate_complaint now user POST k posted_reason posted_notes db =
  (Ok [(SUCCESS, "Complaint #" ++ pretty (Z.pos k) ++ " has been escalated.")],
   {| complaints := <[k := escalated_row now k old]> (complaints db);
      escalations :=
        <[next_pk (escalations db) :=
            new_escalation now db k (Some (u_pk user))
              (default Reason.OTHER posted_reason) (default "" posted_notes)]>
          (escalations db);
      slas := slas db; users := users db; categories := categories db |}).
Proof.
  intros Hrole Hold. unfold admin_escalate_complaint.
  rewrite role_required_allowed by (rewrite Hrole; by left).
  unfold bind at 1. rewrite (get_object_or_404_found _ old) by done.
  unfold bind at 1.
  rewrite (Escalation_objects_create_saved _ _ _ _ _ _ k old) by done.
  unfold bind. simpl.
  rewrite (Complaint_save_existing _ _ _ k (set_status ESCALATED old)).
  2: { simpl. by rewrite pk_prepared. }
  2: { simpl. by rewrite lookup_insert_eq. }
  simpl. unfold with_complaints. simpl. by rewrite insert_insert_eq.
Qed.

Lemma admin_escalate_complaint_cases now user method k posted_reason posted_notes db :
  (admin_escalate_complaint now user method k posted_reason posted_notes db).2 = db
  \/ exists old,
       complaints db !! k = Some old
       /\ complaints
            (admin_escalate_complaint now user method k posted_reason posted_notes db).2
          = <[k := escalated_row now k old]> (complaints db).
Proof.
  destruct (decide (role user = ADMIN)) as [Hrole|Hrole].
  2: { left. unfold admin_escalate_complaint.
       rewrite role_required_refused; [done|].
       by rewrite list_elem_of_singleton. }
  destruct (complaints db !! k) as [old|] eqn:Hold.
  2: { left. unfold admin_escalate_complaint.
       rewrite role_required_allowed by (rewrite Hrole; by left).
       unfold bind. by rewrite get_object_or_404_missing. }
  destruct method.
  - left. unfold admin_escalate_complaint.
    rewrite role_required_allowed by (rewrite Hrole; by left).
    unfold bind. by rewrite (get_object_or_404_found _ old).
  - right. exists old. split; [done|].
    by rewrite (admin_escalate_complaint_saved _ _ _ _ _ _ old).
Qed.

(** *** [assign_pending_complaints] *)

(** tasks.py never imports [models]: once there is a complaint to assign,
    the task raises before it reads the staff, and the store is as it
    was. *)
Lemma assign_pending_complaints_raises now db :
  Complaint_objects_filter pending_unassigned db <> [] ->
  assign_pending_complaints now db = (Raise (NameError "models"), db).
Proof.
  intros H. unfold assign_pending_complaints, bind, get_db.
  by rewrite bool_decide_eq_true_2.
Qed.

Lemma assign_pending_complaints_none now db :
  Complaint_objects_filter pending_unassigned db = [] ->
  assign_pending_complaints now db = (Ok 0%nat, db).
Proof.
  intros H. unfold assign_pending_complaints, bind, get_db.
  rewrite bool_decide_eq_false_2; [done|]. by intros Hne.
Qed.

Lemma assign_pending_complaints_store now db :
  (assign_pending_complaints now db).2 = db.
Proof.
  destruct (decide (Complaint_objects_filter pending_unassigned db = [])).
  - by rewrite assign_pending_complaints_none.
  - by rewrite assign_pending_complaints_raises.
Qed.

(** ** What one operation does to a row *)

Lemma row_step_refl now row : row_step now row row.
Proof. unfold row_step. auto. Qed.

(** The stamps of [Complaint.save] and plain assignments to other
    attributes keep an instance in step with the row it was read from. *)
Lemma row_step_prepared now old0 old self :
  row_step now old self -> row_step now old (prepared now old0 self).
Proof.
  intros (Hd & Hup & Hdown). unfold row_step.
  rewrite sla_deadline_prepared, is_sla_breached_prepared, Hd.
  split_and!; [done|by intros ->%Hup|].
  intros [?|H]%orb_true_iff; [by apply Hdown|right].
  destruct (sla_deadline old) as [d|]; [|done].
  apply andb_true_iff in H as [_ H%bool_decide_eq_true].
  exists d. split; [done|lia].
Qed.

Lemma row_step_load now k old : row_step now old (load (k, old)).
Proof. exact (row_step_refl now old). Qed.

Lemma row_step_set_status now old self v :
  row_step now old self -> row_step now old (set_status v self).
Proof. done. Qed.

Lemma row_step_set_assigned_staff now old self v :
  row_step now old self -> row_step now old (set_assigned_staff v self).
Proof. done. Qed.

Lemma row_step_set_solution now old self v :
  row_step now old self -> row_step now old (set_solution v self).
Proof. done. Qed.

Lemma row_step_set_updated_at now old self v :
  row_step now old self -> row_step now old (set_updated_at v self).
Proof. done. Qed.

Create HintDb row_step.
#[local] Hint Resolve row_step_refl row_step_prepared row_step_load
  row_step_set_status row_step_set_assigned_staff row_step_set_solution
  row_step_set_updated_at : row_step.

Lemma row_step_updated now user k form s old :
  row_step now old (updated now user k form s old).
Proof. unfold updated. auto 10 with row_step. Qed.

Lemma row_step_claimed now user k old : row_step now old (claimed now user k old).
Proof. unfold claimed. auto 10 with row_step. Qed.

Lemma row_step_escalated_row now k old : row_step now old (escalated_row now k old).
Proof. unfold escalated_row. auto 10 with row_step. Qed.

Lemma row_step_mark_breached now row :
  breach_candidate now row = true -> row_step now row (mark_breached now row).
Proof.
  intros H. unfold row_step. simpl. split_and!; [done..|].
  intros _. right. unfold breach_candidate in H.
  destruct (sla_deadline row) as [d|]; [|done].
  apply andb_true_iff in H as [[H%bool_decide_eq_true _]%andb_true_iff _].
  by exists d.
Qed.

Lemma row_step_mark_escalated now row : row_step now row (mark_escalated now row).
Proof. unfold mark_escalated. auto with row_step. Qed.

(** Every operation keeps every row, in step. *)
Lemma run_row_step now op db k row :
  complaints db !! k = Some row ->
  exists row', complaints (run now op db) !! k = Some row' /\ row_step now row row'.
Proof.
  intros Hrow.
  assert (Hsame : forall db', db' = db ->
            exists row', complaints db' !! k = Some row' /\ row_step now row row').
  { intros db' ->. exists row. auto with row_step. }
  assert (Hins : forall k' row0 row1 t,
            complaints db !! k' = Some row0 -> row_step now row0 row1 ->
            t = <[k' := row1]> (complaints db) ->
            exists row', t !! k = Some row' /\ row_step now row row').
  { intros k' row0 row1 t Hrow0 Hstep ->.
    destruct (decide (k' = k)) as [->|Hne].
    - exists row1. rewrite lookup_insert_eq. split; [done|]. congruence.
    - exists row. rewrite lookup_insert_ne by done. auto with row_step. }
  destruct op as [user method form|user method k' form|user k'
                 |user method k' posted_reason posted_notes| |h| |p policy]; simpl.
  - destruct (student_create_complaint_cases now user method form db)
      as [->|[c ->]]; [by apply Hsame|].
    exists row. simpl. split; [|auto with row_step].
    rewrite lookup_insert_ne; [done|].
    intros Heq. pose proof (next_pk_fresh (complaints db)). congruence.
  - destruct (staff_update_complaint_cases now user method k' form db)
      as [->|(old & s & Hold & ->)]; [by apply Hsame|].
    eapply Hins; [exact Hold| |done]. apply row_step_updated.
  - destruct (staff_claim_complaint_cases now user k' db)
      as [->|(old & Hold & ->)]; [by apply Hsame|].
    eapply Hins; [exact Hold| |done]. apply row_step_claimed.
  - destruct (admin_escalate_complaint_cases now user method k' posted_reason
                posted_notes db) as [->|(old & Hold & ->)]; [by apply Hsame|].
    eapply Hins; [exact Hold| |done]. apply row_step_escalated_row.
  - destruct (check_sla_breaches_rows now db) as (db1 & -> & Hrows & _).
    simpl. rewrite Hrows, Hrow. simpl. eexists. split; [done|].
    destruct (breach_candidate now row) eqn:Hc;
      [by apply row_step_mark_breached|apply row_step_refl].
  - destruct (auto_escalate_overdue_run h now db) as (db1 & -> & Hrows & _).
    simpl. rewrite Hrows, Hrow. case_bool_decide; simpl; eexists; (split; [done|]);
      auto using row_step_mark_escalated with row_step.
  - rewrite assign_pending_complaints_store. by apply Hsame.
  - exists row. auto with row_step.
Qed.

(** ** Histories *)

(** Along a history every row stays, keeps its deadline and never loses its
    breach flag; a row without a deadline never gets the flag. *)
Lemma run_all_rows history : forall db k row,
  complaints db !! k = Some row ->
  exists row',
    complaints (run_all history db) !! k = Some row'
    /\ sla_deadline row' = sla_deadline row
    /\ (is_sla_breached row = true -> is_sla_breached row' = true)
    /\ (sla_deadline row = None -> is_sla_breached row = false ->
        is_sla_breached row' = false).
Proof.
  induction history as [|[now op] history IH]; intros db k row Hrow; simpl.
  - exists row. auto.
  - destruct (run_row_step now op db k row Hrow) as (row1 & Hrow1 & Hd1 & Hup1 & Hdown1).
    destruct (IH _ k row1 Hrow1) as (row' & Hrow' & Hd & Hup & Hno).
    exists row'. split_and!; [done|congruence|auto|].
    intros Hnone Hfalse. apply Hno; [congruence|].
    destruct (is_sla_breached row1) eqn:Hb; [|done].
    destruct (Hdown1 eq_refl) as [?|(d & ? & _)]; congruence.
Qed.

(** ** The lifecycle of the flags *)

(** C1 (the code departs from it).  [resolved_at] is stamped when the
    complaint is first resolved, at time 10; when the complaint is reopened
    and resolved again at time 30, the [pre_save] receiver stamps it anew,
    so the first resolution time is lost. *)
Lemma resolved_at_stamped_again :
  (resolved_at <$> complaints Scenario.urgent_db !! 1%positive) = Some None
  /\ (resolved_at <$> complaints Scenario.resolved_db !! 1%positive) = Some (Some 10)
  /\ (resolved_at <$> complaints Scenario.reopened_db !! 1%positive) = Some (Some 10)
  /\ (resolved_at <$>
        complaints
          (run 30 (UpdateComplaintStatus Scenario.bob POST 1
                     (Scenario.status_form RESOLVED None)) Scenario.reopened_db)
        !! 1%positive) = Some (Some 30).
Proof. split_and!; vm_compute; reflexivity. Qed.

(** The same for any complaint: a staff update that changes the status to
    RESOLVED sets [resolved_at] to the time of the update, whatever it was. *)
Lemma resolved_at_updated now user k form old :
  status old <> RESOLVED ->
  resolved_at (updated now user k form RESOLVED old) = Some now.
Proof.
  intros H. unfold updated, prepared, stamp_status_changed. simpl.
  assert (forall s, status s = RESOLVED -> status (stamp_breached now s) = RESOLVED) as Hb.
  { intros s Hs. unfold stamp_breached. by repeat case_match. }
  assert (forall s, status s = RESOLVED -> status (stamp_resolved now s) = RESOLVED) as Hr.
  { intros s Hs. unfold stamp_resolved. by case_match. }
  rewrite Hb by (by apply Hr).
  rewrite bool_decide_eq_true_2 by congruence.
  by rewrite bool_decide_eq_true_2.
Qed.

(** C2.  Along every history of operations, a complaint whose
    [is_sla_breached] is true stays in the store with [is_sla_breached]
    true. *)
Theorem is_sla_breached_monotonic history db k row :
  complaints db !! k = Some row ->
  is_sla_breached row = true ->
  exists row',
    complaints (run_all history db) !! k = Some row'
    /\ is_sla_breached row' = true.
Proof.
  intros Hrow Hb.
  destruct (run_all_rows history db k row Hrow) as (row' & Hrow' & _ & Hup & _).
  exists row'. auto.
Qed.

Lemma is_sla_breached_monotonic_witness :
  exists row',
    complaints
      (run_all [(30000, CreateEscalation Scenario.carol POST 1 None None);
                (30010, UpdateComplaintStatus Scenario.bob POST 1
                          (Scenario.status_form RESOLVED None));
                (30020, ScanSlaBreaches)]
         (run 20000 ScanSlaBreaches Scenario.urgent_db)) !! 1%positive = Some row'
    /\ is_sla_breached row' = true.
Proof.
  eapply is_sla_breached_monotonic; vm_compute; reflexivity.
Defined.

(** C3.  Creating an escalation for a stored complaint, whatever its
    status, returns with the complaint's status ESCALATED both on the
    instance and in the store, and with the escalation row inserted; so does
    the view that an administrator escalates through. *)
Theorem escalation_forces_escalated now c by_user why text db k old :
  pk c = Some k ->
  complaints db !! k = Some old ->
  (exists e c' db',
     Escalation_objects_create now c by_user why text db = (Ok (e, c'), db')
     /\ status c' = ESCALATED
     /\ (exists row', complaints db' !! k = Some row' /\ status row' = ESCALATED)
     /\ (exists j,
           escalations db !! j = None /\ escalations db' !! j = Some e
           /\ complaint_id e = Some k))
  /\ (forall user posted_reason posted_notes,
        role user = ADMIN ->
        exists msg db' row',
          admin_escalate_complaint now user POST k posted_reason posted_notes db =
          (Ok [(SUCCESS, msg)], db')
          /\ complaints db' !! k = Some row' /\ status row' = ESCALATED).
Proof.
  intros Hpk Hold. split.
  - rewrite (Escalation_objects_create_saved _ _ _ _ _ _ k old) by done.
    eexists _, _, _. split_and!; [done| | |].
    + by rewrite status_prepared.
    + simpl. rewrite lookup_insert_eq. by eexists.
    + exists (next_pk (escalations db)). simpl.
      by rewrite next_pk_fresh, lookup_insert_eq.
  - intros user posted_reason posted_notes Hrole.
    rewrite (admin_escalate_complaint_saved _ _ _ _ _ _ old) by done.
    eexists _, _, _. split_and!; [done| |].
    + simpl. by rewrite lookup_insert_eq.
    + unfold escalated_row. simpl. by rewrite status_prepared.
Qed.

Lemma escalation_forces_escalated_witness :
  exists msg db' row',
    admin_escalate_complaint 40 Scenario.carol POST 1 None None Scenario.resolved_db =
    (Ok [(SUCCESS, msg)], db')
    /\ complaints db' !! 1%positive = Some row' /\ status row' = ESCALATED.
Proof.
  refine (proj2 (escalation_forces_escalated 40 (SweepScenario.overdue 1) None "" ""
                   Scenario.resolved_db 1 _ _ _) Scenario.carol None None _).
  - reflexivity.
  - vm_compute. reflexivity.
  - reflexivity.
Defined.

(** C4 (the code departs from it).  With one pending, unassigned complaint
    and two active staff members the task assigns nothing and returns no
    count: it raises [NameError], because tasks.py uses [models.Count] and
    [models.Q] without importing [models]. *)
Lemma assign_pending_complaints_name_error :
  Complaint_objects_filter pending_unassigned Scenario.urgent_db <> []
  /\ length (staff_list Scenario.urgent_db) = 2%nat
  /\ assign_pending_complaints 5 Scenario.urgent_db
     = (Raise (NameError "models"), Scenario.urgent_db).
Proof.
  split_and!.
  - vm_compute. discriminate.
  - vm_compute. reflexivity.
  - apply assign_pending_complaints_raises. vm_compute. discriminate.
Qed.

(** C5 (as stated it fails).  The urgent complaint is escalated at time 100,
    before its deadline 14400.  At time 20000 it is overdue and its status
    ESCALATED is not terminal, yet the sweep selects nothing and the
    complaint stays unmarked. *)
Lemma sweep_skips_escalated :
  exists row,
    complaints Scenario.escalated_db !! 1%positive = Some row
    /\ sla_deadline row = Some 14400
    /\ status row = ESCALATED
    /\ is_terminal (status row) = false
    /\ is_sla_breached row = false
    /\ check_sla_breaches 20000 Scenario.escalated_db = (Ok 0%nat, Scenario.escalated_db).
Proof.
  eexists. split_and!; [vm_compute; reflexivity..|].
  apply check_sla_breaches_nothing. intros k row.
  assert (complaints Scenario.escalated_db
          = {[ 1%positive :=
                 {| pk := Some 1%positive; student := 1; assigned_staff := None;
                    category := None; title := "Broken projector";
                    description := "Room 12"; status := ESCALATED;
                    priority := URGENT; solution := None; created_at := 0;
                    updated_at := 100; resolved_at := None;
                    sla_deadline := Some 14400; is_sla_breached := false |} ]})
    as -> by (vm_compute; reflexivity).
  intros [_ <-]%lookup_singleton_Some. reflexivity.
Qed.

(** C5, amended.  Saving an overdue complaint that is not in a terminal
    status sets the flag on the instance, and in the stored row when the save
    writes that column: a save of every column, or one whose [update_fields]
    names it.  The sweep at time [now] marks the stored complaints that are
    overdue and PENDING or IN_PROGRESS, and leaves those in any other status
    as they are. *)
Theorem breach_flag_on_save_and_sweep now db k old :
  complaints db !! k = Some old ->
  (forall self update_fields deadline,
     pk self = Some k ->
     sla_deadline self = Some deadline -> now > deadline ->
     is_terminal (status self) = false ->
     update_fields <> Some [] ->
     exists self' db',
       Complaint_save now update_fields self db = (Ok self', db')
       /\ is_sla_breached self' = true
       /\ (from_option (fun fields => F_is_sla_breached ∈ fields) True update_fields ->
           exists row',
             complaints db' !! k = Some row' /\ is_sla_breached row' = true))
  /\ (forall deadline,
        sla_deadline old = Some deadline -> deadline < now ->
        status old = PENDING \/ status old = IN_PROGRESS ->
        exists row',
          complaints (check_sla_breaches now db).2 !! k = Some row'
          /\ is_sla_breached row' = true)
  /\ (status old <> PENDING -> status old <> IN_PROGRESS ->
      complaints (check_sla_breaches now db).2 !! k = Some old).
Proof.
  intros Hold. split_and!.
  - intros self update_fields deadline Hpk Hd Hnow Hterm Hfields.
    assert (Hflag : is_sla_breached (prepared now old self) = true).
    { rewrite is_sla_breached_prepared, Hd, Hterm. simpl.
      rewrite bool_decide_eq_true_2 by done. apply orb_true_r. }
    destruct update_fields as [[|f fields]|]; [done| |].
    + rewrite (Complaint_save_update_fields _ _ _ _ _ k old) by done.
      eexists _, _. split_and!; [done| |].
      * by case_bool_decide.
      * simpl. intros Hin. eexists. rewrite lookup_insert_eq. split; [done|].
        unfold write_fields. simpl. rewrite bool_decide_eq_true_2 by done.
        by case_bool_decide.
    + rewrite (Complaint_save_existing _ _ _ k old) by done.
      eexists _, _. split_and!; [done..|].
      intros _. eexists. simpl. rewrite lookup_insert_eq. by split.
  - intros deadline Hd Hnow Hstatus.
    destruct (check_sla_breaches_rows now db) as (db1 & -> & Hrows & _).
    simpl. rewrite Hrows, Hold. simpl. eexists. split; [done|].
    destruct (breach_candidate now old) eqn:Hc; [done|].
    unfold breach_candidate in Hc. rewrite Hd in Hc.
    rewrite bool_decide_eq_true_2 in Hc by done.
    rewrite (proj2 (status_in_pending_in_progress old)) in Hc by done.
    rewrite andb_true_r in Hc. simpl in Hc. by apply negb_false_iff in Hc.
  - intros Hp Hi.
    destruct (check_sla_breaches_rows now db) as (db1 & -> & Hrows & _).
    simpl. rewrite Hrows, Hold. simpl.
    destruct (breach_candidate now old) eqn:Hc; [|done].
    unfold breach_candidate in Hc.
    apply andb_true_iff in Hc as [_ Hc%status_in_pending_in_progress].
    by destruct Hc.
Qed.

Lemma breach_flag_on_save_and_sweep_witness :
  (exists self' db',
     Complaint_save 20000 (Some [F_status])
       (set_is_sla_breached false (SweepScenario.overdue 1)) Scenario.urgent_db
     = (Ok self', db')
     /\ is_sla_breached self' = true
     /\ (F_is_sla_breached ∈ [F_status] ->
         exists row', complaints db' !! 1%positive = Some row'
                      /\ is_sla_breached row' = true))
  /\ (exists row',
        complaints (check_sla_breaches 20000 Scenario.urgent_db).2 !! 1%positive
        = Some row'
        /\ is_sla_breached row' = true)
  /\ complaints (check_sla_breaches 20000 Scenario.escalated_db).2 !! 1%positive
     = complaints Scenario.escalated_db !! 1%positive.
Proof.
  split_and!.
  - refine (proj1 (breach_flag_on_save_and_sweep 20000 Scenario.urgent_db 1 _ _)
              (set_is_sla_breached false (SweepScenario.overdue 1))
              (Some [F_status]) 14400 _ _ _ _ _).
    + vm_compute. reflexivity.
    + reflexivity.
    + reflexivity.
    + reflexivity.
    + reflexivity.
    + discriminate.
  - refine (proj1 (proj2 (breach_flag_on_save_and_sweep 20000 Scenario.urgent_db 1 _ _))
              14400 _ _ _).
    + vm_compute. reflexivity.
    + vm_compute. reflexivity.
    + reflexivity.
    + left. reflexivity.
  - etrans;
      [refine (proj2 (proj2 (breach_flag_on_save_and_sweep 20000
                               Scenario.escalated_db 1 _ _)) _ _)|].
    + vm_compute. reflexivity.
    + discriminate.
    + discriminate.
    + vm_compute. reflexivity.
Defined.

(** C9.  A valid complaint form whose priority has no active policy is
    saved: the view reports success and the new row has no deadline and is
    not breached.  Whatever operations follow, at whatever times and
    whatever policies are added later, that row keeps no deadline and is
    never marked breached. *)
Theorem no_policy_no_deadline now user form db p c history :
  role user = STUDENT ->
  ComplaintForm_save form user db = Some c ->
  post_priority form = Some p ->
  SLA_active p db = None ->
  let k := next_pk (complaints db) in
  let r := student_create_complaint now user POST form db in
  r.1 = Ok [(SUCCESS, "Your complaint has been submitted successfully!")]
  /\ complaints db !! k = None
  /\ (exists row,
        complaints r.2 !! k = Some row
        /\ status row = PENDING /\ priority row = p
        /\ sla_deadline row = None /\ is_sla_breached row = false)
  /\ (exists row',
        complaints (run_all history r.2) !! k = Some row'
        /\ sla_deadline row' = None /\ is_sla_breached row' = false).
Proof.
  intros Hrole Hform Hp Hsla k r. subst r.
  rewrite (student_create_complaint_without_policy _ _ _ _ p c) by done.
  fold k. simpl.
  assert (Hnew : <[k := created_without_policy now user form p k]> (complaints db)
                   !! k = Some (created_without_policy now user form p k))
    by apply lookup_insert_eq.
  split_and!; [done|apply next_pk_fresh|by eexists|].
  destruct (run_all_rows history
              (with_complaints
                 (<[k := created_without_policy now user form p k]> (complaints db)) db)
              k _ Hnew) as (row' & Hrow' & Hd & _ & Hflag).
  exists row'. split_and!; [done|by rewrite Hd|by apply Hflag].
Qed.

Lemma no_policy_no_deadline_witness :
  exists row',
    complaints
      (run_all [(100, ClaimComplaint Scenario.bob 1);
                (200, EditSLA LOW (Some {| sla_name := "Low";
                                           response_time_hours := 1;
                                           resolution_time_hours := 1;
                                           sla_is_active := true |}));
                (90000, UpdateComplaintStatus Scenario.bob POST 1
                          (Scenario.status_form IN_PROGRESS None));
                (90001, ScanSlaBreaches)]
Scenario.low_db) !! 1%positive = Some row'
    /\ sla_deadline row' = None /\ is_sla_breached row' = false.
Proof.
  refine (proj2 (proj2 (proj2
            (no_policy_no_deadline 0 Scenario.alice (Scenario.complaint_form LOW)
Scenario.empty_db LOW _ _ _ _ _ _)))).
  - reflexivity.
  - vm_compute. reflexivity.
  - reflexivity.
  - vm_compute. reflexivity.
Defined.

(** C10 (as stated it fails).  The complaint is unassigned; Bob, a staff
    member, posts an update whose form names Dave: the complaint is assigned
    to Dave, not to Bob. *)
Lemma staff_update_assigns_named_staff :
  (assigned_staff <$> complaints Scenario.urgent_db !! 1%positive) = Some None
  /\ u_pk Scenario.bob = 2%positive
  /\ staff_update_complaint 5 Scenario.bob POST 1
       (Scenario.status_form IN_PROGRESS (Some 4%positive)) Scenario.urgent_db
     = (Ok [(SUCCESS, "Complaint updated successfully!")],
        run 5 (UpdateComplaintStatus Scenario.bob POST 1
                 (Scenario.status_form IN_PROGRESS (Some 4%positive)))
Scenario.urgent_db)
  /\ (assigned_staff <$>
        complaints
          (run 5 (UpdateComplaintStatus Scenario.bob POST 1
                    (Scenario.status_form IN_PROGRESS (Some 4%positive)))
Scenario.urgent_db) !! 1%positive) = Some (Some 4%positive).
Proof. split_and!; vm_compute; reflexivity. Qed.

(** C10, amended.  A valid update that a staff member posts for an
    unassigned complaint is saved and reported as a success; the complaint is
    assigned to the staff member the form names, and to the one who posts when
    the form names nobody; its status is the posted one. *)
Theorem staff_update_assigns now user k form db old s :
  role user = STAFF ->
  complaints db !! k = Some old ->
  assigned_staff old = None ->
  post_status form = Some s ->
  from_option (active_staff db) true (post_assigned_staff form) = true ->
  exists db' row',
    staff_update_complaint now user POST k form db =
    (Ok [(SUCCESS, "Complaint updated successfully!")], db')
    /\ complaints db' !! k = Some row'
    /\ assigned_staff row' = Some (default (u_pk user) (post_assigned_staff form))
    /\ (post_assigned_staff form = None -> assigned_staff row' = Some (u_pk user))
    /\ status row' = s.
Proof.
  intros Hrole Hold Hnone Hs Hstaff.
  rewrite (staff_update_complaint_saved _ _ _ _ _ old s) by auto.
  eexists _, _. split_and!; [done|by simpl; rewrite lookup_insert_eq|..].
  - unfold updated. simpl. by rewrite assigned_staff_prepared.
  - intros Hform. unfold updated. simpl.
    by rewrite assigned_staff_prepared, Hform.
  - unfold updated. simpl. by rewrite status_prepared.
Qed.

Lemma staff_update_assigns_witness :
  exists db' row',
    staff_update_complaint 5 Scenario.bob POST 1
      (Scenario.status_form PENDING None) Scenario.urgent_db =
    (Ok [(SUCCESS, "Complaint updated successfully!")], db')
    /\ complaints db' !! 1%positive = Some row'
    /\ assigned_staff row' = Some 2%positive
    /\ (@None positive = None -> assigned_staff row' = Some 2%positive)
    /\ status row' = PENDING.
Proof.
  eapply (staff_update_assigns 5 Scenario.bob 1 (Scenario.status_form PENDING None)
Scenario.urgent_db _ PENDING).
  - reflexivity.
  - vm_compute. reflexivity.
  - reflexivity.
  - reflexivity.
  - reflexivity.
Defined.

(** * Further properties *)

(** ** Requests that are turned away *)

Lemma urgent_db_rows : complaints Scenario.urgent_db = {[ 1%positive := Desk.urgent_row ]}.
Proof. vm_compute. reflexivity. Qed.




(** X2.  A user whose role is not the one a view requires is told so, and
    nothing is written. *)
Theorem wrong_role_writes_nothing now user db :
  (role user <> STUDENT ->
   forall method form,
     student_create_complaint now user method form db = (Ok [no_permission], db))
  /\ (role user <> STAFF ->
      forall method k form,
        staff_update_complaint now user method k form db = (Ok [no_permission], db))
  /\ (role user <> STAFF ->
      forall k, staff_claim_complaint now user k db = (Ok [no_permission], db))
  /\ (role user <> ADMIN ->
      forall method k posted_reason posted_notes,
        admin_escalate_complaint now user method k posted_reason posted_notes db
        = (Ok [no_permission], db)).
Proof.
  split_and!; intros Hrole; intros;
    apply role_required_refused; by rewrite list_elem_of_singleton.
Qed.

Lemma wrong_role_writes_nothing_witness :
  staff_claim_complaint 5 Scenario.alice 1 Scenario.urgent_db
  = (Ok [no_permission], Scenario.urgent_db)
  /\ admin_escalate_complaint 5 Scenario.bob POST 1 None None Scenario.urgent_db
     = (Ok [no_permission], Scenario.urgent_db).
Proof.
  split.
  - refine (proj1 (proj2 (proj2 (wrong_role_writes_nothing 5 Scenario.alice
                                   Scenario.urgent_db))) _ 1%positive).
    discriminate.
  - refine (proj2 (proj2 (proj2 (wrong_role_writes_nothing 5 Scenario.bob
                                   Scenario.urgent_db))) _ POST 1%positive None None).
    discriminate.
Defined.

(** X3.  A request for a complaint that is not stored raises [Http404] and
    nothing is written. *)
Theorem missing_complaint_is_404 now user db k :
  complaints db !! k = None ->
  (role user = STAFF ->
   (forall method form,
      staff_update_complaint now user method k form db = (Raise Http404, db))
   /\ staff_claim_complaint now user k db = (Raise Http404, db))
  /\ (role user = ADMIN ->
      forall method posted_reason posted_notes,
        admin_escalate_complaint now user method k posted_reason posted_notes db
        = (Raise Http404, db)).
Proof.
  intros Hk. split; [intros Hrole; split; intros|intros Hrole; intros].
  - unfold staff_update_complaint.
    rewrite role_required_allowed by (rewrite Hrole; by left).
    unfold bind. by rewrite get_object_or_404_missing.
  - unfold staff_claim_complaint.
    rewrite role_required_allowed by (rewrite Hrole; by left).
    unfold bind. by rewrite get_object_or_404_missing.
  - unfold admin_escalate_complaint.
    rewrite role_required_allowed by (rewrite Hrole; by left).
    unfold bind. by rewrite get_object_or_404_missing.
Qed.

Lemma missing_complaint_is_404_witness :
  staff_claim_complaint 5 Scenario.bob 7 Scenario.urgent_db
  = (Raise Http404, Scenario.urgent_db).
Proof.
  refine (proj2 (proj1 (missing_complaint_is_404 5 Scenario.bob Scenario.urgent_db 7 _) _)).
  - vm_compute. reflexivity.
  - reflexivity.
Defined.

(** X4.  A staff member cannot update a complaint that is assigned to a
    colleague: whatever is posted, the view reports it and writes nothing. *)
Theorem update_of_anothers_complaint_refused now user method k form db old other :
  role user = STAFF ->
  complaints db !! k = Some old ->
  assigned_staff old = Some other ->
  other <> u_pk user ->
  staff_update_complaint now user method k form db = (Ok [assigned_to_another], db).
Proof.
  intros Hrole Hold Hassigned Hother. unfold staff_update_complaint.
  rewrite role_required_allowed by (rewrite Hrole; by left).
  unfold bind. rewrite (get_object_or_404_found _ old) by done.
  simpl. rewrite Hassigned.
  rewrite !bool_decide_eq_true_2; [done|congruence|done].
Qed.

Lemma update_of_anothers_complaint_refused_witness :
  staff_update_complaint 9 Scenario.dave POST 1
    (Scenario.status_form RESOLVED None) Desk.claimed_db
  = (Ok [assigned_to_another], Desk.claimed_db).
Proof.
  eapply (update_of_anothers_complaint_refused 9 Scenario.dave POST 1 _
            Desk.claimed_db _ 2%positive).
  - reflexivity.
  - vm_compute. reflexivity.
  - reflexivity.
  - discriminate.
Defined.

(** X5.  GET requests and invalid forms write nothing. *)
Theorem get_and_invalid_forms_write_nothing now user k db :
  (forall form, (student_create_complaint now user GET form db).2 = db)
  /\ (forall form, (staff_update_complaint now user GET k form db).2 = db)
  /\ (forall posted_reason posted_notes,
        (admin_escalate_complaint now user GET k posted_reason posted_notes db).2 = db)
  /\ (forall form,
        ComplaintForm_save form user db = None ->
        (student_create_complaint now user POST form db).2 = db)
  /\ (forall form,
        post_status form = None
        \/ from_option (active_staff db) true (post_assigned_staff form) = false ->
        (staff_update_complaint now user POST k form db).2 = db).
Proof.
  split_and!.
  - intros form. unfold student_create_complaint, role_required.
    by case_bool_decide.
  - intros form. unfold staff_update_complaint, role_required.
    case_bool_decide; [done|]. unfold bind at 1.
    unfold get_object_or_404, bind, get_db.
    destruct (complaints db !! k) as [old|]; [|done]. simpl.
    by destruct (bool_decide _ && bool_decide _).
  - intros posted_reason posted_notes. unfold admin_escalate_complaint, role_required.
    case_bool_decide; [done|]. unfold bind, get_object_or_404, bind, get_db.
    by destruct (complaints db !! k).
  - intros form Hform. unfold student_create_complaint, role_required.
    case_bool_decide; [done|]. unfold bind, get_db. by rewrite Hform.
  - intros form Hform. unfold staff_update_complaint, role_required.
    case_bool_decide; [done|]. unfold bind at 1.
    unfold get_object_or_404, bind, get_db.
    destruct (complaints db !! k) as [old|]; [|done]. simpl.
    destruct (bool_decide _ && bool_decide _); [done|].
    unfold ComplaintStatusUpdateForm_save.
    destruct Hform as [-> | Hstaff]; [done|].
    rewrite Hstaff. by destruct (post_status form).
Qed.

Lemma get_and_invalid_forms_write_nothing_witness :
  (staff_update_complaint 9 Scenario.bob POST 1
     {| post_status := Some RESOLVED; post_solution := "";
        post_assigned_staff := Some 1%positive |} Scenario.urgent_db).2
  = Scenario.urgent_db.
Proof.
  refine (proj2 (proj2 (proj2 (proj2
            (get_and_invalid_forms_write_nothing 9 Scenario.bob 1 Scenario.urgent_db))))
            _ _).
  right. vm_compute. reflexivity.
Defined.

(** ** Every operation, row by row *)

Lemma staff_update_complaint_moves now user method k form db :
  (staff_update_complaint now user method k form db).2 = db
  \/ exists old s,
       complaints db !! k = Some old
       /\ role user = STAFF
       /\ (assigned_staff old = None \/ assigned_staff old = Some (u_pk user))
       /\ post_status form = Some s
       /\ (staff_update_complaint now user method k form db).2 =
          with_complaints (<[k := updated now user k form s old]> (complaints db)) db.
Proof.
  destruct (decide (role user = STAFF)) as [Hrole|Hrole].
  2: { left. unfold staff_update_complaint.
       rewrite role_required_refused; [done|].
       rewrite list_elem_of_singleton. done. }
  destruct (complaints db !! k) as [old|] eqn:Hold.
  2: { left. unfold staff_update_complaint.
       rewrite role_required_allowed by (rewrite Hrole; by left).
       unfold bind. by rewrite get_object_or_404_missing. }
  destruct method, (post_status form) as [s|] eqn:Hs,
    (from_option (active_staff db) true (post_assigned_staff form)) eqn:Hstaff,
    (bool_decide (assigned_staff old <> None)
     && bool_decide (assigned_staff old <> Some (u_pk user))) eqn:Hcheck;
    try (right; exists old, s; apply assigned_to_another_false in Hcheck;
         split_and!; [done..|];
         by rewrite (staff_update_complaint_saved _ _ _ _ _ old s));
    left; unfold staff_update_complaint;
    rewrite role_required_allowed by (rewrite Hrole; by left);
    unfold bind at 1; rewrite (get_object_or_404_found _ old) by done;
    simpl; rewrite Hcheck; try done;
    unfold bind, get_db, ComplaintStatusUpdateForm_save;
    rewrite ?Hs, ?Hstaff; try done.
Qed.

Lemma staff_claim_complaint_moves now user k db :
  (staff_claim_complaint now user k db).2 = db
  \/ exists old,
       complaints db !! k = Some old
       /\ role user = STAFF /\ assigned_staff old = None
       /\ (staff_claim_complaint now user k db).2 =
          with_complaints (<[k := claimed now user k old]> (complaints db)) db.
Proof.
  destruct (decide (role user = STAFF)) as [Hrole|Hrole].
  2: { left. unfold staff_claim_complaint.
       rewrite role_required_refused; [done|].
       by rewrite list_elem_of_singleton. }
  destruct (complaints db !! k) as [old|] eqn:Hold.
  2: { left. unfold staff_claim_complaint.
       rewrite role_required_allowed by (rewrite Hrole; by left).
       unfold bind. by rewrite get_object_or_404_missing. }
  destruct (assigned_staff old) as [s|] eqn:Hs.
  - left. by rewrite (staff_claim_complaint_assigned _ _ _ _ old) by (done || congruence).
  - right. exists old. split_and!; [done..|].
    by rewrite (staff_claim_complaint_unassigned _ _ _ _ old).
Qed.

Lemma freshly_created_new now self db :
  pk self = None -> status self = PENDING -> assigned_staff self = None ->
  solution self = None -> resolved_at self = None -> sla_deadline self = None ->
  is_sla_breached self = false ->
  exists c,
    Complaint_save now None self db =
    (Ok c, with_complaints (<[next_pk (complaints db) := c]> (complaints db)) db)
    /\ freshly_created now (next_pk (complaints db)) c.
Proof.
  intros Hpk Hst Has Hsol Hres Hd Hb. rewrite Complaint_save_new by done.
  eexists. split; [reflexivity|].
  unfold stamp_deadline. rewrite Hpk, Hd. simpl.
  unfold freshly_created.
  destruct (SLA_active (priority self) db) as [sla|]; simpl.
  - unfold stamp_resolved. simpl. rewrite Hst. simpl.
    unfold stamp_breached. simpl. rewrite Hst. simpl.
    rewrite bool_decide_eq_false_2 by (unfold hours; lia). simpl.
    split_and!; try done. right. by exists (resolution_time_hours sla).
  - unfold stamp_resolved. rewrite Hst. simpl.
    unfold stamp_breached. rewrite Hd. simpl.
    split_and!; try done. by left.
Qed.

Lemma student_create_complaint_moves now user method form db :
  (student_create_complaint now user method form db).2 = db
  \/ exists c,
       freshly_created now (next_pk (complaints db)) c
       /\ (student_create_complaint now user method form db).2 =
          with_complaints (<[next_pk (complaints db) := c]> (complaints db)) db.
Proof.
  unfold student_create_complaint, role_required.
  case_bool_decide; [by left|].
  destruct method; [by left|].
  unfold bind at 1 3. unfold get_db.
  destruct (ComplaintForm_save form user db) as [c0|] eqn:Hc; [|by left].
  right. unfold ComplaintForm_save in Hc.
  destruct (post_priority form) as [p|]; [|done].
  case_match; [|done]. injection Hc as <-.
  edestruct (freshly_created_new now) as (c & Hsave & Hfresh);
    [..|exists c; split; [exact Hfresh|]; unfold bind; rewrite Hsave; reflexivity];
    reflexivity.
Qed.

(** What an operation makes of a stored row. *)
Lemma run_row_moves now op db k row :
  complaints db !! k = Some row ->
  exists row', complaints (run now op db) !! k = Some row' /\ row_moves now k row row'.
Proof.
  intros Hrow.
  assert (Hsame : forall db', db' = db ->
            exists row', complaints db' !! k = Some row' /\ row_moves now k row row').
  { intros db' ->. exists row. split; [done|by left]. }
  assert (Hins : forall k' row0 row1 t,
            complaints db !! k' = Some row0 ->
            (k' = k -> row_moves now k row0 row1) ->
            t = <[k' := row1]> (complaints db) ->
            exists row', t !! k = Some row' /\ row_moves now k row row').
  { intros k' row0 row1 t Hrow0 Hstep ->.
    destruct (decide (k' = k)) as [->|Hne].
    - exists row1. rewrite lookup_insert_eq. split; [done|].
      assert (row0 = row) as <- by congruence. auto.
    - exists row. rewrite lookup_insert_ne by done. split; [done|by left]. }
  destruct op as [user method form|user method k' form|user k'
                 |user method k' posted_reason posted_notes| |h| |p policy]; simpl.
  - destruct (student_create_complaint_moves now user method form db)
      as [->|(c & _ & ->)]; [by apply Hsame|].
    exists row. simpl. split; [|by left].
    rewrite lookup_insert_ne; [done|].
    intros Heq. pose proof (next_pk_fresh (complaints db)). congruence.
  - destruct (staff_update_complaint_moves now user method k' form db)
      as [->|(old & s & Hold & Hrole & Hmine & Hs & ->)]; [by apply Hsame|].
    eapply Hins; [exact Hold| |done]. intros ->.
    right. left. by exists user, form, s.
  - destruct (staff_claim_complaint_moves now user k' db)
      as [->|(old & Hold & Hrole & Hnone & ->)]; [by apply Hsame|].
    eapply Hins; [exact Hold| |done]. intros ->.
    right. right. left. by exists user.
  - destruct (admin_escalate_complaint_cases now user method k' posted_reason
                posted_notes db) as [->|(old & Hold & ->)]; [by apply Hsame|].
    eapply Hins; [exact Hold| |done]. intros ->. do 3 right. by left.
  - destruct (check_sla_breaches_rows now db) as (db1 & -> & Hrows & _).
    simpl. rewrite Hrows, Hrow. simpl. eexists. split; [done|].
    destruct (breach_candidate now row) eqn:Hc; [|by left].
    do 4 right. by left.
  - destruct (auto_escalate_overdue_run h now db) as (db1 & -> & Hrows & _).
    simpl. rewrite Hrows, Hrow.
    case_bool_decide as Hsel; simpl; eexists; (split; [done|]); [|by left].
    apply (pk_elem_of_Complaint_objects_filter _ _ _ row Hrow) in Hsel.
    unfold overdue_candidate in Hsel.
    apply andb_true_iff in Hsel as [[[Hb Hs]%andb_true_iff _]%andb_true_iff _].
    do 5 right. by split_and!.
  - rewrite assign_pending_complaints_store. by apply Hsame.
  - exists row. split; [done|by left].
Qed.

(** Where a row of the store an operation leaves comes from. *)
Lemma run_row_origin now op db k row' :
  complaints (run now op db) !! k = Some row' ->
  (exists row, complaints db !! k = Some row /\ row_moves now k row row')
  \/ (complaints db !! k = None /\ freshly_created now k row').
Proof.
  intros Hrow'.
  destruct (complaints db !! k) as [row|] eqn:Hrow.
  { left. exists row. split; [done|].
    destruct (run_row_moves now op db k row Hrow) as (row1 & Hrow1 & Hmoves).
    congruence. }
  right. split; [done|].
  assert (Hins : forall k' row0 row1,
            complaints db !! k' = Some row0 ->
            <[k' := row1]> (complaints db) !! k = Some row' -> False).
  { intros k' row0 row1 Hrow0 Hlook.
    destruct (decide (k' = k)) as [->|Hne]; [congruence|].
    rewrite lookup_insert_ne in Hlook by done. congruence. }
  destruct op as [user method form|user method k' form|user k'
                 |user method k' posted_reason posted_notes| |h| |p policy];
    simpl in Hrow'.
  - destruct (student_create_complaint_moves now user method form db)
      as [Heq|(c & Hfresh & Heq)]; rewrite Heq in Hrow'; [congruence|].
    simpl in Hrow'.
    destruct (decide (next_pk (complaints db) = k)) as [<-|Hne].
    + rewrite lookup_insert_eq in Hrow'. by injection Hrow' as <-.
    + rewrite lookup_insert_ne in Hrow' by done. congruence.
  - destruct (staff_update_complaint_moves now user method k' form db)
      as [Heq|(old & s & Hold & _ & _ & _ & Heq)]; rewrite Heq in Hrow';
      [congruence|]. exfalso. simpl in Hrow'. by eapply Hins.
  - destruct (staff_claim_complaint_moves now user k' db)
      as [Heq|(old & Hold & _ & _ & Heq)]; rewrite Heq in Hrow';
      [congruence|]. exfalso. simpl in Hrow'. by eapply Hins.
  - destruct (admin_escalate_complaint_cases now user method k' posted_reason
                posted_notes db) as [Heq|(old & Hold & Heq)]; rewrite Heq in Hrow';
      [congruence|]. exfalso. simpl in Hrow'. by eapply Hins.
  - destruct (check_sla_breaches_rows now db) as (db1 & Heq & Hrows & _).
    rewrite Heq in Hrow'. simpl in Hrow'. rewrite Hrows, Hrow in Hrow'. done.
  - destruct (auto_escalate_overdue_run h now db) as (db1 & Heq & Hrows & _).
    rewrite Heq in Hrow'. simpl in Hrow'. rewrite Hrows, Hrow in Hrow'.
    by case_bool_decide.
  - rewrite assign_pending_complaints_store in Hrow'. congruence.
  - congruence.
Qed.

(** ** What the stamps keep, column by column *)

Ltac prepared_keeps :=
  unfold prepared, stamp_status_changed, stamp_breached, stamp_resolved;
  by repeat (case_match; simpl).

Lemma same_origin_prepared now old self : same_origin self (prepared now old self).
Proof. unfold same_origin. split_and!; prepared_keeps. Qed.

Lemma updated_at_prepared now old self :
  updated_at (prepared now old self) = updated_at self.
Proof. prepared_keeps. Qed.

Lemma solution_prepared now old self :
  solution (prepared now old self) = solution self.
Proof. prepared_keeps. Qed.

(** [resolved_at] after the stamps: kept, or the time of the save when the
    status saved is RESOLVED; and set whenever that status is RESOLVED. *)
Lemma resolved_at_prepared now old self :
  (resolved_at (prepared now old self) = resolved_at self
   \/ (resolved_at (prepared now old self) = Some now /\ status self = RESOLVED))
  /\ (status self = RESOLVED -> resolved_at (prepared now old self) <> None).
Proof.
  unfold prepared, stamp_status_changed.
  assert (Hb : forall s, resolved_at (stamp_breached now s) = resolved_at s
                         /\ status (stamp_breached now s) = status s).
  { intros s. unfold stamp_breached. by repeat case_match. }
  assert (Hs : status (stamp_resolved now self) = status self).
  { unfold stamp_resolved. by case_match. }
  destruct (Hb (stamp_resolved now self)) as [Hb1 Hb2].
  rewrite Hb2, Hs.
  destruct (bool_decide (status old <> status self)
            && bool_decide (status self = RESOLVED)) eqn:Hc; simpl.
  - apply andb_true_iff in Hc as [_ Hc%bool_decide_eq_true]. split; [by right|done].
  - rewrite Hb1. unfold stamp_resolved.
    destruct (bool_decide (status self = RESOLVED)) eqn:Hr; simpl.
    + apply bool_decide_eq_true in Hr.
      destruct (resolved_at self) as [t|] eqn:Ht; simpl; rewrite ?Ht.
      * split; [by left|done].
      * split; [by right|done].
    + apply bool_decide_eq_false in Hr. split; [by left|done].
Qed.

(** What a move of a row keeps. *)
Lemma row_moves_keeps now k row row' :
  row_moves now k row row' ->
  same_origin row row'
  /\ (row' = row \/ updated_at row' = now)
  /\ (resolved_at row' = resolved_at row
      \/ (resolved_at row' = Some now /\ status row' = RESOLVED))
  /\ ((status row = RESOLVED -> resolved_at row <> None) ->
      status row' = RESOLVED -> resolved_at row' <> None)
  /\ (assigned_staff row <> None -> assigned_staff row' <> None).
Proof.
  assert (Hrefl : same_origin row row) by (by unfold same_origin).
  intros [->|[(user & form & s & _ & _ & _ & ->)|[(user & _ & _ & ->)
         |[->|[[_ ->]|(_ & Hst & ->)]]]]].
  - split_and!; auto.
  - unfold updated.
    set (self := set_assigned_staff _ _).
    destruct (resolved_at_prepared now row self) as [Hr1 Hr2].
    pose proof (same_origin_prepared now row self) as Ho.
    pose proof (status_prepared now row self) as Hs.
    pose proof (assigned_staff_prepared now row self) as Ha.
    simpl in *. split_and!; auto.
    + destruct Hr1 as [->|[-> Hst]]; [by left|right]. by rewrite Hs.
    + intros _ Hst. apply Hr2. by rewrite <- Hs.
    + intros _. by rewrite Ha.
  - unfold claimed.
    set (self := set_status _ _).
    destruct (resolved_at_prepared now row self) as [Hr1 Hr2].
    pose proof (same_origin_prepared now row self) as Ho.
    pose proof (status_prepared now row self) as Hs.
    pose proof (assigned_staff_prepared now row self) as Ha.
    simpl in *. split_and!; auto.
    + destruct Hr1 as [->|[-> Hst]]; [by left|done].
    + intros _ Hst. congruence.
    + intros _. by rewrite Ha.
  - unfold escalated_row.
    set (inner := prepared now row (set_status ESCALATED (load (k, row)))).
    set (self := set_status ESCALATED inner).
    destruct (resolved_at_prepared now (set_status ESCALATED row) self) as [Hr1 _].
    destruct (resolved_at_prepared now row (set_status ESCALATED (load (k, row))))
      as [Hi1 _].
    pose proof (same_origin_prepared now (set_status ESCALATED row) self) as Ho.
    pose proof (same_origin_prepared now row (set_status ESCALATED (load (k, row))))
      as Ho'.
    pose proof (status_prepared now (set_status ESCALATED row) self) as Hs.
    pose proof (assigned_staff_prepared now (set_status ESCALATED row) self) as Ha.
    pose proof (assigned_staff_prepared now row (set_status ESCALATED (load (k, row))))
      as Ha'.
    fold inner in Hi1, Ho', Ha'. simpl in *.
    destruct Hr1 as [Hr1|[_ ?]]; [|done].
    destruct Hi1 as [Hi1|[_ ?]]; [|done].
    unfold same_origin in *. simpl in *.
    destruct Ho as (?&?&?&?&?&?), Ho' as (?&?&?&?&?&?).
    split_and!; auto; try congruence.
    left. congruence.
  - simpl. split_and!; auto.
  - simpl. split_and!; auto.
Qed.

(** ** Invariants of the store *)

(** X6.  The deadline is computed once.  Along every history, whatever
    policies are edited meanwhile, a stored complaint keeps the deadline it
    has, set or not. *)
Theorem sla_deadline_never_recomputed history db k row :
  complaints db !! k = Some row ->
  exists row',
    complaints (run_all history db) !! k = Some row'
    /\ sla_deadline row' = sla_deadline row.
Proof.
  intros Hrow.
  destruct (run_all_rows history db k row Hrow) as (row' & Hrow' & Hd & _).
  by exists row'.
Qed.

Lemma sla_deadline_never_recomputed_witness :
  exists row',
    complaints
      (run_all [(100, EditSLA URGENT (Some {| sla_name := "Urgent";
                                              response_time_hours := 1;
                                              resolution_time_hours := 48;
                                              sla_is_active := true |}));
                (200, UpdateComplaintStatus Scenario.bob POST 1
                        (Scenario.status_form IN_PROGRESS None));
                (300, EditSLA URGENT None)]
         Scenario.urgent_db) !! 1%positive = Some row'
    /\ sla_deadline row' = Some 14400.
Proof.
  eapply (sla_deadline_never_recomputed _ Scenario.urgent_db 1 Desk.urgent_row).
  vm_compute. reflexivity.
Defined.

Lemma same_origin_trans r1 r2 r3 :
  same_origin r1 r2 -> same_origin r2 r3 -> same_origin r1 r3.
Proof. unfold same_origin. intros (?&?&?&?&?&?) (?&?&?&?&?&?). split_and!; congruence. Qed.

(** X7.  The owner and the data a complaint was filed with never change:
    along every history a stored complaint keeps its student, creation time,
    priority, title, description and category. *)
Theorem filed_data_never_changes history : forall db k row,
  complaints db !! k = Some row ->
  exists row',
    complaints (run_all history db) !! k = Some row'
    /\ student row' = student row /\ created_at row' = created_at row
    /\ priority row' = priority row /\ title row' = title row
    /\ description row' = description row /\ category row' = category row.
Proof.
  induction history as [|[now op] history IH]; intros db k row Hrow; simpl.
  - by exists row.
  - destruct (run_row_moves now op db k row Hrow) as (row1 & Hrow1 & Hmoves).
    apply row_moves_keeps in Hmoves as [Ho _].
    destruct (IH _ k row1 Hrow1) as (row' & Hrow' & Ho').
    exists row'. split; [done|]. exact (same_origin_trans _ _ _ Ho Ho').
Qed.

Lemma filed_data_never_changes_witness :
  exists row',
    complaints
      (run_all [(100, ClaimComplaint Scenario.bob 1);
                (200, UpdateComplaintStatus Scenario.bob POST 1
                        (Scenario.status_form RESOLVED None));
                (300, CreateEscalation Scenario.carol POST 1 None None)]
         Scenario.urgent_db) !! 1%positive = Some row'
    /\ student row' = 1%positive /\ created_at row' = 0
    /\ priority row' = URGENT /\ title row' = "Broken projector"
    /\ description row' = "Room 12" /\ category row' = None.
Proof.
  eapply (filed_data_never_changes _ Scenario.urgent_db 1 Desk.urgent_row).
  vm_compute. reflexivity.
Defined.

(** X8.  [resolved_at] is touched only by a save whose status is RESOLVED:
    an operation at time [now] either keeps the stored [resolved_at] or
    leaves the complaint RESOLVED with [resolved_at = now]; so a set
    [resolved_at] is never cleared. *)
Theorem resolved_at_only_stamped_on_resolve now op db k row :
  complaints db !! k = Some row ->
  exists row',
    complaints (run now op db) !! k = Some row'
    /\ (resolved_at row' = resolved_at row
        \/ (resolved_at row' = Some now /\ status row' = RESOLVED))
    /\ (resolved_at row <> None -> resolved_at row' <> None).
Proof.
  intros Hrow.
  destruct (run_row_moves now op db k row Hrow) as (row' & Hrow' & Hmoves).
  apply row_moves_keeps in Hmoves as (_ & _ & Hres & _).
  exists row'. split_and!; [done..|].
  destruct Hres as [->|[-> _]]; done.
Qed.

Lemma resolved_at_only_stamped_on_resolve_witness :
  exists row',
    complaints
      (run 20 (UpdateComplaintStatus Scenario.bob POST 1
                 (Scenario.status_form IN_PROGRESS None)) Scenario.resolved_db)
      !! 1%positive = Some row'
    /\ (resolved_at row' = Some 10
        \/ (resolved_at row' = Some 20 /\ status row' = RESOLVED))
    /\ (Some 10 <> None -> resolved_at row' <> None).
Proof.
  eapply (resolved_at_only_stamped_on_resolve 20 _ Scenario.resolved_db 1
            Desk.resolved_row).
  vm_compute. reflexivity.
Defined.

(** A property of rows that every move of a row keeps and every new row
    has holds in every store a history leads to. *)
Lemma run_all_invariant (P : Complaint -> Prop) :
  (forall now k row row', row_moves now k row row' -> P row -> P row') ->
  (forall now k row, freshly_created now k row -> P row) ->
  forall history db,
    (forall k row, complaints db !! k = Some row -> P row) ->
    forall k row, complaints (run_all history db) !! k = Some row -> P row.
Proof.
  intros Hmoves Hfresh. induction history as [|[now op] history IH];
    intros db Hdb k row Hrow; simpl in Hrow.
  - by eapply Hdb.
  - eapply IH; [|exact Hrow]. intros k1 row1 Hrow1.
    destruct (run_row_origin now op db k1 row1 Hrow1)
      as [(row0 & Hrow0 & Hm)|[_ Hf]].
    + eapply Hmoves; [exact Hm|]. by eapply Hdb.
    + by eapply Hfresh.
Qed.

(** X9.  No reader finds a RESOLVED complaint without its resolution time.
    If every RESOLVED complaint of a store has [resolved_at] set, so has
    every RESOLVED complaint of every store a history leads to. *)
Theorem resolved_has_resolved_at history db :
  (forall k row,
     complaints db !! k = Some row -> status row = RESOLVED -> resolved_at row <> None) ->
  forall k row,
    complaints (run_all history db) !! k = Some row ->
    status row = RESOLVED -> resolved_at row <> None.
Proof.
  apply (run_all_invariant (fun row => status row = RESOLVED -> resolved_at row <> None)).
  - intros now k row row' Hm. by apply row_moves_keeps in Hm as (_ & _ & _ & H & _).
  - intros now k row (_ & Hst & _). congruence.
Qed.

Lemma resolved_has_resolved_at_witness :
  exists t, resolved_at Desk.resolved_row = Some t.
Proof.
  assert (resolved_at Desk.resolved_row <> None) as H.
  { apply (resolved_has_resolved_at
             [(10, UpdateComplaintStatus Scenario.bob POST 1
                     (Scenario.status_form RESOLVED None))]
             Scenario.urgent_db) with (k := 1%positive).
    - intros k row Hrow.
      rewrite urgent_db_rows in Hrow. apply lookup_singleton_Some in Hrow as [_ <-].
      discriminate.
    - vm_compute. reflexivity.
    - reflexivity. }
  destruct (resolved_at Desk.resolved_row) as [t|]; [by exists t|by destruct H].
Defined.

(** X10.  A complaint is marked breached only if it has a deadline.  If that
    holds of a store, it holds of every store a history leads to. *)
Theorem breached_has_deadline history db :
  (forall k row,
     complaints db !! k = Some row -> is_sla_breached row = true ->
     sla_deadline row <> None) ->
  forall k row,
    complaints (run_all history db) !! k = Some row ->
    is_sla_breached row = true -> sla_deadline row <> None.
Proof.
  apply (run_all_invariant
           (fun row => is_sla_breached row = true -> sla_deadline row <> None)).
  - intros now k row row' Hm Hrow Hb'.
    assert (row_step now row row') as (Hd & _ & Hdown).
    { destruct Hm as [->|[(user & form & s & _ & _ & _ & ->)|[(user & _ & _ & ->)
                     |[->|[[Hc ->]|(_ & _ & ->)]]]]].
      - apply row_step_refl.
      - apply row_step_updated.
      - apply row_step_claimed.
      - apply row_step_escalated_row.
      - by apply row_step_mark_breached.
      - apply row_step_mark_escalated. }
    rewrite Hd. destruct (Hdown Hb') as [Hb|(d & -> & _)]; [by apply Hrow|done].
  - intros now k row (_ & _ & _ & _ & _ & _ & _ & Hb & _). congruence.
Qed.

(** X11.  A write stamps [updated_at].  A stored complaint that an operation
    at time [now] changes in any column has [updated_at = now] afterwards. *)
Theorem changed_row_has_updated_at now op db k row row' :
  complaints db !! k = Some row ->
  complaints (run now op db) !! k = Some row' ->
  row' <> row ->
  updated_at row' = now.
Proof.
  intros Hrow Hrow' Hne.
  destruct (run_row_moves now op db k row Hrow) as (row1 & Hrow1 & Hmoves).
  assert (row1 = row') as -> by congruence.
  apply row_moves_keeps in Hmoves as (_ & [?|?] & _); done.
Qed.

(** X12.  Only the staff member a complaint is assigned to can reassign it.
    Every operation other than an update posted by that staff member keeps
    the assignment; and no operation ever leaves an assigned complaint
    unassigned. *)
Theorem assignment_changed_only_by_assignee now op db k row a :
  complaints db !! k = Some row ->
  assigned_staff row = Some a ->
  exists row',
    complaints (run now op db) !! k = Some row'
    /\ assigned_staff row' <> None
    /\ ((forall user method form,
           op = UpdateComplaintStatus user method k form -> u_pk user <> a) ->
        assigned_staff row' = Some a).
Proof.
  intros Hrow Ha.
  destruct (run_row_moves now op db k row Hrow) as (row' & Hrow' & Hmoves).
  exists row'. split; [done|]. split.
  { apply row_moves_keeps in Hmoves as (_ & _ & _ & _ & Hkeep).
    apply Hkeep. congruence. }
  intros Hop.
  destruct op as [user method form|user method k' form|user k'
                 |user method k' posted_reason posted_notes| |h| |p policy];
    simpl in Hrow'.
  - destruct (student_create_complaint_moves now user method form db)
      as [Heq|(c & _ & Heq)]; rewrite Heq in Hrow'; [congruence|].
    simpl in Hrow'. rewrite lookup_insert_ne in Hrow'; [congruence|].
    intros Heq'. pose proof (next_pk_fresh (complaints db)). congruence.
  - destruct (staff_update_complaint_moves now user method k' form db)
      as [Heq|(old & s & Hold & _ & Hmine & _ & Heq)]; rewrite Heq in Hrow';
      [congruence|]. simpl in Hrow'.
    destruct (decide (k' = k)) as [->|Hne].
    + exfalso. apply (Hop user method form eq_refl).
      destruct Hmine as [?|?]; congruence.
    + rewrite lookup_insert_ne in Hrow' by done. congruence.
  - destruct (staff_claim_complaint_moves now user k' db)
      as [Heq|(old & Hold & _ & Hnone & Heq)]; rewrite Heq in Hrow';
      [congruence|]. simpl in Hrow'.
    destruct (decide (k' = k)) as [->|Hne]; [congruence|].
    rewrite lookup_insert_ne in Hrow' by done. congruence.
  - destruct (admin_escalate_complaint_cases now user method k' posted_reason
                posted_notes db) as [Heq|(old & Hold & Heq)]; rewrite Heq in Hrow';
      [congruence|].
    destruct (decide (k' = k)) as [->|Hne].
    + rewrite lookup_insert_eq in Hrow'. injection Hrow' as <-.
      assert (old = row) as -> by congruence.
      unfold escalated_row. simpl.
      rewrite assigned_staff_prepared. simpl.
      rewrite assigned_staff_prepared. simpl. exact Ha.
    + rewrite lookup_insert_ne in Hrow' by done. congruence.
  - destruct (check_sla_breaches_rows now db) as (db1 & Heq & Hrows & _).
    rewrite Heq in Hrow'. simpl in Hrow'. rewrite Hrows, Hrow in Hrow'.
    simpl in Hrow'. injection Hrow' as <-. by case_match.
  - destruct (auto_escalate_overdue_run h now db) as (db1 & Heq & Hrows & _).
    rewrite Heq in Hrow'. simpl in Hrow'. rewrite Hrows, Hrow in Hrow'.
    case_bool_decide; simpl in Hrow'; by injection Hrow' as <-.
  - rewrite assign_pending_complaints_store in Hrow'. congruence.
  - congruence.
Qed.

(** ** Escalations *)

(** An operation keeps every stored escalation as it is. *)
Lemma run_keeps_escalations now op db j e :
  escalations db !! j = Some e -> escalations (run now op db) !! j = Some e.
Proof.
  intros Hj.
  destruct op as [user method form|user method k' form|user k'
                 |user method k' posted_reason posted_notes| |h| |p policy]; simpl.
  - by destruct (student_create_complaint_moves now user method form db)
      as [->|(c & _ & ->)].
  - by destruct (staff_update_complaint_moves now user method k' form db)
      as [->|(old & s & _ & _ & _ & _ & ->)].
  - by destruct (staff_claim_complaint_moves now user k' db)
      as [->|(old & _ & _ & _ & ->)].
  - destruct (decide (role user = ADMIN)) as [Hrole|Hrole].
    2: { unfold admin_escalate_complaint.
         rewrite role_required_refused; [done|]. by rewrite list_elem_of_singleton. }
    destruct (complaints db !! k') as [old|] eqn:Hold.
    2: { unfold admin_escalate_complaint.
         rewrite role_required_allowed by (rewrite Hrole; by left).
         unfold bind. by rewrite get_object_or_404_missing. }
    destruct method.
    + unfold admin_escalate_complaint.
      rewrite role_required_allowed by (rewrite Hrole; by left).
      unfold bind. by rewrite (get_object_or_404_found _ old).
    + rewrite (admin_escalate_complaint_saved _ _ _ _ _ _ old) by done. simpl.
      rewrite lookup_insert_ne; [done|].
      intros Heq. pose proof (next_pk_fresh (escalations db)). congruence.
  - destruct (check_sla_breaches_rows now db) as (db1 & -> & _ & He & _).
    simpl. by rewrite He.
  - destruct (auto_escalate_overdue_run h now db)
      as (db1 & -> & _ & _ & _ & _ & Hold & _).
    simpl. by apply Hold.
  - by rewrite assign_pending_complaints_store.
  - done.
Qed.

Lemma run_all_keeps_escalations history : forall db j e,
  escalations db !! j = Some e -> escalations (run_all history db) !! j = Some e.
Proof.
  induction history as [|[now op] history IH]; intros db j e Hj; simpl; [done|].
  apply IH. by apply run_keeps_escalations.
Qed.

(** X13.  No operation of the core edits, resolves or deletes an escalation:
    along every history a stored escalation stays exactly as it is, so the
    escalation table only grows. *)
Theorem escalations_are_permanent history db :
  (forall j e,
     escalations db !! j = Some e -> escalations (run_all history db) !! j = Some e)
  /\ (size (escalations db) <= size (escalations (run_all history db)))%nat.
Proof.
  split; [apply run_all_keeps_escalations|].
  apply map_subseteq_size, map_subseteq_spec.
  apply run_all_keeps_escalations.
Qed.

(** A second sweep right after the first finds nothing to do. *)
Lemma auto_escalate_overdue_nothing h now db :
  (forall k row,
     complaints db !! k = Some row ->
     overdue_candidate now (3600 * (h * 2)) db (load (k, row)) = false) ->
  auto_escalate_overdue h now db = (Ok 0%nat, db).
Proof.
  intros H.
  assert (Complaint_objects_filter (overdue_candidate now (3600 * (h * 2)) db) db = [])
    as Hnil.
  { apply List_filter_nil.
    intros c (k & row & Hrow & ->)%elem_of_Complaint_objects_all. by eapply H. }
  unfold auto_escalate_overdue. unfold bind at 1. unfold get_db. by rewrite Hnil.
Qed.

(** X14.  The auto-escalation sweep is idempotent: run again at the same time,
    it escalates nothing, returns 0 and leaves the store as the first run
    left it. *)
Theorem auto_escalate_overdue_idempotent h now db :
  exists n db1,
    auto_escalate_overdue h now db = (Ok n, db1)
    /\ auto_escalate_overdue h now db1 = (Ok 0%nat, db1).
Proof.
  destruct (auto_escalate_overdue_run h now db)
    as (db1 & Hrun & Hrows & _ & _ & _ & Hold & _).
  eexists _, db1. split; [exact Hrun|].
  apply auto_escalate_overdue_nothing. intros k row1 Hrow1.
  rewrite Hrows in Hrow1.
  destruct (complaints db !! k) as [row|] eqn:Hrow; [|by case_bool_decide].
  case_bool_decide as Hsel; simpl in Hrow1; injection Hrow1 as <-.
  - unfold overdue_candidate. simpl. by rewrite andb_false_r.
  - apply not_true_is_false. intros Hdue1. apply Hsel.
    apply (pk_elem_of_Complaint_objects_filter _ _ _ row Hrow).
    unfold overdue_candidate in *.
    apply andb_true_iff in Hdue1 as [Hrest Hact].
    apply andb_true_iff. split; [exact Hrest|].
    apply negb_true_iff, not_true_is_false. intros Hact0.
    apply negb_true_iff, not_true_iff_false in Hact. apply Hact.
    apply has_active_escalation_true in Hact0 as (j & e & Hj & Hid & Hres).
    apply has_active_escalation_true. exists j, e. split_and!; [|done..].
    by apply Hold.
Qed.

(** X15.  An open escalation keeps the sweep away.  Once a complaint has an
    unresolved escalation, then after any history the auto-escalation sweep
    leaves that complaint as it finds it. *)
Theorem open_escalation_blocks_sweep history h now db j e k row :
  escalations db !! j = Some e ->
  complaint_id e = Some k ->
  resolved e = false ->
  complaints (run_all history db) !! k = Some row ->
  complaints (auto_escalate_overdue h now (run_all history db)).2 !! k = Some row.
Proof.
  intros Hj Hid Hres Hrow.
  apply (run_all_keeps_escalations history) in Hj.
  destruct (auto_escalate_overdue_run h now (run_all history db))
    as (db1 & -> & Hrows & _).
  simpl. rewrite Hrows, Hrow. rewrite bool_decide_eq_false_2; [done|].
  intros Hsel. apply (pk_elem_of_Complaint_objects_filter _ _ _ row Hrow) in Hsel.
  unfold overdue_candidate in Hsel.
  apply andb_true_iff in Hsel as [_ Hact%negb_true_iff].
  apply not_true_iff_false in Hact. apply Hact.
  apply has_active_escalation_true. by exists j, e.
Qed.

Lemma open_escalation_blocks_sweep_witness :
  complaints
    (auto_escalate_overdue 24 2592000
       (run_all [(50000, UpdateComplaintStatus Scenario.bob POST 1
                           (Scenario.status_form IN_PROGRESS None))]
          SweepScenario.db)).2 !! 1%positive
  = complaints
      (run_all [(50000, UpdateComplaintStatus Scenario.bob POST 1
                          (Scenario.status_form IN_PROGRESS None))]
         SweepScenario.db) !! 1%positive.
Proof.
  etrans;
    [eapply (open_escalation_blocks_sweep _ 24 2592000 SweepScenario.db 1
               (SweepScenario.earlier 1 1 false) 1)|].
  - vm_compute. reflexivity.
  - reflexivity.
  - reflexivity.
  - vm_compute. reflexivity.
  - vm_compute. reflexivity.
Defined.

(** X16.  Saving an escalation that is stored touches no complaint, and
    [resolved_at] of an escalation is set once: the first save with
    [resolved] set stamps it, and a later save keeps that time. *)
Theorem escalation_resolved_at_set_once now now' self complaint db j old :
  e_pk self = Some j ->
  escalations db !! j = Some old ->
  resolved self = true ->
  e_resolved_at self = None ->
  exists self1 db1 db2,
    Escalation_save now self complaint db = (Ok (self1, complaint), db1)
    /\ e_resolved_at self1 = Some now
    /\ escalations db1 !! j = Some self1
    /\ complaints db1 = complaints db
    /\ Escalation_save now' self1 complaint db1 = (Ok (self1, complaint), db2)
    /\ escalations db2 !! j = Some self1
    /\ complaints db2 = complaints db.
Proof.
  intros Hpk Hold Hres Hnone.
  set (self1 := set_e_resolved_at (Some now) self).
  set (db1 := with_escalations (<[j := self1]> (escalations db)) db).
  exists self1, db1, (with_escalations (<[j := self1]> (escalations db1)) db1).
  assert (Hfirst : Escalation_save now self complaint db = (Ok (self1, complaint), db1)).
  { unfold Escalation_save. rewrite Hpk. unfold bind at 1. simpl.
    rewrite Hres, Hnone. simpl. unfold bind, get_db. simpl.
    by rewrite Hpk, Hold. }
  assert (Hlook : escalations db1 !! j = Some self1)
    by (simpl; apply lookup_insert_eq).
  split_and!; try done.
  - unfold Escalation_save. simpl. rewrite Hpk, Hres. simpl.
    unfold bind, get_db. simpl. rewrite Hpk. simpl. rewrite lookup_insert_eq.
    reflexivity.
  - simpl. apply lookup_insert_eq.
Qed.

Lemma escalation_resolved_at_set_once_witness :
  exists self1 db1 db2,
    Escalation_save 60000
      (set_e_resolved_at None (SweepScenario.earlier 1 1 true))
      (SweepScenario.overdue 1) SweepScenario.db
    = (Ok (self1, SweepScenario.overdue 1), db1)
    /\ e_resolved_at self1 = Some 60000
    /\ escalations db1 !! 1%positive = Some self1
    /\ complaints db1 = complaints SweepScenario.db
    /\ Escalation_save 70000 self1 (SweepScenario.overdue 1) db1
       = (Ok (self1, SweepScenario.overdue 1), db2)
    /\ escalations db2 !! 1%positive = Some self1
    /\ complaints db2 = complaints SweepScenario.db.
Proof.
  eapply (escalation_resolved_at_set_once 60000 70000
            (set_e_resolved_at None (SweepScenario.earlier 1 1 true))
            (SweepScenario.overdue 1) SweepScenario.db 1
            (SweepScenario.earlier 1 1 false)).
  - reflexivity.
  - vm_compute. reflexivity.
  - reflexivity.
  - reflexivity.
Defined.

(** ** [is_overdue], the save and the scan *)

(** X17.  [Complaint.save] raises the flag exactly when [is_overdue] holds of
    the instance it saves, and the scan selects exactly the overdue,
    unmarked complaints that are PENDING or IN_PROGRESS. *)
Theorem flag_follows_is_overdue now self db k old :
  pk self = Some k ->
  complaints db !! k = Some old ->
  (exists self' db',
     Complaint_save now None self db = (Ok self', db')
     /\ complaints db' !! k = Some self'
     /\ is_sla_breached self' = is_sla_breached self || is_overdue now self)
  /\ breach_candidate now self
     = is_overdue now self && negb (is_sla_breached self)
       && status_in [PENDING; IN_PROGRESS] self.
Proof.
  intros Hpk Hold. split.
  - rewrite (Complaint_save_existing _ _ _ k old) by done.
    eexists _, _. split_and!; [done|by simpl; rewrite lookup_insert_eq|].
    simpl. by rewrite is_sla_breached_prepared.
  - unfold breach_candidate, is_overdue, status_in, is_terminal.
    destruct (sla_deadline self) as [d|]; [|done].
    destruct (status self); simpl;
      rewrite ?andb_false_r, ?andb_true_r; try done;
      destruct (is_sla_breached self); simpl; rewrite ?andb_false_r, ?andb_true_r;
      try done; apply bool_decide_ext; lia.
Qed.

Lemma flag_follows_is_overdue_witness :
  exists self' db',
    Complaint_save 20000 None Desk.urgent_row Scenario.urgent_db = (Ok self', db')
    /\ complaints db' !! 1%positive = Some self'
    /\ is_sla_breached self' = false || is_overdue 20000 Desk.urgent_row.
Proof.
  refine (proj1 (flag_follows_is_overdue 20000 Desk.urgent_row Scenario.urgent_db 1
                   Desk.urgent_row _ _)).
  - reflexivity.
  - vm_compute. reflexivity.
Defined.

(** ** Counting rows *)

Lemma length_filter_rows_fmap (f : Complaint -> Complaint) (cond : Complaint -> bool)
    (t t' : gmap positive Complaint) :
  (forall k, t' !! k = f <$> t !! k) ->
  length (List.filter (fun kv : positive * Complaint => cond kv.2) (map_to_list t'))
  = length (List.filter (fun kv : positive * Complaint => cond (f kv.2))
              (map_to_list t)).
Proof.
  intros Hlook.
  assert (t' = f <$> t) as -> by (apply map_eq; intros k; by rewrite Hlook, lookup_fmap).
  rewrite map_to_list_fmap.
  by rewrite (List_filter_fmap (prod_map id f)), length_fmap.
Qed.

Lemma length_filter_orb {A} (p q : A -> bool) (l : list A) :
  (forall x, q x = true -> p x = false) ->
  length (List.filter (fun x => p x || q x) l)
  = (length (List.filter p l) + length (List.filter q l))%nat.
Proof.
  intros Hdisj. induction l as [|x l IH]; simpl; [done|].
  destruct (q x) eqn:Hq.
  - rewrite (Hdisj x Hq). simpl. lia.
  - rewrite orb_false_r. destruct (p x); simpl; lia.
Qed.

Lemma length_filter_ext_rows {A} (p q : A -> bool) (l : list A) :
  (forall x, p x = q x) -> length (List.filter p l) = length (List.filter q l).
Proof. intros H. f_equal. by apply filter_ext. Qed.

(** X18.  The scan and the statistics agree: after a scan that returns [n],
    the number of breached complaints the statistics report has grown by
    exactly [n], and the numbers of complaints in total, pending, in progress
    and escalated are as before. *)
Theorem scan_count_shows_in_stats today_of date_of now now' db :
  exists n db1 before after,
    check_sla_breaches now db = (Ok n, db1)
    /\ generate_daily_stats today_of date_of now' db = (Ok before, db)
    /\ generate_daily_stats today_of date_of now' db1 = (Ok after, db1)
    /\ stats_sla_breached_total after = (stats_sla_breached_total before + n)%nat
    /\ stats_total_complaints after = stats_total_complaints before
    /\ stats_pending after = stats_pending before
    /\ stats_in_progress after = stats_in_progress before
    /\ stats_escalated after = stats_escalated before
    /\ stats_active_escalations after = stats_active_escalations before.
Proof.
  destruct (check_sla_breaches_rows now db) as (db1 & Hrun & Hrows & He & _).
  eexists _, db1, _, _. split; [exact Hrun|].
  split; [reflexivity|]. split; [reflexivity|].
  set (f := fun row => if breach_candidate now row then mark_breached now row else row)
    in Hrows.
  assert (Hcount : forall cond : Complaint -> bool,
            (forall v c, cond (set_pk v c) = cond c) ->
            length (Complaint_objects_filter cond db1)
            = length (List.filter (fun kv : positive * Complaint => cond (f kv.2))
                        (map_to_list (complaints db)))).
  { intros cond Hcond. rewrite length_Complaint_objects_filter.
    rewrite (length_filter_ext_rows _ (fun kv => cond kv.2))
      by (intros [k c]; apply Hcond).
    by apply length_filter_rows_fmap. }
  assert (Hcount0 : forall cond : Complaint -> bool,
            (forall v c, cond (set_pk v c) = cond c) ->
            length (Complaint_objects_filter cond db)
            = length (List.filter (fun kv : positive * Complaint => cond kv.2)
                        (map_to_list (complaints db)))).
  { intros cond Hcond. rewrite length_Complaint_objects_filter.
    apply length_filter_ext_rows. intros [k c]. apply Hcond. }
  assert (Hstatus : forall s,
            length (Complaint_objects_filter (fun c => bool_decide (status c = s)) db1)
            = length (Complaint_objects_filter (fun c => bool_decide (status c = s)) db)).
  { intros s. rewrite Hcount, Hcount0 by done.
    apply length_filter_ext_rows. intros [k c]. unfold f. simpl.
    by destruct (breach_candidate now c). }
  simpl. split_and!.
  - rewrite Hcount, Hcount0 by done.
    rewrite <- length_filter_orb.
    + apply length_filter_ext_rows. intros [k c]. unfold f. simpl.
      destruct (breach_candidate now c) eqn:Hc; simpl; [|by rewrite orb_false_r].
      by rewrite orb_true_r.
    + intros [k c] Hc. simpl in *. unfold breach_candidate in Hc.
      apply andb_true_iff in Hc as [[_ Hc]%andb_true_iff _].
      by apply negb_true_iff in Hc.
  - unfold Complaint_objects_all. rewrite !merge_sort_Permutation, !length_fmap.
    assert (complaints db1 = f <$> complaints db) as ->
      by (apply map_eq; intros k; by rewrite Hrows, lookup_fmap).
    by rewrite map_to_list_fmap, length_fmap.
  - apply Hstatus.
  - apply Hstatus.
  - apply Hstatus.
  - by rewrite He.
Qed.

(** ** The statistics *)

Lemma length_filter_le_three {A} (p q r : A -> bool) (l : list A) :
  (forall x, p x = true -> q x = false /\ r x = false) ->
  (forall x, q x = true -> r x = false) ->
  (length (List.filter p l) + length (List.filter q l) + length (List.filter r l)
   <= length l)%nat.
Proof.
  intros Hp Hq. induction l as [|x l IH]; simpl; [lia|].
  destruct (p x) eqn:Ep.
  - destruct (Hp x Ep) as [-> ->]. simpl. lia.
  - destruct (q x) eqn:Eq.
    + rewrite (Hq x Eq). simpl. lia.
    + destruct (r x); simpl; lia.
Qed.

(** X19.  The statistics never count a complaint twice: the numbers of
    pending, in progress and escalated complaints add up to at most the
    total, and the number of breached complaints is at most the total. *)
Theorem stats_counts_within_total today_of date_of now db :
  exists stats,
    generate_daily_stats today_of date_of now db = (Ok stats, db)
    /\ (stats_pending stats + stats_in_progress stats + stats_escalated stats
        <= stats_total_complaints stats)%nat
    /\ (stats_sla_breached_total stats <= stats_total_complaints stats)%nat
    /\ (stats_created_today stats <= stats_total_complaints stats)%nat
    /\ (stats_resolved_today stats <= stats_total_complaints stats)%nat.
Proof.
  eexists. split; [reflexivity|]. simpl. unfold Complaint_objects_filter.
  split_and!.
  - apply length_filter_le_three.
    + intros c Hc%bool_decide_eq_true. rewrite Hc.
      by rewrite !bool_decide_eq_false_2.
    + intros c Hc%bool_decide_eq_true. rewrite Hc.
      by rewrite bool_decide_eq_false_2.
  - apply filter_length_le.
  - apply filter_length_le.
  - apply filter_length_le.
Qed.

(** X20.  The average is the integer 0 exactly when no stored complaint has a
    resolution time; otherwise it is computed from as many complaints as
    have one, and from at least one. *)
Theorem average_zero_iff_none_resolved today_of date_of now db :
  exists stats,
    generate_daily_stats today_of date_of now db = (Ok stats, db)
    /\ (stats_avg_resolution_hours stats = Zero <->
        forall k row, complaints db !! k = Some row -> resolved_at row = None)
    /\ (forall total_time n,
          stats_avg_resolution_hours stats = Rounded total_time n ->
          (0 < n)%nat
          /\ n = length (List.filter
                           (fun kv : positive * Complaint =>
                              bool_decide (resolved_at kv.2 <> None))
                           (map_to_list (complaints db)))).
Proof.
  eexists. split; [reflexivity|]. simpl.
  set (pair := fun c : Complaint =>
                 match resolved_at c with
                 | Some r => Some (created_at c, r)
                 | None => None
                 end).
  set (pairs := omap pair (Complaint_objects_all db)).
  assert (Hlen : forall l : list Complaint,
            length (omap pair l)
            = length (List.filter (fun c => bool_decide (resolved_at c <> None)) l)).
  { induction l as [|c l IH]; [done|]. csimpl. unfold pair at 1.
    destruct (resolved_at c); csimpl; by rewrite IH. }
  assert (Hn : length pairs
               = length (List.filter
                           (fun kv : positive * Complaint =>
                              bool_decide (resolved_at kv.2 <> None))
                           (map_to_list (complaints db)))).
  { unfold pairs. rewrite Hlen.
    fold (Complaint_objects_filter (fun c => bool_decide (resolved_at c <> None)) db).
    by rewrite length_Complaint_objects_filter. }
  split.
  - case_bool_decide as Hne; split; try done.
    + intros Hall. exfalso. apply Hne.
      destruct pairs as [|p ps] eqn:Hp; [done|]. exfalso.
      assert (p ∈ omap pair (Complaint_objects_all db)) as Hin
        by (fold pairs; rewrite Hp; by left).
      apply list_elem_of_omap in Hin as (c & Hc & Hpair).
      apply elem_of_Complaint_objects_all in Hc as (k & row & Hrow & ->).
      unfold pair in Hpair. simpl in Hpair. by rewrite (Hall k row Hrow) in Hpair.
    + intros _ k row Hrow.
      destruct (resolved_at row) as [r|] eqn:Hr; [|done].
      exfalso.
      assert ((created_at row, r) ∈ pairs) as Hin.
      { apply list_elem_of_omap. exists (load (k, row)). split.
        - apply elem_of_Complaint_objects_all. by exists k, row.
        - unfold pair. simpl. by rewrite Hr. }
      rewrite Hne in Hin. inversion Hin.
  - intros total_time n. case_bool_decide as Hne; [|done].
    intros [= _ <-]. split; [|exact Hn].
    destruct pairs; [done|simpl; lia].
Qed.

(** A table with one row replaced, counted. *)
Lemma length_filter_rows_insert (cond : Complaint -> bool)
    (t : gmap positive Complaint) (k : positive) (old new : Complaint) :
  t !! k = Some old ->
  (length (List.filter (fun kv : positive * Complaint => cond kv.2)
             (map_to_list (<[k := new]> t)))
   + (if cond old then 1 else 0)
   = length (List.filter (fun kv : positive * Complaint => cond kv.2)
               (map_to_list t))
     + (if cond new then 1 else 0))%nat.
Proof.
  intros Hold.
  rewrite <- (insert_delete_eq t k new).
  rewrite <- (insert_delete_id t k old Hold) at 2.
  rewrite (length_List_filter_Permutation _ _ _
             (map_to_list_insert (delete k t) k new (lookup_delete_eq t k))).
  rewrite (length_List_filter_Permutation _ _ _
             (map_to_list_insert (delete k t) k old (lookup_delete_eq t k))).
  simpl. destruct (cond old), (cond new); simpl; lia.
Qed.

(** X21.  A claim shows in the statistics: when a staff member claims a
    pending, unassigned complaint, one complaint moves from pending to in
    progress and the total, the escalated and the breached-before counts
    stay. *)
Theorem claim_moves_pending_to_in_progress today_of date_of now now' user k db old :
  role user = STAFF ->
  complaints db !! k = Some old ->
  assigned_staff old = None ->
  status old = PENDING ->
  exists db1 before after,
    (staff_claim_complaint now user k db).2 = db1
    /\ generate_daily_stats today_of date_of now' db = (Ok before, db)
    /\ generate_daily_stats today_of date_of now' db1 = (Ok after, db1)
    /\ S (stats_pending after) = stats_pending before
    /\ stats_in_progress after = S (stats_in_progress before)
    /\ stats_escalated after = stats_escalated before
    /\ stats_total_complaints after = stats_total_complaints before.
Proof.
  intros Hrole Hold Hnone Hst.
  rewrite (staff_claim_complaint_unassigned _ _ _ _ old) by done. simpl.
  eexists _, _, _. split; [reflexivity|]. split; [reflexivity|].
  split; [reflexivity|]. simpl.
  assert (Hnew : status (claimed now user k old) = IN_PROGRESS).
  { unfold claimed. simpl. by rewrite status_prepared. }
  assert (Hcount : forall s,
            (length (Complaint_objects_filter (fun c => bool_decide (status c = s))
                       (with_complaints (<[k := claimed now user k old]> (complaints db)) db))
             + (if bool_decide (PENDING = s) then 1 else 0)
             = length (Complaint_objects_filter (fun c => bool_decide (status c = s)) db)
               + (if bool_decide (IN_PROGRESS = s) then 1 else 0))%nat).
  { intros s. rewrite !length_Complaint_objects_filter. simpl.
    pose proof (length_filter_rows_insert (fun c => bool_decide (status c = s))
                  (complaints db) k old (claimed now user k old) Hold) as H.
    cbv beta in H. rewrite Hst, Hnew in H. exact H. }
  split_and!.
  - pose proof (Hcount PENDING) as H. simpl in H. lia.
  - pose proof (Hcount IN_PROGRESS) as H. simpl in H. lia.
  - pose proof (Hcount ESCALATED) as H. simpl in H. lia.
  - unfold Complaint_objects_all. rewrite !merge_sort_Permutation, !length_fmap.
    simpl. rewrite !length_map_to_list.
    apply map_size_insert_Some. by eexists.
Qed.

Lemma claim_moves_pending_to_in_progress_witness :
  exists db1 before after,
    (staff_claim_complaint 5 Scenario.bob 1 Scenario.urgent_db).2 = db1
    /\ generate_daily_stats id id 6 Scenario.urgent_db = (Ok before, Scenario.urgent_db)
    /\ generate_daily_stats id id 6 db1 = (Ok after, db1)
    /\ S (stats_pending after) = stats_pending before
    /\ stats_in_progress after = S (stats_in_progress before)
    /\ stats_escalated after = stats_escalated before
    /\ stats_total_complaints after = stats_total_complaints before.
Proof.
  eapply (claim_moves_pending_to_in_progress id id 5 6 Scenario.bob 1
            Scenario.urgent_db Desk.urgent_row).
  - reflexivity.
  - vm_compute. reflexivity.
  - reflexivity.
  - reflexivity.
Defined.

(** ** More witnesses *)

Lemma breached_has_deadline_witness :
  exists deadline, sla_deadline (mark_breached 20000 Desk.urgent_row) = Some deadline.
Proof.
  assert (sla_deadline (mark_breached 20000 Desk.urgent_row) <> None) as H.
  { apply (breached_has_deadline
             [(20000, ScanSlaBreaches);
              (20001, CreateComplaint Scenario.alice POST (Scenario.complaint_form LOW))]
             Scenario.urgent_db) with (k := 1%positive).
    - intros k row Hrow.
      rewrite urgent_db_rows in Hrow. apply lookup_singleton_Some in Hrow as [_ <-].
      discriminate.
    - vm_compute. reflexivity.
    - reflexivity. }
  destruct (sla_deadline (mark_breached 20000 Desk.urgent_row)) as [d|];
    [by exists d|by destruct H].
Defined.

Lemma changed_row_has_updated_at_witness :
  updated_at Desk.resolved_row = 10.
Proof.
  eapply (changed_row_has_updated_at 10
            (UpdateComplaintStatus Scenario.bob POST 1 (Scenario.status_form RESOLVED None))
            Scenario.urgent_db 1 Desk.urgent_row Desk.resolved_row).
  - vm_compute. reflexivity.
  - vm_compute. reflexivity.
  - discriminate.
Defined.

Lemma assignment_changed_only_by_assignee_witness :
  exists row',
    complaints (run 9 (ClaimComplaint Scenario.dave 1) Desk.claimed_db) !! 1%positive
    = Some row'
    /\ assigned_staff row' <> None
    /\ ((forall user method form,
           ClaimComplaint Scenario.dave 1 = UpdateComplaintStatus user method 1 form ->
           u_pk user <> 2%positive) ->
        assigned_staff row' = Some 2%positive).
Proof.
  eapply (assignment_changed_only_by_assignee 9 (ClaimComplaint Scenario.dave 1)
            Desk.claimed_db 1
            (claimed 5 Scenario.bob 1 Desk.urgent_row) 2).
  - vm_compute. reflexivity.
  - vm_compute. reflexivity.
Defined.

Lemma escalations_are_permanent_witness :
  escalations
    (run_all [(50000, CreateEscalation Scenario.carol POST 1 None None);
              (2592000, AutoEscalateOverdue 24)]
       SweepScenario.db) !! 1%positive
  = Some (SweepScenario.earlier 1 1 false).
Proof.
  apply (proj1 (escalations_are_permanent _ SweepScenario.db)).
  vm_compute. reflexivity.
Defined.

(** ** Comments *)

Lemma elem_of_Complaint_comments k cond site c :
  c ∈ Complaint_comments k cond site <->
  (exists j, comments site !! j = Some c)
  /\ cc_complaint c = Some k /\ cond c = true.
Proof.
  unfold Complaint_comments.
  rewrite elem_of_List_filter, merge_sort_Permutation, list_elem_of_fmap,
    andb_true_iff, bool_decide_eq_true.
  split.
  - intros [([j c'] & -> & Hin%elem_of_map_to_list) [Hk Hc]]. eauto.
  - intros [[j Hj] [Hk Hc]]. split; [|done]. exists (j, c). split; [done|].
    by apply elem_of_map_to_list.
Qed.

(** The view with the comment writes to the complaint table what the view
    without it writes. *)
Lemma staff_update_complaint_page_db now user method k form comment_form site :
  site_db (staff_update_complaint_page now user method k form comment_form site).2
  = (staff_update_complaint now user method k form (site_db site)).2.
Proof.
  unfold staff_update_complaint_page, staff_update_complaint, role_required.
  case_bool_decide; [done|].
  unfold bind at 1. unfold get_object_or_404, bind at 1, get_db.
  destruct (complaints (site_db site) !! k) as [row|]; [|done]. simpl.
  destruct (bool_decide _ && bool_decide _); [done|].
  destruct method; [done|]. unfold bind at 1. unfold get_db.
  destruct (ComplaintStatusUpdateForm_save form (load (k, row)) (site_db site))
    as [c|]; [|done].
  unfold bind.
  destruct (Complaint_save now None _ (site_db site)) as [[?|?] db']; [|done].
  by destruct (ComplaintCommentForm_save comment_form user).
Qed.

(** X22.  A comment that a student posts on a complaint of their own is stored
    as a public comment of that complaint, written by that student, whatever
    the posted form says about [is_internal]; the complaint and the other
    comments stay as they are. *)
Theorem student_comment_is_public now user k form site row :
  role user = STUDENT ->
  complaints (site_db site) !! k = Some row ->
  student row = u_pk user ->
  post_content form <> "" ->
  let j := next_pk (comments site) in
  exists site' c,
    student_complaint_detail now user POST k form site
    = (Ok (Redirect [(SUCCESS, "Your comment has been added.")]), site')
    /\ site_db site' = site_db site
    /\ comments site !! j = None
    /\ comments site' !! j = Some c
    /\ is_internal c = false
    /\ cc_complaint c = Some k /\ cc_author c = Some (u_pk user)
    /\ content c = post_content form /\ cc_created_at c = now
    /\ (forall j', j' <> j -> comments site' !! j' = comments site !! j').
Proof.
  intros Hrole Hrow Hown Hcontent j.
  unfold student_complaint_detail.
  rewrite bool_decide_eq_false_2 by (rewrite Hrole; intros H; apply H; by left).
  rewrite Hrow, bool_decide_eq_true_2 by done.
  unfold ComplaintCommentForm_save. rewrite bool_decide_eq_true_2 by done.
  eexists _, _. split; [reflexivity|]. simpl. fold j.
  split_and!; [done|apply next_pk_fresh|apply lookup_insert_eq|done..|].
  intros j' Hj'. by apply lookup_insert_ne.
Qed.

(** X23.  A student can neither read nor comment on a complaint that is not
    their own: the view raises [Http404], as for a complaint that does not
    exist, and writes nothing. *)
Theorem student_cannot_open_anothers_complaint now user method k form site :
  role user = STUDENT ->
  (forall row, complaints (site_db site) !! k = Some row -> student row <> u_pk user) ->
  student_complaint_detail now user method k form site = (Raise Http404, site).
Proof.
  intros Hrole Hother. unfold student_complaint_detail.
  rewrite bool_decide_eq_false_2 by (rewrite Hrole; intros H; apply H; by left).
  destruct (complaints (site_db site) !! k) as [row|] eqn:Hrow; [|done].
  rewrite bool_decide_eq_false_2; [done|]. by apply Hother.
Qed.

(** The page a student gets of a complaint of their own shows exactly the
    stored comments of that complaint that are not internal. *)
Lemma student_page_shows_public_comments now user k form site row :
  role user = STUDENT ->
  complaints (site_db site) !! k = Some row ->
  student row = u_pk user ->
  exists shown,
    student_complaint_detail now user GET k form site = (Ok (Page k shown), site)
    /\ forall c,
         c ∈ shown <->
         (exists j, comments site !! j = Some c)
         /\ cc_complaint c = Some k /\ is_internal c = false.
Proof.
  intros Hrole Hrow Hown. unfold student_complaint_detail.
  rewrite bool_decide_eq_false_2 by (rewrite Hrole; intros H; apply H; by left).
  rewrite Hrow, bool_decide_eq_true_2 by done.
  eexists. split; [reflexivity|]. intros c.
  rewrite elem_of_Complaint_comments, negb_true_iff. done.
Qed.

Lemma staff_update_complaint_page_saved now user k form comment_form site row s :
  role user = STAFF ->
  complaints (site_db site) !! k = Some row ->
  assigned_staff row = None \/ assigned_staff row = Some (u_pk user) ->
  post_status form = Some s ->
  from_option (active_staff (site_db site)) true (post_assigned_staff form) = true ->
  post_content comment_form <> "" ->
  staff_update_complaint_page now user POST k form comment_form site =
  (Ok (Redirect [(SUCCESS, "Complaint updated successfully!")]),
   {| site_db :=
        with_complaints (<[k := updated now user k form s row]>
                           (complaints (site_db site))) (site_db site);
      comments :=
        <[next_pk (comments site) :=
            staff_comment now user k (next_pk (comments site)) comment_form]>
          (comments site) |}).
Proof.
  intros Hrole Hrow Hmine Hs Hstaff Hcontent. unfold staff_update_complaint_page.
  rewrite bool_decide_eq_false_2 by (rewrite Hrole; intros H; apply H; by left).
  rewrite Hrow.
  assert (bool_decide (assigned_staff (load (k, row)) <> None)
          && bool_decide (assigned_staff (load (k, row)) <> Some (u_pk user))
          = false) as ->.
  { simpl. destruct Hmine as [-> | ->].
    - by rewrite bool_decide_eq_false_2 by auto.
    - rewrite (bool_decide_eq_false_2 (_ <> Some _)) by auto.
      by rewrite andb_false_r. }
  unfold ComplaintStatusUpdateForm_save. rewrite Hs, Hstaff.
  unfold ComplaintCommentForm_save.
  rewrite (bool_decide_eq_true_2 (post_content comment_form <> "")) by done.
  rewrite (bool_decide_eq_false_2 (role user = STUDENT)) by (by rewrite Hrole).
  destruct (post_assigned_staff form) as [t|] eqn:Ht; simpl;
    rewrite (Complaint_save_existing _ _ _ k row) by done;
    unfold updated, ComplaintComment_save, staff_comment; simpl; by rewrite Ht.
Qed.

(** X24.  A note that a staff member marks internal never reaches the student.
    After an update that stores a comment, the page of the student who owns
    the complaint shows what it showed before when the comment is internal,
    and shows the new comment as well when it is not. *)
Theorem internal_note_stays_internal now now' staff owner k form comment_form
    any site row s :
  role staff = STAFF ->
  role owner = STUDENT ->
  complaints (site_db site) !! k = Some row ->
  student row = u_pk owner ->
  assigned_staff row = None \/ assigned_staff row = Some (u_pk staff) ->
  post_status form = Some s ->
  from_option (active_staff (site_db site)) true (post_assigned_staff form) = true ->
  post_content comment_form <> "" ->
  exists site' shown shown',
    staff_update_complaint_page now staff POST k form comment_form site
    = (Ok (Redirect [(SUCCESS, "Complaint updated successfully!")]), site')
    /\ student_complaint_detail now' owner GET k any site = (Ok (Page k shown), site)
    /\ student_complaint_detail now' owner GET k any site' = (Ok (Page k shown'), site')
    /\ (forall c, c ∈ shown -> c ∈ shown')
    /\ (post_is_internal comment_form = true -> forall c, c ∈ shown' -> c ∈ shown)
    /\ (post_is_internal comment_form = false ->
        staff_comment now staff k (next_pk (comments site)) comment_form ∈ shown').
Proof.
  intros Hstaff Howner Hrow Hown Hmine Hs Hactive Hcontent.
  rewrite (staff_update_complaint_page_saved _ _ _ _ _ _ row s) by done.
  set (j := next_pk (comments site)).
  set (site' := {| site_db := _; comments := _ |}).
  destruct (student_page_shows_public_comments now' owner k any site row)
    as (shown & Hpage & Hshown); [done..|].
  destruct (student_page_shows_public_comments now' owner k any site'
              (updated now staff k form s row))
    as (shown' & Hpage' & Hshown'); [done| | |].
  { simpl. apply lookup_insert_eq. }
  { unfold updated. simpl.
    destruct (same_origin_prepared now row
                (set_assigned_staff
                   (Some (default (u_pk staff) (post_assigned_staff form)))
                   (set_solution (Some (post_solution form))
                      (set_status s (load (k, row)))))) as [-> _].
    exact Hown. }
  pose proof (next_pk_fresh (comments site)) as Hfresh. fold j in Hfresh.
  exists site', shown, shown'. split_and!; [done..| | |].
  - intros c [[j0 Hj0] Hc]%Hshown. apply Hshown'. split; [|done].
    exists j0. simpl. rewrite lookup_insert_ne; [done|]. congruence.
  - intros Hint c [[j0 Hj0] [Hk Hpub]]%Hshown'. apply Hshown. split; [|done].
    exists j0. simpl in Hj0.
    destruct (decide (j = j0)) as [<-|Hne].
    + rewrite lookup_insert_eq in Hj0. injection Hj0 as <-.
      simpl in Hpub. congruence.
    + by rewrite lookup_insert_ne in Hj0.
  - intros Hpub. apply Hshown'. split_and!; [|done..].
    exists j. simpl. apply lookup_insert_eq.
Qed.

Lemma internal_note_stays_internal_witness :
  exists site' shown shown',
    staff_update_complaint_page 60 Scenario.bob POST 1
      (Scenario.status_form IN_PROGRESS None) (Forum.comment_form true) Forum.site
    = (Ok (Redirect [(SUCCESS, "Complaint updated successfully!")]), site')
    /\ student_complaint_detail 70 Scenario.alice GET 1 (Forum.comment_form false)
         Forum.site = (Ok (Page 1 shown), Forum.site)
    /\ student_complaint_detail 70 Scenario.alice GET 1 (Forum.comment_form false)
         site' = (Ok (Page 1 shown'), site')
    /\ (forall c, c ∈ shown -> c ∈ shown')
    /\ (true = true -> forall c, c ∈ shown' -> c ∈ shown)
    /\ (true = false ->
        staff_comment 60 Scenario.bob 1 (next_pk (comments Forum.site))
          (Forum.comment_form true) ∈ shown').
Proof.
  eapply (internal_note_stays_internal 60 70 Scenario.bob Scenario.alice 1
            (Scenario.status_form IN_PROGRESS None) (Forum.comment_form true)
            (Forum.comment_form false) Forum.site Desk.urgent_row IN_PROGRESS).
  - reflexivity.
  - reflexivity.
  - vm_compute. reflexivity.
  - reflexivity.
  - left. reflexivity.
  - reflexivity.
  - reflexivity.
  - discriminate.
Defined.

Lemma student_comment_is_public_witness :
  exists site' c,
    student_complaint_detail 70 Scenario.alice POST 1 (Forum.comment_form true)
      Forum.site
    = (Ok (Redirect [(SUCCESS, "Your comment has been added.")]), site')
    /\ comments site' !! 2%positive = Some c
    /\ is_internal c = false.
Proof.
  destruct (student_comment_is_public 70 Scenario.alice 1 (Forum.comment_form true)
              Forum.site Desk.urgent_row)
    as (site' & c & Hrun & _ & _ & Hc & Hpublic & _).
  - reflexivity.
  - vm_compute. reflexivity.
  - reflexivity.
  - discriminate.
  - exists site', c. split_and!; [exact Hrun|exact Hc|exact Hpublic].
Defined.

Lemma student_cannot_open_anothers_complaint_witness :
  student_complaint_detail 70 Forum.erin POST 1 (Forum.comment_form false) Forum.site
  = (Raise Http404, Forum.site).
Proof.
  apply student_cannot_open_anothers_complaint.
  - reflexivity.
  - intros row Hrow. simpl in Hrow. rewrite urgent_db_rows in Hrow.
    apply lookup_singleton_Some in Hrow as [_ <-]. discriminate.
Defined.
